(** * Draftsman blueprints: export, import, insertion and validation

  A shallow embedding of the parts of [draftsman/classes/blueprint.py] and
  [draftsman/signatures.py] that decide how a [Blueprint] is validated,
  grown and turned into its flat, integer-indexed external form, and of
  the validators of [draftsman/signatures.py],
  [draftsman/classes/blueprintable.py] and
  [draftsman/prototypes/constant_combinator.py] that normalise and check
  what an entity or a blueprint is given.

  Python exceptions are values of [exn]; a function that can raise returns
  [exn + A].  A method that mutates [self] before raising returns the state
  it leaves behind next to the exception. *)

From Stdlib Require Import ZArith QArith Qminmax Qround String List Bool Lia Lqa.
From stdpp Require Import base option list strings gmap.

Set Warnings "-register-all".

Local Open Scope string_scope.
Local Open Scope Z_scope.
Local Open Scope list_scope.

(** ** Python prelude *)

Module Py.

(** [x <- m ;; k] : sequencing of computations that may raise. *)
Definition bind {E A B : Type} (m : E + A) (k : A -> E + B) : E + B :=
  match m with
  | inl e => inl e
  | inr a => k a
  end.

(** [for x in l: f x], collecting the results; the first exception aborts
    the loop. *)
Fixpoint for_each {E A B : Type} (f : A -> E + B) (l : list A) : E + list B :=
  match l with
  | [] => inr []
  | x :: l' =>
      match f x with
      | inl e => inl e
      | inr y =>
          match for_each f l' with
          | inl e => inl e
          | inr ys => inr (y :: ys)
          end
      end
  end.

(** [l.index(x)] : position of the first element that compares equal to
    [x]; [None] stands for the [ValueError] Python raises when there is
    none. *)
Fixpoint index {A : Type} (equal : A -> A -> bool) (l : list A) (x : A) : option nat :=
  match l with
  | [] => None
  | y :: l' => if equal y x then Some 0%nat else S <$> index equal l' x
  end.

(** [l[i]] for an integer [i]: negative indices count from the end;
    [None] stands for [IndexError]. *)
Definition getitem {A : Type} (l : list A) (i : Z) : option A :=
  if (0 <=? i)%Z then l !! Z.to_nat i
  else if (0 <=? Z.of_nat (length l) + i)%Z then l !! Z.to_nat (Z.of_nat (length l) + i)
  else None.

(** [enumerate(l, start)] *)
Fixpoint enumerate {A : Type} (start : Z) (l : list A) : list (Z * A) :=
  match l with
  | [] => []
  | x :: l' => (start, x) :: enumerate (start + 1) l'
  end.

(** [range(start, start + n)] *)
Fixpoint range (start : Z) (n : nat) : list Z :=
  match n with
  | O => []
  | S n' => start :: range (start + 1) n'
  end.

End Py.

Notation "x <- m ;; k" := (Py.bind m (fun x => k))
(at level 100, m at next level, right associativity, only parsing).

(** ** signatures.py *)

Module Signatures.

(** [draftsman.constants.ValidationMode] *)
Inductive ValidationMode := NONE | MINIMUM | STRICT | PEDANTIC.

Definition mode_eqb (a b : ValidationMode) : bool :=
  match a, b with
  | NONE, NONE | MINIMUM, MINIMUM | STRICT, STRICT | PEDANTIC, PEDANTIC => true
  | _, _ => false
  end.

(** The [UnknownKeywordWarning] built by [warn_unused_arguments]:
    the model's title, the unknown keys and the allowed fields. *)
Record UnknownKeywordWarning := {
  warned_title : string;
  warned_keys : list string;
  allowed_fields : list (string * string)
}.

(** A [DraftsmanBaseModel] instance whose declared fields have been
    validated; [model_extra] holds the unrecognised keys, which
    [extra="allow"] keeps. *)
Record Model := {
  model_type : string;                          (* type(self) *)
  model_title : string;                         (* model_config.get("title", type(self).__name__) *)
  true_model_fields : list (string * string);   (* alias or name -> name *)
  model_extra : list (string * string)          (* unknown key -> value *)
}.

(** [info.context], a dict; the keys the validators read, each present or
    not.  [object] is kept as [type(obj).Format]. *)
Record Context := {
  mode : option ValidationMode;
  object : option string;
  warning_list : option (list UnknownKeywordWarning);
  assignment : option bool;
  construction : option bool
}.

Inductive exn :=
| KeyError (key : string)
| ValueError (issue : UnknownKeywordWarning)
| ValidationError.

(** [d[key]] on the context. *)
Definition lookup_key {A : Type} (key : string) (entry : option A) : exn + A :=
  match entry with
  | Some v => inr v
  | None => inl (KeyError key)
  end.

(** [key in d] *)
Definition present {A : Type} (entry : option A) : bool :=
  match entry with Some _ => true | None => false end.

(** Truth value of [info.context]: [None] and the empty dict are false. *)
Definition truthy (context : option Context) : bool :=
  match context with
  | None => false
  | Some c =>
      present (mode c) || present (object c) || present (warning_list c)
      || present (assignment c) || present (construction c)
  end.

Definition set_warning_list (c : Context) (l : list UnknownKeywordWarning) : Context :=
  {| mode := mode c; object := object c; warning_list := Some l;
     assignment := assignment c; construction := construction c |}.

(** The [UnknownKeywordWarning] for the unknown keys of [self]. *)
Definition issue_of (self : Model) : UnknownKeywordWarning :=
  {| warned_title := model_title self;
     warned_keys := (model_extra self).*1;
     allowed_fields := true_model_fields self |}.

(** [DraftsmanBaseModel.warn_unused_arguments] (signatures.py, 236-271).
    The method returns [self]; what it changes is the list held by the
    context, so the context it leaves is the result. *)
Definition warn_unused_arguments (self : Model) (context : option Context)
  : exn + option Context :=
  match context with
  | None => inr context                                 (* if not info.context *)
  | Some c =>
      if negb (truthy context) then inr context else
      m <- lookup_key "mode" (mode c) ;;
      if mode_eqb m MINIMUM then inr context else
      obj <- lookup_key "object" (object c) ;;
      skip <- (if String.eqb obj (model_type self)
               then lookup_key "assignment" (assignment c)
               else inr false) ;;
      if (skip : bool) then inr context else
      match model_extra self with
      | [] => inr context
      | _ :: _ =>
          wl <- lookup_key "warning_list" (warning_list c) ;;
          let issue := issue_of self in
          if mode_eqb m PEDANTIC then inl (ValueError issue)
          else inr (Some (set_warning_list c (wl ++ [issue])))
      end
  end.

(** *** Color *)

(** What [Color] is built from: a list or tuple of numbers, or a mapping
    with those of the keys ["r"], ["g"], ["b"], ["a"] it has. *)
Inductive ColorInput :=
| Sequence (value : list Q)
| Mapping (r g b a : option Q).

(** A validated [Color] (signatures.py, 880-884); [a] is [None] when it
    was not given. *)
Record Color := {
  color_r : Q;
  color_g : Q;
  color_b : Q;
  color_a : option Q
}.

Inductive color_exn :=
| IndexError
| ColorValidationError.

(** [Color.normalize_from_sequence] (signatures.py, 886-900). *)
Definition normalize_from_sequence (value : ColorInput) : color_exn + ColorInput :=
  match value with
  | Sequence l =>
      match Py.getitem l 0, Py.getitem l 1, Py.getitem l 2 with
      | Some r, Some g, Some b =>
          (* try: new_color["a"] = value[3]  except IndexError: pass *)
          inr (Mapping (Some r) (Some g) (Some b) (Py.getitem l 3))
      | _, _, _ => inl IndexError
      end
  | Mapping _ _ _ _ => inr value
  end.

(** [Field(..., ge=0, le=255)] *)
Definition within_bounds (v : Q) : bool := Qle_bool 0 v && Qle_bool v 255.

(** The field constraints of [Color]: [r], [g], [b] required, [a] optional
    with default [None], each within [0, 255]. *)
Definition validate_fields (value : ColorInput) : color_exn + Color :=
  match value with
  | Mapping (Some r) (Some g) (Some b) a =>
      if within_bounds r && within_bounds g && within_bounds b
         && match a with Some a => within_bounds a | None => true end
      then inr {| color_r := r; color_g := g; color_b := b; color_a := a |}
      else inl ColorValidationError
  | _ => inl ColorValidationError
  end.

(** [Color.model_validate]: the [mode="before"] validator, then the
    fields. *)
Definition Color_validate (value : ColorInput) : color_exn + Color :=
  normalized <- normalize_from_sequence value ;;
  validate_fields normalized.

(** The alpha of the input, when it gives one. *)
Definition given_alpha (value : ColorInput) : option Q :=
  match value with
  | Sequence l => Py.getitem l 3
  | Mapping _ _ _ a => a
  end.

(** Full opacity on the scale the components suggest: [1.0] when all of
    them are at most [1.0], [255] otherwise. *)
Definition full_opacity (c : Color) : Q :=
  if Qle_bool (color_r c) 1 && Qle_bool (color_g c) 1 && Qle_bool (color_b c) 1
  then 1%Q else 255%Q.

(** *** Validation of one model *)

(** pydantic validates the declared fields of a model first and runs its
    [mode="after"] validators only when they passed.  Which values it
    accepts for a field is pydantic's own and is not modelled: [payload]
    is what that first stage leaves, the instance, or [None] when it
    raised its [ValidationError].  A [ValueError] raised by a validator
    comes out as a [ValidationError]. *)
Definition model_validate (payload : option Model) (context : option Context)
  : exn + option Context :=
  match payload with
  | None => inl ValidationError
  | Some self =>
      match warn_unused_arguments self context with
      | inl (ValueError _) => inl ValidationError
      | outcome => outcome
      end
  end.

Record ValidationResult := {
  error_list : list exn;
  result_warnings : list UnknownKeywordWarning
}.

(** [Blueprint.validate] (blueprint.py, 1161-1210) on a root whose model
    type is [format]: only a [ValidationError] is caught. *)
Definition validate (format : string) (root : option Model) (m : ValidationMode)
  (is_valid force : bool) : exn + ValidationResult :=
  let output := {| error_list := []; result_warnings := [] |} in
  if mode_eqb m NONE || (is_valid && negb force) then inr output else
  let context := {| mode := Some m; object := Some format;
                    warning_list := Some []; assignment := Some false;
                    construction := None |} in
  match model_validate root (Some context) with
  | inl ValidationError =>
      inr {| error_list := [ValidationError]; result_warnings := [] |}
  | inl e => inl e
  | inr context' =>
      inr {| error_list := [];
             result_warnings := default [] (context' ≫= warning_list) |}
  end.

End Signatures.


(** ** blueprint.py: the external representation *)

(** The Python types the export code handles without looking inside:
    entity, tile and schedule objects, [Association]s (weak references to
    entity objects), floats, the pydantic root model and every other
    value. *)
Class Values := {
  Association : Type;
  float : Type;
  Any : Type
}.

Class Types := {
  values :: Values;
  Entity : Type;
  Tile : Type;
  Schedule : Type;
  Root : Type
}.

Module BlueprintExport.

Section Data.
Context `{V : Values}.

(** The value of ["entity_id"], of a ["neighbours"] item and of a
    ["locomotives"] item: an [Association] in memory, an int in the
    external representation. *)
Inductive ref :=
| Assoc (a : Association)
| Number (n : Z).

Record Position := { x : float; y : float }.

(** [CircuitConnectionPoint] and [WireConnectionPoint]: ["entity_id"] and an
    optional ["circuit_id"] or ["wire_id"]. *)
Record ConnectionPoint := {
  entity_id : ref;
  side_id : option Z
}.

(** [Connections.CircuitConnections] (signatures.py, 1104-1106). *)
Record CircuitConnections := {
  red : option (list ConnectionPoint);
  green : option (list ConnectionPoint)
}.

(** [Connections] (signatures.py, 1091-1111): the keys ["1"], ["2"],
    ["Cu0"] and ["Cu1"], each present or not. *)
Record Connections := {
  Wr1 : option CircuitConnections;
  Wr2 : option CircuitConnections;
  Cu0 : option (list ConnectionPoint);
  Cu1 : option (list ConnectionPoint)
}.

(** The dict an entity's [to_dict()] returns; keys that may be missing are
    options. *)
Record EntityDict := {
  name : string;
  position : Position;
  entity_number : option Z;
  connections : option Connections;
  neighbours : option (list ref);
  attributes : Any
}.

Record TileDict := {
  tile_name : string;
  tile_position : Z * Z
}.

Record ScheduleDict := {
  schedule : Any;
  locomotives : list ref
}.

(** [result["blueprint"]]: the keys [to_dict] reads, writes or deletes, each
    present or not, and the remaining metadata. *)
Record BlueprintDict := {
  metadata : Any;
  snap_to_grid : option (Z * Z);
  position_relative_to_grid : option (Z * Z);
  entities : option (list EntityDict);
  tiles : option (list TileDict);
  schedules : option (list ScheduleDict)
}.

(** The references an entity dict holds, in the order the loops of
    [_normalize_internal_structure] visit them. *)
Definition point_refs (ps : option (list ConnectionPoint)) : list ref :=
  entity_id <$> default [] ps.

Definition circuit_refs (c : option CircuitConnections) : list ref :=
  match c with
  | None => []
  | Some c => point_refs (red c) ++ point_refs (green c)
  end.

Definition entity_refs (d : EntityDict) : list ref :=
  match connections d with
  | None => []
  | Some c => circuit_refs (Wr1 c) ++ circuit_refs (Wr2 c)
              ++ point_refs (Cu0 c) ++ point_refs (Cu1 c)
  end ++ default [] (neighbours d).

(** The same dict with [f] applied to every reference. *)
Definition map_point (f : ref -> ref) (p : ConnectionPoint) : ConnectionPoint :=
  {| entity_id := f (entity_id p); side_id := side_id p |}.

Definition map_points (f : ref -> ref) (ps : option (list ConnectionPoint))
  : option (list ConnectionPoint) :=
  fmap (M := list) (map_point f) <$> ps.

Definition map_circuit (f : ref -> ref) (c : option CircuitConnections)
  : option CircuitConnections :=
  (fun c => {| red := map_points f (red c); green := map_points f (green c) |}) <$> c.

Definition map_connections (f : ref -> ref) (c : Connections) : Connections :=
  {| Wr1 := map_circuit f (Wr1 c); Wr2 := map_circuit f (Wr2 c);
     Cu0 := map_points f (Cu0 c); Cu1 := map_points f (Cu1 c) |}.

Definition map_entity (f : ref -> ref) (d : EntityDict) : EntityDict :=
  {| name := name d; position := position d; entity_number := entity_number d;
     connections := map_connections f <$> connections d;
     neighbours := fmap (M := list) f <$> neighbours d;
     attributes := attributes d |}.

Definition map_schedule (f : ref -> ref) (s : ScheduleDict) : ScheduleDict :=
  {| schedule := schedule s; locomotives := f <$> locomotives s |}.

(** What [_throw_invalid_association] may be handed.
    Modelled from the spec: [Association] ([association.py] is missing) is "a
    callable that dereferences to [None] once the target is destroyed", a
    weak reference: it can be called, it cannot be subscripted. *)
Inductive PyObject :=
| Dict (d : EntityDict)
| WeakRef (a : Association)
| Int (n : Z).

Inductive exn :=
| DraftsmanError
| InvalidAssociationError (entity_name : string) (entity_position : Position)
| TypeError
| ValueError.

(** [_throw_invalid_association] (blueprint.py, 141-146): subscripting
    anything but the dict of an entity is a [TypeError]. *)
Definition _throw_invalid_association (entity : PyObject) : exn :=
  match entity with
  | Dict d => InvalidAssociationError (name d) (position d)
  | WeakRef _ => TypeError
  | Int _ => TypeError
  end.

Definition set_entity_number (d : EntityDict) (n : Z) : EntityDict :=
  {| name := name d; position := position d; entity_number := Some n;
     connections := connections d; neighbours := neighbours d;
     attributes := attributes d |}.

Definition object_of (r : ref) : PyObject :=
  match r with
  | Assoc a => WeakRef a
  | Number n => Int n
  end.

(** The dict that comes out of the two loops over the entities keeps what
    [to_dict()] of the entity gave, apart from the references. *)
Definition same_payload (r d : EntityDict) : Prop :=
  name d = name r /\ position d = position r /\ attributes d = attributes r.

End Data.

Section Objects.
Context `{T : Types}.

(** A composite is a group of entity-likes; [get()] of a primitive is the
    entity itself. *)
Inductive EntityLike :=
| Primitive (e : Entity)
| Group (entities : list EntityLike).

(** The blueprint as [to_dict] sees it. *)
Record Blueprint := {
  _root : Root;
  snapping_grid_position : Z * Z;
  _entities : list EntityLike;
  _tiles : list Tile;
  _schedules : list Schedule
}.

End Objects.

Arguments EntityLike {T}.
Arguments ref {V}.
Arguments Position {V}.
Arguments ConnectionPoint {V}.
Arguments CircuitConnections {V}.
Arguments Connections {V}.
Arguments EntityDict {V}.
Arguments TileDict : clear implicits.
Arguments ScheduleDict {V}.
Arguments BlueprintDict {V}.
Arguments PyObject {V}.
Arguments exn {V}.
Arguments Blueprint {T}.

(** Code of the repository that [blueprint.py] calls and that is not part of
    the sources at hand. *)
Class Runtime (T : Types) := {
  (** [a()] : the referent of an [Association], [None] once it is gone. *)
  call : Association -> option Entity;
  (** [x is y or x == y], the test [list.index] applies; [==] is
      [Entity.__eq__]. *)
  py_equal : Entity -> Entity -> bool;
  (** [entity.to_dict()], the dict as a value; [None] when what it returns
      is not a dict. *)
  Entity_to_dict : Entity -> option EntityDict;
  (** [tile.to_dict()] and [schedule.to_dict()], as values too. *)
  Tile_to_dict : Tile -> TileDict;
  Schedule_to_dict : Schedule -> ScheduleDict;
  (** [x - n] for a float [x] and an int [n]. *)
  float_sub : float -> Z -> float;
  (** [Exportable.to_dict], which dumps [self._root]. *)
  Exportable_to_dict : Root -> bool -> bool -> BlueprintDict
}.

Section Code.
Context `{R : Runtime}.

(** Modelled from the spec: [draftsman.utils.flatten_entities] is missing;
    it "recursively expand[s] any composite/group objects into a single
    flat ordered sequence of primitive entities". *)
Fixpoint flatten_entity (e : EntityLike) : list Entity :=
  match e with
  | Primitive e => [e]
  | Group l => flat_map flatten_entity l
  end.

Definition flatten_entities (collection : list EntityLike) : list Entity :=
  flat_map flatten_entity collection.

(** The body shared by the three loops (blueprint.py, 173-179, 184-190,
    195-198, 232-235): [old() is None] throws for [entity], otherwise the
    reference becomes [flattened_entities.index(old()) + 1]. *)
Definition resolve (flattened_entities : list Entity) (entity : PyObject) (old : ref)
  : exn + ref :=
  match old with
  | Number _ => inl TypeError                    (* an int is not callable *)
  | Assoc a =>
      match call a with
      | None => inl (_throw_invalid_association entity)
      | Some target =>
          match Py.index py_equal flattened_entities target with
          | None => inl ValueError
          | Some i => inr (Number (Z.of_nat i + 1))
          end
      end
  end.

(** [new] is what the export puts in the place of [old]: [old] is an
    [Association] whose referent is alive, and [new] is 1 plus the first
    position of the flattened list whose entity compares equal to the
    referent. *)
Definition resolved (fl : list Entity) (old new : ref) : Prop :=
  exists a target i,
    old = Assoc a /\ call a = Some target
    /\ Py.index py_equal fl target = Some i
    /\ new = Number (Z.of_nat i + 1).

Definition resolve_point (flattened_entities : list Entity) (entity : PyObject)
  (point : ConnectionPoint) : exn + ConnectionPoint :=
  id <- resolve flattened_entities entity (entity_id point) ;;
  inr {| entity_id := id; side_id := side_id point |}.

(** [for point in connection_points], when the key is there. *)
Definition resolve_points (flattened_entities : list Entity) (entity : PyObject)
  (connection_points : option (list ConnectionPoint))
  : exn + option (list ConnectionPoint) :=
  match connection_points with
  | None => inr None
  | Some points =>
      points' <- Py.for_each (resolve_point flattened_entities entity) points ;;
      inr (Some points')
  end.

(** [for color in connections[side]] for the sides ["1"] and ["2"]
    (blueprint.py, 169-179). *)
Definition resolve_circuit (flattened_entities : list Entity) (entity : PyObject)
  (side : option CircuitConnections) : exn + option CircuitConnections :=
  match side with
  | None => inr None
  | Some colors =>
      r <- resolve_points flattened_entities entity (red colors) ;;
      g <- resolve_points flattened_entities entity (green colors) ;;
      inr (Some {| red := r; green := g |})
  end.

(** [for side in connections] (blueprint.py, 168-190): the sides in the
    order of the fields of [Connections]. *)
Definition resolve_connections (flattened_entities : list Entity) (entity : PyObject)
  (c : Connections) : exn + Connections :=
  w1 <- resolve_circuit flattened_entities entity (Wr1 c) ;;
  w2 <- resolve_circuit flattened_entities entity (Wr2 c) ;;
  c0 <- resolve_points flattened_entities entity (Cu0 c) ;;
  c1 <- resolve_points flattened_entities entity (Cu1 c) ;;
  inr {| Wr1 := w1; Wr2 := w2; Cu0 := c0; Cu1 := c1 |}.

(** First loop of [_normalize_internal_structure] (blueprint.py, 149-163). *)
Definition number_entities (flattened_entities : list Entity) : exn + list EntityDict :=
  Py.for_each (fun ie : Z * Entity =>
      match Entity_to_dict ie.2 with
      | None => inl DraftsmanError
      | Some result => inr (set_entity_number result (ie.1 + 1))
      end)
    (Py.enumerate 0 flattened_entities).

(** One iteration of the second loop (blueprint.py, 165-198). *)
Definition resolve_entity (flattened_entities : list Entity) (entity : EntityDict)
  : exn + EntityDict :=
  conns <- match connections entity with
           | None => inr None
           | Some c => c' <- resolve_connections flattened_entities (Dict entity) c ;;
                       inr (Some c')
           end ;;
  neigh <- match neighbours entity with
           | None => inr None
           | Some ns => ns' <- Py.for_each (resolve flattened_entities (Dict entity)) ns ;;
                        inr (Some ns')
           end ;;
  inr {| name := name entity; position := position entity;
         entity_number := entity_number entity;
         connections := conns; neighbours := neigh;
         attributes := attributes entity |}.

(** One iteration of the loop over [schedules_out] (blueprint.py, 230-235):
    what is handed to [_throw_invalid_association] is the locomotive. *)
Definition resolve_schedule (flattened_entities : list Entity) (s : ScheduleDict)
  : exn + ScheduleDict :=
  locos <- Py.for_each (fun locomotive =>
             resolve flattened_entities (object_of locomotive) locomotive)
             (locomotives s) ;;
  inr {| schedule := schedule s; locomotives := locos |}.

(** [_normalize_internal_structure] (blueprint.py, 138-237). *)
Definition _normalize_internal_structure (input_root : BlueprintDict)
  (entities_in : list EntityLike) (tiles_in : list Tile)
  (schedules_in : list Schedule) : exn + BlueprintDict :=
  let flattened_entities := flatten_entities entities_in in
  entities_out <- number_entities flattened_entities ;;
  entities_out <- Py.for_each (resolve_entity flattened_entities) entities_out ;;
  let tiles_out := Tile_to_dict <$> tiles_in in
  let schedules_out := Schedule_to_dict <$> schedules_in in
  schedules_out <- Py.for_each (resolve_schedule flattened_entities) schedules_out ;;
  inr {| metadata := metadata input_root;
         snap_to_grid := snap_to_grid input_root;
         position_relative_to_grid := position_relative_to_grid input_root;
         entities := Some entities_out;
         tiles := Some tiles_out;
         schedules := Some schedules_out |}.

Definition offset_entity (grid : Z * Z) (entity : EntityDict) : EntityDict :=
  {| name := name entity;
     position := {| x := float_sub (x (position entity)) grid.1;
                    y := float_sub (y (position entity)) grid.2 |};
     entity_number := entity_number entity;
     connections := connections entity; neighbours := neighbours entity;
     attributes := attributes entity |}.

Definition offset_tile (grid : Z * Z) (tile : TileDict) : TileDict :=
  {| tile_name := tile_name tile;
     tile_position := ((tile_position tile).1 - grid.1, (tile_position tile).2 - grid.2) |}.

Definition is_origin (p : Z * Z) : bool := Z.eqb p.1 0 && Z.eqb p.2 0.

(** [del d[key]] when [key in d] and the value is [{"x": 0, "y": 0}]. *)
Definition drop_origin (v : option (Z * Z)) : option (Z * Z) :=
  match v with
  | Some p => if is_origin p then None else Some p
  | None => None
  end.

(** [del d[key]] when [len(d[key]) == 0]; the key is there. *)
Definition drop_empty {A : Type} (v : list A) : option (list A) :=
  match v with
  | [] => None
  | _ :: _ => Some v
  end.

(** [Blueprint.to_dict] (blueprint.py, 1212-1296), on values: what the
    returned dict holds.  The three list keys are read right after
    [_normalize_internal_structure] has set them.  The attributes of
    [self] are not assigned to, and it is returned as the second
    component; which objects the two offset loops write to is the matter of
    [ExportOffset]. *)
Definition to_dict (self : Blueprint) (exclude_none exclude_defaults : bool)
  : (exn + BlueprintDict) * Blueprint :=
  let result := Exportable_to_dict (_root self) exclude_none exclude_defaults in
  (result <- _normalize_internal_structure result
               (_entities self) (_tiles self) (_schedules self) ;;
   let es := offset_entity (snapping_grid_position self) <$> default [] (entities result) in
   let ts := offset_tile (snapping_grid_position self) <$> default [] (tiles result) in
   inr {| metadata := metadata result;
          snap_to_grid := drop_origin (snap_to_grid result);
          position_relative_to_grid := drop_origin (position_relative_to_grid result);
          entities := drop_empty es;
          tiles := drop_empty ts;
          schedules := drop_empty (default [] (schedules result)) |},
   self).

End Code.
End BlueprintExport.


(** ** blueprint.py: construction from the external representation *)

Module BlueprintImport.
Import BlueprintExport.

(** The pydantic root of a blueprint, as far as [to_dict] needs it: the
    metadata and the two private vectors the serializers read. *)
Record RootModel (A : Type) := {
  root_metadata : A;
  _snap_to_grid : Z * Z;
  _position_relative_to_grid : Z * Z
}.

Arguments root_metadata {A}.
Arguments _snap_to_grid {A}.
Arguments _position_relative_to_grid {A}.

(** A blueprint built from its external representation holds a flat list
    of entities; the entity object at position [i] of the list is address
    [i], and an [Association] is the address of its referent. *)
Definition ImportedValues (F A : Type) : Values :=
  {| Association := nat; float := F; Any := A |}.

Definition Imported (F A : Type) : Types :=
  {| values := ImportedValues F A;
     Entity := nat; Tile := TileDict;
     Schedule := @ScheduleDict (ImportedValues F A);
     Root := RootModel A |}.

Section Code.
Context {F A : Type}.
#[local] Existing Instance Imported.
#[local] Abbreviation T := (Imported F A).
#[local] Abbreviation V := (ImportedValues F A).

Inductive exn :=
| IndexError
| TypeError.

(** The blueprint once the loops at the end of [setup] have run: the
    attributes of the entity objects by address, the tiles and the
    schedules. *)
Record Memory := {
  root : RootModel A;
  grid_position : Z * Z;                         (* _snapping_grid_position *)
  entity_objects : list (@EntityDict V);
  tile_objects : list TileDict;
  schedule_objects : list (@ScheduleDict V)
}.

(** Modelled from the spec: the construction of an entity object from its
    dict ([EntityList], [new_entity] and the entity classes are missing):
    the object keeps the payload; the entity number is not part of it. *)
Definition new_entity (d : @EntityDict V) : @EntityDict V :=
  {| name := name d; position := position d; entity_number := None;
     connections := connections d; neighbours := neighbours d;
     attributes := attributes d |}.

(** [Association(self.entities[number - 1])] (blueprint.py, 545-546,
    553-554, 559, 564). *)
Definition associate (entities : list nat) (number : @ref V) : exn + @ref V :=
  match number with
  | Assoc _ => inl TypeError                      (* an Association minus 1 *)
  | Number n =>
      match Py.getitem entities (n - 1) with
      | Some e => inr (Assoc (e : @Association V))
      | None => inl IndexError
      end
  end.

Definition associate_point (entities : list nat) (point : @ConnectionPoint V)
  : exn + @ConnectionPoint V :=
  id <- associate entities (entity_id point) ;;
  inr {| entity_id := id; side_id := side_id point |}.

(** [if connection_points is None: continue], else the loop over the
    points. *)
Definition associate_points (entities : list nat)
  (connection_points : option (list (@ConnectionPoint V)))
  : exn + option (list (@ConnectionPoint V)) :=
  match connection_points with
  | None => inr None
  | Some points =>
      points' <- Py.for_each (associate_point entities) points ;;
      inr (Some points')
  end.

Definition associate_circuit (entities : list nat) (side : option (@CircuitConnections V))
  : exn + option (@CircuitConnections V) :=
  match side with
  | None => inr None
  | Some colors =>
      r <- associate_points entities (red colors) ;;
      g <- associate_points entities (green colors) ;;
      inr (Some {| red := r; green := g |})
  end.

(** One iteration of [for entity in self.entities] (blueprint.py,
    532-559). *)
Definition associate_entity (entities : list nat) (entity : @EntityDict V)
  : exn + @EntityDict V :=
  conns <- match connections entity with
           | None => inr None
           | Some c =>
               w1 <- associate_circuit entities (Wr1 c) ;;
               w2 <- associate_circuit entities (Wr2 c) ;;
               c0 <- associate_points entities (Cu0 c) ;;
               c1 <- associate_points entities (Cu1 c) ;;
               inr (Some {| Wr1 := w1; Wr2 := w2; Cu0 := c0; Cu1 := c1 |})
           end ;;
  neigh <- match neighbours entity with
           | None => inr None
           | Some ns => ns' <- Py.for_each (associate entities) ns ;;
                        inr (Some ns')
           end ;;
  inr {| name := name entity; position := position entity;
         entity_number := entity_number entity;
         connections := conns; neighbours := neigh;
         attributes := attributes entity |}.

(** One iteration of [for schedule in self.schedules] (blueprint.py,
    562-564). *)
Definition associate_schedule (entities : list nat) (s : @ScheduleDict V)
  : exn + @ScheduleDict V :=
  locos <- Py.for_each (associate entities) (locomotives s) ;;
  inr {| schedule := schedule s; locomotives := locos |}.

(** The end of [Blueprint.setup] (blueprint.py, 531-564): the loops that
    put an [Association] in the place of every number, run on lists that
    hold the entities, tiles and schedules of [x] in its order.  What
    [setup] does before them is not part of this: the setters of the
    metadata and of the grid vectors, the default of [version], the
    construction of the lists -- with the size check of
    [on_entity_insert] on every entity -- and the leftover keywords.  A
    missing list is [[]], a missing grid vector [(0, 0)], and
    [snapping_grid_position], which the external representation has no key
    for, [(0, 0)]. *)
Definition setup_associations (x : @BlueprintDict V) : exn + Memory :=
  let objects := new_entity <$> default [] (entities x) in
  let self_entities := seq 0 (length objects) in
  objects <- Py.for_each (associate_entity self_entities) objects ;;
  scheds <- Py.for_each (associate_schedule self_entities) (default [] (schedules x)) ;;
  inr {| root := {| root_metadata := metadata x;
                    _snap_to_grid := default (0, 0) (snap_to_grid x);
                    _position_relative_to_grid :=
                      default (0, 0) (position_relative_to_grid x) |};
         grid_position := (0, 0);
         entity_objects := objects;
         tile_objects := default [] (tiles x);
         schedule_objects := scheds |}.

(** [Entity.__eq__] on the objects at two addresses ([entity.py] is
    missing), and the subtraction of an int from a float. *)
Variable Entity_eq : list (@EntityDict V) -> nat -> nat -> bool.
Variable fsub : F -> Z -> F.

(** Modelled from the spec: what [to_dict] calls, on the objects of [m]
    ([association.py], [entity.py], [tile.py], [schedule.py] and
    [exportable.py] are missing).  The entities of the list are alive and
    any other address is a referent that is gone; [to_dict()] of an entity,
    a tile or a schedule is its payload; [Exportable.to_dict], "dumping
    scalar metadata", gives the metadata and the two grid vectors. *)
Definition runtime (m : Memory) : Runtime T :=
  @Build_Runtime T
    (* call *)
    (fun a : nat => if (a <? length (entity_objects m))%nat then Some a else None)
    (* py_equal *)
    (fun e1 e2 : nat => Nat.eqb e1 e2 || Entity_eq (entity_objects m) e1 e2)
    (* Entity_to_dict *)
    (fun e : nat => entity_objects m !! e)
    (* Tile_to_dict, Schedule_to_dict *)
    (fun t : TileDict => t)
    (fun s : @ScheduleDict V => s)
    (* float_sub *)
    fsub
    (* Exportable_to_dict *)
    (fun (r : RootModel A) _ _ =>
       @Build_BlueprintDict V (root_metadata r)
         (Some (_snap_to_grid r)) (Some (_position_relative_to_grid r))
         None None None).

Definition blueprint_of (m : Memory) : @Blueprint T :=
  @Build_Blueprint T (root m) (grid_position m)
    (@Primitive T <$> seq 0 (length (entity_objects m)))
    (tile_objects m) (schedule_objects m).

(** The loops at the end of [setup], then [to_dict]: the two directions of
    the translation between numbers and [Association]s, one after the
    other.  This is not [Blueprint(x).to_dict()]: the constructor, which
    validates the initial root first ([Blueprintable.__init__]), is not
    part of it. *)
Definition associate_then_export (x : @BlueprintDict V) : option (@BlueprintDict V) :=
  match setup_associations x with
  | inl _ => None
  | inr m =>
      match (to_dict (R := runtime m) (blueprint_of m) true true).1 with
      | inl _ => None
      | inr d => Some d
      end
  end.

(** The documented omissions: a grid vector equal to [(0, 0)] and an empty
    list are left out. *)
Definition omit_defaults (x : @BlueprintDict V) : @BlueprintDict V :=
  {| metadata := metadata x;
     snap_to_grid := drop_origin (snap_to_grid x);
     position_relative_to_grid := drop_origin (position_relative_to_grid x);
     entities := drop_empty (default [] (entities x));
     tiles := drop_empty (default [] (tiles x));
     schedules := drop_empty (default [] (schedules x)) |}.

(** The references of an external representation. *)
Definition all_refs (x : @BlueprintDict V) : list (@ref V) :=
  flat_map (@entity_refs V) (default [] (entities x))
  ++ flat_map (@locomotives V) (default [] (schedules x)).

(** A reference of the external representation: the 1-based number of an
    entity of the list. *)
Definition in_range (count : nat) (r : @ref V) : Prop :=
  match r with
  | Number n => 1 <= n <= Z.of_nat count
  | Assoc _ => False
  end.

(** The entity numbers are the positions, from 1. *)
Definition numbered (es : list (@EntityDict V)) : Prop :=
  entity_number <$> es = Some <$> Py.range 1 (length es).

(** The [Association] a number of the external representation becomes:
    that of the entity at position [n - 1]. *)
Definition association_of (r : @ref V) : @ref V :=
  match r with
  | Number n => Assoc (Z.to_nat (n - 1) : @Association V)
  | Assoc a => Assoc a
  end.

(** The number an [Association] is exported as when the entity it refers
    to is the first of its kind. *)
Definition number_of (r : @ref V) : @ref V :=
  match r with
  | Assoc a => Number (Z.of_nat (a : nat) + 1)
  | Number n => Number n
  end.

(** What the loops build from a valid external representation. *)
Definition imported (x : @BlueprintDict V) : Memory :=
  {| root := {| root_metadata := metadata x;
                _snap_to_grid := default (0, 0) (snap_to_grid x);
                _position_relative_to_grid :=
                  default (0, 0) (position_relative_to_grid x) |};
     grid_position := (0, 0);
     entity_objects :=
       (fun d => map_entity association_of (new_entity d)) <$> default [] (entities x);
     tile_objects := default [] (tiles x);
     schedule_objects := map_schedule association_of <$> default [] (schedules x) |}.

(** A valid external representation: numbered entities, references in
    range. *)
Definition valid (x : @BlueprintDict V) : Prop :=
  numbered (default [] (entities x))
  /\ Forall (in_range (length (default [] (entities x)))) (all_refs x).

(** No entity that comes before the referenced one compares equal to it. *)
Definition first_of_its_kind (m : Memory) (r : @ref V) : Prop :=
  match r with
  | Number n =>
      Py.index (py_equal (Runtime := runtime m))
        (seq 0 (length (entity_objects m))) (Z.to_nat (n - 1))
      = Some (Z.to_nat (n - 1))
  | Assoc _ => False
  end.

End Code.
End BlueprintImport.


(** ** blueprint.py: insertion of an entity *)

Module BlueprintInsert.

(** What [on_entity_insert] calls: the spatial index ([SpatialDataStructure],
    implemented by [SpatialHashMap]), the entity-like's own methods and the
    bounding-box helpers of [draftsman.utils].  [Objects] is the content of
    the entity objects: a method that changes an object in place returns new
    [Objects]. *)
Class Collaborators := {
  EntityLike : Type;
  Objects : Type;
  SpatialDataStructure : Type;
  AABB : Type;
  Warning : Type;
  Exception : Type;
  (** [entity_map.handle_overlapping(entitylike, merge)]: the entity-like to
      insert, or [None] when it was entirely merged. *)
  handle_overlapping :
    SpatialDataStructure -> Objects -> EntityLike -> bool ->
    option EntityLike * Objects * list Warning;
  (** [entitylike.on_insert(self)], which may raise. *)
  on_insert : Objects -> EntityLike -> option Exception;
  recursive_add : SpatialDataStructure -> Objects -> EntityLike -> SpatialDataStructure;
  (** [entitylike in entity_map] *)
  contains : SpatialDataStructure -> EntityLike -> bool;
  get_world_bounding_box : Objects -> EntityLike -> option AABB;
  extend_aabb : option AABB -> option AABB -> option AABB;
  aabb_to_dimensions : option AABB -> Z * Z;
  recursive_add_contains :
    forall m objs e, contains (recursive_add m objs e) e = true
}.

Section Code.
Context `{C : Collaborators}.

Inductive exn :=
| Raised (e : Exception)
| UnreasonablySizedBlueprintError (width height : Z).

(** The attributes of [self] that insertion reads or writes. *)
Record Blueprint := {
  objects : Objects;
  entities : list EntityLike;              (* self._root._entities.data *)
  entity_map : SpatialDataStructure;       (* self._entity_map *)
  _area : option AABB;
  _tile_width : Z;
  _tile_height : Z;
  issued : list Warning
}.

(** [Blueprint.on_entity_insert] (blueprint.py, 811-849), with the state it
    leaves, also when it raises. *)
Definition on_entity_insert (self : Blueprint) (entitylike : EntityLike) (merge : bool)
  : (exn + option EntityLike) * Blueprint :=
  let '(entitylike, objs, warned) :=
    handle_overlapping (entity_map self) (objects self) entitylike merge in
  let self := {| objects := objs; entities := entities self;
                 entity_map := entity_map self; _area := _area self;
                 _tile_width := _tile_width self; _tile_height := _tile_height self;
                 issued := issued self ++ warned |} in
  match entitylike with
  | None => (inr None, self)                       (* entirely merged: early exit *)
  | Some entitylike =>
      match on_insert (objects self) entitylike with
      | Some e => (inl (Raised e), self)
      | None =>
          let map := recursive_add (entity_map self) (objects self) entitylike in
          let area := extend_aabb (_area self)
                        (get_world_bounding_box (objects self) entitylike) in
          let (width, height) := aabb_to_dimensions area in
          let self := {| objects := objects self; entities := entities self;
                         entity_map := map; _area := area;
                         _tile_width := width; _tile_height := height;
                         issued := issued self |} in
          if Z.ltb 10000 width || Z.ltb 10000 height
          then (inl (UnreasonablySizedBlueprintError width height), self)
          else (inr (Some entitylike), self)
      end
  end.

(** Modelled from the spec: [EntityList.append] ([entity_list.py] is
    missing).  The parent's callback runs first; "if fully merged, the
    candidate is updated and nothing new is added, and the method returns
    without growing the collection.  Otherwise the new object is
    appended". *)
Definition EntityList_append (self : Blueprint) (entitylike : EntityLike) (merge : bool)
  : (exn + unit) * Blueprint :=
  match on_entity_insert self entitylike merge with
  | (inl e, self) => (inl e, self)
  | (inr None, self) => (inr tt, self)
  | (inr (Some entitylike), self) =>
      (inr tt,
       {| objects := objects self; entities := entities self ++ [entitylike];
          entity_map := entity_map self; _area := _area self;
          _tile_width := _tile_width self; _tile_height := _tile_height self;
          issued := issued self |})
  end.

End Code.

Arguments exn {C}.
Arguments Blueprint {C}.

(** *** The collaborators, from the spec *)

(** An axis-aligned bounding box: top-left and bottom-right corner. *)
Record Box := {
  top_left : Q * Q;
  bot_right : Q * Q
}.

(** A primitive entity: name, position and the fields a merge carries over
    ([bar] and [tags], as [test_merge] of the storage container has it). *)
Record EntityData := {
  name : string;
  position : Q * Q;
  bar : option Z;
  tags : list (string * string)
}.

Inductive OverlappingObjectsWarning :=
| Overlapping (existing inserted : nat).

Section FromSpec.

(** The game data table: the collision box of an entity name, relative to
    the entity's position. *)
Variable collision_box : string -> Box.

Definition world_box (d : EntityData) : Box :=
  let b := collision_box (name d) in
  {| top_left := ((top_left b).1 + (position d).1, (top_left b).2 + (position d).2)%Q;
     bot_right := ((bot_right b).1 + (position d).1, (bot_right b).2 + (position d).2)%Q |}.

(** Modelled from the spec: [get_world_bounding_box] of an entity object;
    objects are addresses into the list of their contents. *)
Definition spec_get_world_bounding_box (objs : list EntityData) (e : nat) : option Box :=
  world_box <$> objs !! e.

(** Modelled from the spec: [draftsman.utils.extend_aabb], which "extends a
    running bounding box"; [None] is the empty box. *)
Definition spec_extend_aabb (a b : option Box) : option Box :=
  match a, b with
  | None, _ => b
  | _, None => a
  | Some a, Some b =>
      Some {| top_left := (Qmin (top_left a).1 (top_left b).1,
                           Qmin (top_left a).2 (top_left b).2);
              bot_right := (Qmax (bot_right a).1 (bot_right b).1,
                            Qmax (bot_right a).2 (bot_right b).2) |}
  end.

(** Modelled from the spec: [draftsman.utils.aabb_to_dimensions], the
    "tile-rounded width/height" of a box. *)
Definition spec_aabb_to_dimensions (a : option Box) : Z * Z :=
  match a with
  | None => (0, 0)
  | Some a => (Qceiling ((bot_right a).1 - (top_left a).1),
               Qceiling ((bot_right a).2 - (top_left a).2))
  end.

Definition overlaps (a b : Box) : bool :=
  Qle_bool (top_left a).1 (bot_right b).1 && Qle_bool (top_left b).1 (bot_right a).1
  && Qle_bool (top_left a).2 (bot_right b).2 && Qle_bool (top_left b).2 (bot_right a).2.

(** Modelled from the spec: the spatial index, kept as the objects it holds;
    the cells the spec buckets them in only narrow down a [query]. *)
Definition spec_recursive_add (m : list nat) (objs : list EntityData) (e : nat) : list nat :=
  m ++ [e].

Definition spec_contains (m : list nat) (e : nat) : bool :=
  bool_decide (e ∈ m).

(** [query(bounding_box)]: the objects whose bounding box intersects it. *)
Definition query (m : list nat) (objs : list EntityData) (box : Box) : list nat :=
  List.filter (fun c => match objs !! c with
                        | Some d => overlaps (world_box d) box
                        | None => false
                        end) m.

(** Modelled from the spec: [Entity.mergable_with], "the same name/kind and
    effectively-equal placement-relevant fields except for mergeable
    ones". *)
Definition mergable_with (existing other : EntityData) : bool :=
  String.eqb (name existing) (name other)
  && Qeq_bool (position existing).1 (position other).1
  && Qeq_bool (position existing).2 (position other).2.

(** Modelled from the spec: [Entity.merge], which "fold[s] the new object's
    mergeable fields into the candidate". *)
Definition merge_into (existing other : EntityData) : EntityData :=
  {| name := name existing; position := position existing;
     bar := bar other; tags := tags other |}.

(** The loop of [handle_overlapping] over the candidates. *)
Fixpoint scan (objs : list EntityData) (e : nat) (item : EntityData) (merge : bool)
  (candidates : list nat) (warned : list OverlappingObjectsWarning)
  : option nat * list EntityData * list OverlappingObjectsWarning :=
  match candidates with
  | [] => (Some e, objs, warned)
  | c :: rest =>
      match objs !! c with
      | None => scan objs e item merge rest warned
      | Some existing =>
          if merge && mergable_with existing item
          then (None, <[c := merge_into existing item]> objs, warned)
          else scan objs e item merge rest (warned ++ [Overlapping c e])
      end
  end.

(** Modelled from the spec (4.1): [SpatialHashMap.handle_overlapping] for a
    primitive entity. *)
Definition spec_handle_overlapping (m : list nat) (objs : list EntityData) (e : nat)
  (merge : bool) : option nat * list EntityData * list OverlappingObjectsWarning :=
  match objs !! e with
  | None => (Some e, objs, [])
  | Some item => scan objs e item merge (query m objs (world_box item)) []
  end.

Definition spec_recursive_add_contains (m : list nat) (objs : list EntityData) (e : nat)
  : spec_contains (spec_recursive_add m objs e) e = true :=
  bool_decide_eq_true_2 (e ∈ m ++ [e])
    (proj2 (elem_of_app m [e] e) (or_intror (proj2 (list_elem_of_singleton e e) eq_refl))).

#[local] Instance from_spec : Collaborators := {|
  EntityLike := nat;
  Objects := list EntityData;
  SpatialDataStructure := list nat;
  AABB := Box;
  Warning := OverlappingObjectsWarning;
  Exception := Empty_set;
  handle_overlapping := spec_handle_overlapping;
  on_insert := fun _ _ => None;
  recursive_add := spec_recursive_add;
  contains := spec_contains;
  get_world_bounding_box := spec_get_world_bounding_box;
  extend_aabb := spec_extend_aabb;
  aabb_to_dimensions := spec_aabb_to_dimensions;
  recursive_add_contains := spec_recursive_add_contains
|}.

(** [blueprint.entities.append(entity)] with a newly built entity: the
    object is created, then appended. *)
Definition append_new (self : Blueprint) (d : EntityData) (merge : bool)
  : (exn + unit) * Blueprint :=
  let e := length (objects self) in
  EntityList_append
    {| objects := objects self ++ [d]; entities := entities self;
       entity_map := entity_map self; _area := _area self;
       _tile_width := _tile_width self; _tile_height := _tile_height self;
       issued := issued self |} e merge.

(** [Blueprint()] *)
Definition empty : Blueprint :=
  {| objects := []; entities := []; entity_map := []; _area := None;
     _tile_width := 0; _tile_height := 0; issued := [] |}.

End FromSpec.

End BlueprintInsert.

(** ** Values of any type *)

Module Any.

(** A Python value, as far as the [mode="before"] validators tell values
    apart. *)
Inductive value :=
| VNone
| VBool (b : bool)
| VInt (n : Z)
| VStr (s : string)
| VTuple (items : list value)
| VList (items : list value)
| VDict (items : list (string * value)).

(** Iterating over a [str] yields its characters, each a [str] of length
    one (the names involved are ASCII). *)
Fixpoint chars (s : string) : list value :=
  match s with
  | EmptyString => []
  | String c s' => VStr (String c EmptyString) :: chars s'
  end.

(** [isinstance(value, Sequence)], with the elements of the sequence: a
    [str] is a [Sequence] too. *)
Definition as_Sequence (v : value) : option (list value) :=
  match v with
  | VStr s => Some (chars s)
  | VTuple items | VList items => Some items
  | _ => None
  end.

Definition is_str (v : value) : bool :=
  match v with VStr _ => true | _ => false end.


(** [d[key]] and [d.get(key)] on a dict literal. *)
Fixpoint lookup (key : string) (d : list (string * value)) : option value :=
  match d with
  | [] => None
  | (k, v) :: d' => if String.eqb k key then Some v else lookup key d'
  end.

End Any.

(** ** Normalising validators *)

Module Normalize.
Import Any.

Inductive exn := IndexError.

(** [{"index": i + 1, "signal": signal}] *)
Definition icon_dict (i : Z) (signal : value) : value :=
  VDict [("index", VInt (i + 1)); ("signal", signal)].

(** [Icons.normalize_icons] (signatures.py, 866-877). *)
Definition normalize_icons (value : Any.value) : Any.value :=
  match as_Sequence value with
  | Some items =>
      VList ((fun entry : Z * Any.value =>
                if is_str entry.2 then icon_dict entry.1 entry.2 else entry.2)
             <$> Py.enumerate 0 items)
  | None => value
  end.

(** [Blueprintable.set_icons] (blueprintable.py, 343-350): the list it
    hands to the [icons] setter. *)
Definition set_icons (icon_names : list value) : value :=
  VList ((fun entry : Z * value => icon_dict entry.1 entry.2)
         <$> Py.enumerate 0 icon_names).

(** [{"index": i + 1, "name": entry}] *)
Definition filter_dict (i : Z) (entry : value) : value :=
  VDict [("index", VInt (i + 1)); ("name", entry)].

(** [Filters.normalize_validate] (signatures.py, 1150-1160): [result]
    starts as the empty list and is returned whatever [value] is. *)
Definition Filters_normalize_validate (value : Any.value) : Any.value :=
  match value with
  | VList items | VTuple items =>
      VList ((fun entry : Z * Any.value =>
                if is_str entry.2 then filter_dict entry.1 entry.2 else entry.2)
             <$> Py.enumerate 0 items)
  | _ => VList []
  end.

(** [entry["index"]] of a normalised entry, when it is an [int]. *)
Definition entry_index (entry : value) : option Z :=
  match entry with
  | VDict items =>
      match lookup "index" items with
      | Some (VInt n) => Some n
      | _ => None
      end
  | _ => None
  end.

(** [{"index": i + 1, "name": entry[0], "count": entry[1]}] *)
Definition request_dict (i : Z) (items : list value) : exn + value :=
  match Py.getitem items 0, Py.getitem items 1 with
  | Some name, Some count =>
      inr (VDict [("index", VInt (i + 1)); ("name", name); ("count", count)])
  | _, _ => inl IndexError
  end.

(** [RequestFilters.normalize_validate] (signatures.py, 1267-1282). *)
Definition RequestFilters_normalize_validate (value : Any.value) : exn + Any.value :=
  match value with
  | VNone => inr value
  | VList items =>
      result <- Py.for_each (fun entry : Z * Any.value =>
                  match entry.2 with
                  | VTuple fields | VList fields => request_dict entry.1 fields
                  | other => inr other
                  end) (Py.enumerate 0 items) ;;
      inr (VList result)
  | _ => inr value
  end.

(** [{"index": i + 1, "signal": entry[0], "count": entry[1]}] *)
Definition signal_dict_of (i : Z) (items : list value) : exn + value :=
  match Py.getitem items 0, Py.getitem items 1 with
  | Some signal, Some count =>
      inr (VDict [("index", VInt (i + 1)); ("signal", signal); ("count", count)])
  | _, _ => inl IndexError
  end.

(** The loop of [normalize_input]: [value[i]] is assigned in place, so
    the entries before the one that raises stay converted.  The list as
    the loop leaves it, and the exception if one was raised. *)
Fixpoint convert_from (i : Z) (entries : list value) : option exn * list value :=
  match entries with
  | [] => (None, [])
  | entry :: rest =>
      let converted :=
        match entry with
        | VTuple fields => signal_dict_of i fields
        | other => inr other
        end in
      match converted with
      | inl e => (Some e, entry :: rest)
      | inr entry' =>
          let (raised, rest') := convert_from (i + 1) rest in
          (raised, entry' :: rest')
      end
  end.

(** [ConstantCombinator.Format.ControlBehavior.normalize_input]
    (constant_combinator.py, 60-72): what it returns or raises, and the
    caller's object after the call. *)
Definition normalize_input (value : Any.value) : (exn + Any.value) * Any.value :=
  match value with
  | VList entries =>
      match convert_from 0 entries with
      | (None, entries') => (inr (VList entries'), VList entries')
      | (Some e, entries') => (inl e, VList entries')
      end
  | _ => (inr value, value)
  end.

(** [Condition.normalize_comparator_python_equivalents] (signatures.py,
    1025-1032) on a string. *)
Definition normalize_comparator_python_equivalents (input : string) : string :=
  if String.eqb input "==" then "="
  else if String.eqb input ">=" then "≥"
  else if String.eqb input "<=" then "≤"
  else if String.eqb input "!=" then "≠"
  else input.

(** The comparators [ControlBehaviorMixin._set_condition] accepts
    (control_behavior.py, 104) and those of the [comparator] field of
    [Condition] (signatures.py, 986). *)
Definition set_condition_comparators : list string :=
  [">"; "<"; "="; "=="; "≥"; ">="; "≤"; "<="; "≠"; "!="].

Definition Condition_comparators : list string :=
  [">"; "<"; "="; "≥"; "≤"; "≠"].


End Normalize.

(** ** Field validators of signatures.py *)

Module Validators.
Import Signatures.

(** The integer ranges [int32] and [int64] (signatures.py, 198-200). *)
Definition int32 (n : Z) : bool := (- 2 ^ 31 <=? n) && (n <? 2 ^ 31).
Definition int64 (n : Z) : bool := (- 2 ^ 63 <=? n) && (n <? 2 ^ 63).

(** [SignalID] (signatures.py, 732-742): [name] may be [None]. *)
Record SignalID := {
  signal_name : option string;
  signal_type : string
}.

(** [SignalFilter] (signatures.py, 1295-1320). *)
Record SignalFilter := {
  index : Z;
  signal : option SignalID;
  count : Z
}.

(** The attributes of the entity under validation that the validators
    read; each is [None] when the entity's name is not in the game data. *)
Record Entity := {
  entity_name : string;
  filter_count : option Z;
  item_slot_count : option Z;
  inventory_size : option Z
}.

(** What [get_suggestion] appends to a message: the empty string,
    ["; did you mean '{}'?"] or ["; did you mean one of {}?"]. *)
Inductive Suggestion :=
| no_suggestion
| did_you_mean (name : string)
| did_you_mean_one_of (names : list string).

Inductive Warning :=
| UnknownSignalWarning (name : option string) (suggestion : Suggestion)
| MalformedSignalWarning (name : option string) (expected found : string)
| PureVirtualDisallowedWarning (name : option string)
| BarWarning (bar size : Z).

(** [info.context] as these validators read it; [other_keys] tells
    whether the dict has further keys. *)
Record Context := {
  mode : option ValidationMode;
  object : option Entity;
  warning_list : option (list Warning);
  other_keys : bool
}.

Inductive exn :=
| KeyError (key : string)
| InvalidSignalError
| ValueError (issue : Warning)                (* raise ValueError(issue) *)
| AssertionError (issue : Warning)            (* raise AssertionError(issue) *)
| Raised (issue : Warning)                    (* raise issue *)
| IndexValueError (value bound : Z)           (* raise ValueError("... range ...") *)
| TypeError.                                  (* raised inside [process.extract] *)

(** pydantic turns a [ValueError] or an [AssertionError] raised inside a
    validator into a [ValidationError]; any other exception propagates. *)
Definition becomes_ValidationError (e : exn) : bool :=
  match e with
  | ValueError _ | AssertionError _ | IndexValueError _ _ => true
  | KeyError _ | InvalidSignalError | Raised _ | TypeError => false
  end.

Definition lookup_key {A : Type} (key : string) (entry : option A) : exn + A :=
  match entry with
  | Some v => inr v
  | None => inl (KeyError key)
  end.

(** Truth value of [info.context]. *)
Definition truthy (context : option Context) : bool :=
  match context with
  | None => false
  | Some c =>
      present (mode c) || present (object c) || present (warning_list c)
      || other_keys c
  end.

(** [warning_list.append(issue)] *)
Definition append (c : Context) (wl : list Warning) (issue : Warning) : Context :=
  {| mode := mode c; object := object c; warning_list := Some (wl ++ [issue]);
     other_keys := other_keys c |}.

(** [SignalFilter.ensure_index_within_range] (signatures.py,
    1322-1345). *)
Definition ensure_index_within_range (value : Z) (context : option Context)
  : exn + Z :=
  match context with
  | None => inr value
  | Some c =>
      if negb (truthy context) then inr value else
      entity <- lookup_key "object" (object c) ;;
      match item_slot_count entity with
      | None => inr value
      | Some slots =>
          if negb ((0 <=? value) && (value <? slots))
          then inl (IndexValueError value slots)
          else inr value
      end
  end.

(** [Filters.FilterEntry.ensure_within_filter_count] (signatures.py,
    1132-1146). *)
Definition ensure_within_filter_count (value : Z) (context : option Context)
  : exn + Z :=
  match context with
  | None => inr value
  | Some c =>
      if negb (truthy context) then inr value else
      entity <- lookup_key "object" (object c) ;;
      match filter_count entity with
      | Some slots =>
          if slots <=? value then inl (IndexValueError value slots) else inr value
      | None => inr value
      end
  end.

(** [ensure_bar_less_than_inventory_size] (signatures.py, 1173-1195):
    the value is returned as it is; the context after the call is the
    result. *)
Definition ensure_bar_less_than_inventory_size (value : option Z)
  (context : option Context) : exn + option Context :=
  match context, value with
  | None, _ | _, None => inr context
  | Some c, Some bar =>
      if negb (truthy context) then inr context else
      m <- lookup_key "mode" (mode c) ;;
      if mode_eqb m MINIMUM then inr context else
      wl <- lookup_key "warning_list" (warning_list c) ;;
      entity <- lookup_key "object" (object c) ;;
      match inventory_size entity with
      | Some size =>
          if negb (size =? 0) && (size <=? bar) then
            let issue := BarWarning bar size in
            if mode_eqb m PEDANTIC then inl (Raised issue)
            else inr (Some (append c wl issue))
          else inr context
      | None => inr context
      end
  end.

Section Data.

(** The tables of [draftsman.data.signals]: [name in signals.raw],
    [get_signal_type(name)] ([None] when it raises [InvalidSignalError]),
    [signal_dict(name)] (likewise) and the list [pure_virtual]. *)
Variable raw : string -> bool.
Variable get_signal_type : string -> option string.
Variable signal_dict : string -> option SignalID.
Variable pure_virtual : list string.

(** [process.extract(name, signals.raw.keys(), limit=n)] of the package
    [thefuzz]: the [n] best matches of [name] among the known signals, each
    with its score, or the exception the package raises on that query. *)
Variable extract : option string -> nat -> exn + list (string * Z).

(** [name in table] for a name that may be [None]: [None] is not a key. *)
Definition known (name : option string) : bool :=
  match name with
  | Some n => raw n
  | None => false
  end.

(** [get_suggestion(name, signals.raw.keys(), n, cutoff)] (signatures.py,
    183-195); [cutoff] is 60 when the caller gives none. *)
Definition get_suggestion (name : option string) (n : nat) (cutoff : Z)
  : exn + Suggestion :=
  found <- extract name n ;;
  let suggestions :=
    fst <$> List.filter (fun suggestion => cutoff <=? snd suggestion) found in
  match suggestions with
  | [] => inr no_suggestion
  | [suggestion] => inr (did_you_mean suggestion)
  | _ => inr (did_you_mean_one_of suggestions)
  end.

(** [SignalID.check_name_recognized] (signatures.py, 765-795). *)
Definition check_name_recognized (value : option string) (context : option Context)
  : exn + option Context :=
  match context with
  | None => inr context
  | Some c =>
      if negb (truthy context) then inr context else
      m <- lookup_key "mode" (mode c) ;;
      if mode_eqb m MINIMUM then inr context else
      wl <- lookup_key "warning_list" (warning_list c) ;;
      if negb (known value) then
        suggestion <- get_suggestion value 1 60 ;;
        let issue := UnknownSignalWarning value suggestion in
        if mode_eqb m PEDANTIC then inl (ValueError issue)
        else inr (Some (append c wl issue))
      else inr context
  end.

(** [SignalID.check_type_matches_name] (signatures.py, 797-827). *)
Definition check_type_matches_name (value : SignalID) (context : option Context)
  : exn + option Context :=
  match context with
  | None => inr context
  | Some c =>
      if negb (truthy context) then inr context else
      m <- lookup_key "mode" (mode c) ;;
      if mode_eqb m MINIMUM then inr context else
      wl <- lookup_key "warning_list" (warning_list c) ;;
      match signal_name value with
      | Some name =>
          if raw name then
            match get_signal_type name with
            | None => inl InvalidSignalError
            | Some expected_type =>
                if negb (String.eqb expected_type (signal_type value)) then
                  let issue := MalformedSignalWarning (signal_name value)
                                 expected_type (signal_type value) in
                  if mode_eqb m PEDANTIC then inl (AssertionError issue)
                  else inr (Some (append c wl issue))
                else inr context
            end
          else inr context
      | None => inr context
      end
  end.

(** [name in pure_virtual] *)
Definition is_pure_virtual (name : option string) : bool :=
  match name with
  | Some n => bool_decide (n ∈ pure_virtual)
  | None => false
  end.

(** [SignalFilter.ensure_not_pure_virtual] (signatures.py, 1347-1373). *)
Definition ensure_not_pure_virtual (value : option SignalID) (context : option Context)
  : exn + option Context :=
  match context, value with
  | None, _ | _, None => inr context
  | Some c, Some id =>
      if negb (truthy context) then inr context else
      m <- lookup_key "mode" (mode c) ;;
      if mode_eqb m MINIMUM then inr context else
      wl <- lookup_key "warning_list" (warning_list c) ;;
      if is_pure_virtual (signal_name id) then
        let issue := PureVirtualDisallowedWarning (signal_name id) in
        if mode_eqb m PEDANTIC then inl (ValueError issue)
        else inr (Some (append c wl issue))
      else inr context
  end.

End Data.

End Validators.

(** ** constant_combinator.py *)

Module ConstantCombinator.
Import Validators.

Inductive exn := DataFormatError.

(** What [set_signal] takes as [signal]: a name or a [SignalID]. *)
Inductive SignalArgument :=
| ByName (name : string)
| ByID (id : SignalID).

Section Code.

(** [signal_dict(name)] of [draftsman.data.signals]; [None] when it
    raises [InvalidSignalError]. *)
Variable signal_dict : string -> option SignalID.

(** Validation of the [signal] field without a context:
    [SignalID.init_from_string] (signatures.py, 744-763), then the
    [Literal] of the [type] field; the validators that read the context
    return at once. *)
Definition validate_signal (signal : SignalArgument) : option SignalID :=
  match signal with
  | ByName name => signal_dict name
  | ByID id => Some id
  end ≫= fun id =>
  if bool_decide (signal_type id ∈ ["item"; "fluid"; "virtual"]) then Some id else None.

(** [SignalFilter(index=..., signal=..., count=...)], a [ValidationError]
    being turned into [DataFormatError]. *)
Definition new_SignalFilter (index : Z) (signal : option SignalArgument) (count : Z)
  : exn + SignalFilter :=
  if negb (int64 index && int32 count) then inl DataFormatError else
  match signal with
  | None => inr {| index := index; signal := None; count := count |}
  | Some s =>
      match validate_signal s with
      | Some id => inr {| index := index; signal := Some id; count := count |}
      | None => inl DataFormatError
      end
  end.

(** The loop of [set_signal]: the position of the first entry whose
    index is [target]. *)
Fixpoint existing (target : Z) (i : nat) (filters : list SignalFilter) : option nat :=
  match filters with
  | [] => None
  | signal_filter :: rest =>
      if target =? index signal_filter then Some i
      else existing target (S i) rest
  end.

(** [ConstantCombinator.set_signal] (constant_combinator.py, 211-248) on
    [self.control_behavior.filters]; nothing is changed when it
    raises. *)
Definition set_signal (filters : option (list SignalFilter)) (index : Z)
  (signal : option SignalArgument) (count : Z) : exn + option (list SignalFilter) :=
  new_entry <- new_SignalFilter (index + 1) signal count ;;
  let filters := default [] filters in
  match existing (index + 1) 0 filters, signal with
  | Some i, None => inr (Some (delete i filters))
  | Some i, Some _ => inr (Some (<[i := new_entry]> filters))
  | None, _ => inr (Some (filters ++ [new_entry]))
  end.

(** [ConstantCombinator.get_signal] (constant_combinator.py, 250-264). *)
Definition get_signal (filters : option (list SignalFilter)) (index : Z)
  : option SignalFilter :=
  match filters with
  | None | Some [] => None
  | Some filters =>
      List.find (fun item => Validators.index item =? index + 1) filters
  end.

End Code.

End ConstantCombinator.

(** ** blueprintable.py *)

Module Blueprintable.
Import Signatures.

(** [Blueprintable.validate] (blueprintable.py, 497-528) on a root whose
    model type is [format]. *)
Definition validate (format : string) (root : option Model) (m : ValidationMode)
  (force : bool) : exn + ValidationResult :=
  let output := {| error_list := []; result_warnings := [] |} in
  if mode_eqb m NONE && negb force then inr output else
  let context := {| mode := Some m; object := Some format;
                    warning_list := Some []; assignment := Some false;
                    construction := None |} in
  match model_validate root (Some context) with
  | inl ValidationError =>
      inr {| error_list := [ValidationError]; result_warnings := [] |}
  | inl e => inl e
  | inr context' =>
      inr {| error_list := [];
             result_warnings := default [] (context' ≫= warning_list) |}
  end.

(** The context [Blueprintable.__init__] validates the initial root
    under (blueprintable.py, 78-81):
    [{"construction": True, "mode": ValidationMode.NONE}]. *)
Definition construction_context : Context :=
  {| mode := Some NONE; object := None; warning_list := None;
     assignment := None; construction := Some true |}.

Inductive load_exn :=
| IncorrectBlueprintTypeError (expected found : string)
| StopIteration
| TypeError.

(** The call of [self.setup]: the keywords unpacked from the root item,
    [index] and [validate]. *)
Record SetupCall := {
  setup_kwargs : list (string * Any.value);
  setup_index : Any.value;
  setup_validate : ValidationMode
}.

(** [Blueprintable.load_from_string] (blueprintable.py, 106-146) from the
    JSON object [root] the string decodes to (its keys in order, each
    once), up to the call of [setup]. *)
Definition load_from_string (_root_item : string) (root : list (string * Any.value))
  (validate : ValidationMode) : load_exn + SetupCall :=
  match Any.lookup _root_item root with
  | None =>
      match root with
      | [] => inl StopIteration                               (* next(iter(root)) *)
      | (first, _) :: _ => inl (IncorrectBlueprintTypeError _root_item first)
      end
  | Some (Any.VDict kwargs) =>
      (* a keyword given twice is a TypeError *)
      if bool_decide ("index" ∈ kwargs.*1) || bool_decide ("validate" ∈ kwargs.*1)
      then inl TypeError
      else inr {| setup_kwargs := kwargs;
                  setup_index := default Any.VNone (Any.lookup "index" root);
                  setup_validate := validate |}
  | Some _ => inl TypeError                                   (* unpacking a non-mapping *)
  end.

(** [self.Format.model_validate(...)] on the nested dict
    [{self._root_item: {...}, "index": index}] (blueprintable.py, 78-81).
    The field of the root item is a [DraftsmanBaseModel] of its own (for a
    blueprint, [Format.blueprint] is a [BlueprintObject]: blueprint.py, 251,
    257, 391): it is validated first, its [mode="after"] validators
    included, under the same context; the validators of the root model run
    last.  [object_] and [root] are what the fields of the two models are
    validated to, [None] where they are rejected. *)
Definition validate_nested (object_ root : option Model) (context : option Context)
  : exn + option Context :=
  context <- model_validate object_ context ;;
  model_validate root context.

(** What [init_data] may be: [None], a [str], a [dict], anything else.
    Modelled from the spec: [string_to_JSON] ([draftsman/utils.py] is
    missing) is the external codec; [decoded] is the JSON object it
    returns, [None] for a string that "is not decodable to a JSON object",
    which the docstring of [load_from_string] gives a
    [MalformedBlueprintStringError]. *)
Inductive InitData :=
| NoData
| FromString (decoded : option (list (string * Any.value)))
| FromDict (init_data : list (string * Any.value))
| Other.

Inductive init_exn :=
| OfValidation (e : exn)                       (* out of [model_validate] *)
| OfLoad (e : load_exn)                        (* out of the call of [setup] *)
| MalformedBlueprintStringError
| InitKeyError (key : string)                  (* init_data[self._root_item] *)
| DataFormatError.

(** [Blueprintable.__init__] (blueprintable.py, 47-104), up to the call of
    [setup], which is abstract in this class: [None] is the call without
    arguments.  The initial root is validated before [init_data] is looked
    at. *)
Definition __init__ (object_ root : option Model) (_root_item : string)
  (init_data : InitData) (validate : ValidationMode) : init_exn + option SetupCall :=
  match validate_nested object_ root (Some construction_context) with
  | inl e => inl (OfValidation e)
  | inr _ =>
      match init_data with
      | NoData => inr None
      | FromString None => inl MalformedBlueprintStringError
      | FromString (Some decoded) =>
          match load_from_string _root_item decoded validate with
          | inl e => inl (OfLoad e)
          | inr call => inr (Some call)
          end
      | FromDict init_data =>
          match Any.lookup _root_item init_data with
          | None => inl (InitKeyError _root_item)
          | Some (Any.VDict kwargs) =>
              if bool_decide ("index" ∈ kwargs.*1) || bool_decide ("validate" ∈ kwargs.*1)
              then inl (OfLoad TypeError)
              else inr (Some {| setup_kwargs := kwargs;
                                setup_index :=
                                  default Any.VNone (Any.lookup "index" init_data);
                                setup_validate := validate |})
          | Some _ => inl (OfLoad TypeError)
          end
      | Other => inl DataFormatError
      end
  end.

(** [Blueprint.__init__] (blueprint.py, 409-446), up to the call of [setup]:
    its first statement is the call of [Blueprintable.__init__], to which
    [validate] is not handed on, so that a string or a dict is loaded
    under the default, [strict]. *)
Definition Blueprint__init__ (object_ root : option Model) (blueprint : InitData)
  : init_exn + option SetupCall :=
  __init__ object_ root "blueprint" blueprint STRICT.

End Blueprintable.

(** ** Tiles and the area of a blueprint *)

Module BlueprintArea.
Import BlueprintInsert.

(** What [on_tile_insert] and [recalculate_area] call on the tile side:
    the spatial index of the tiles and the bounding box of a tile. *)
Class TileCollaborators `{C : Collaborators} := {
  Tile : Type;
  TileMap : Type;
  (** [tile_map.handle_overlapping(tile, merge)] *)
  tile_handle_overlapping :
    TileMap -> Objects -> Tile -> bool -> option Tile * Objects * list Warning;
  (** [tile_map.add(tile)] *)
  tile_add : TileMap -> Objects -> Tile -> TileMap;
  (** [tile.get_world_bounding_box()] *)
  tile_get_world_bounding_box : Objects -> Tile -> option AABB
}.

Section Code.
Context `{TC : TileCollaborators}.

(** The attributes of [self] that the area depends on: those insertion of
    an entity reads or writes, and the tiles. *)
Record Blueprint := {
  entity_side : BlueprintInsert.Blueprint;
  tiles : list Tile;                       (* self._root._tiles.data *)
  tile_map : TileMap                       (* self._tile_map *)
}.

(** [Blueprint.on_tile_insert] (blueprint.py, 945-978), with the state it
    leaves, also when it raises. *)
Definition on_tile_insert (self : Blueprint) (tile : Tile) (merge : bool)
  : (exn + option Tile) * Blueprint :=
  let side := entity_side self in
  let '(tile, objs, warned) :=
    tile_handle_overlapping (tile_map self) (objects side) tile merge in
  match tile with
  | None =>                                        (* tile was merged: early exit *)
      (inr None,
       {| entity_side :=
            {| objects := objs; entities := entities side;
               entity_map := entity_map side; _area := _area side;
               _tile_width := _tile_width side; _tile_height := _tile_height side;
               issued := issued side ++ warned |};
          tiles := tiles self; tile_map := tile_map self |})
  | Some tile =>
      let map := tile_add (tile_map self) objs tile in
      let area := extend_aabb (_area side) (tile_get_world_bounding_box objs tile) in
      let (width, height) := aabb_to_dimensions area in
      let self :=
        {| entity_side :=
             {| objects := objs; entities := entities side;
                entity_map := entity_map side; _area := area;
                _tile_width := width; _tile_height := height;
                issued := issued side ++ warned |};
           tiles := tiles self; tile_map := map |} in
      if Z.ltb 10000 width || Z.ltb 10000 height
      then (inl (UnreasonablySizedBlueprintError width height), self)
      else (inr (Some tile), self)
  end.

(** The two loops of [recalculate_area]: the box is extended by every
    entity, then by every tile, from [None]. *)
Definition scanned_area (objs : Objects) (entities : list EntityLike) (tiles : list Tile)
  : option AABB :=
  fold_left (fun area tile => extend_aabb area (tile_get_world_bounding_box objs tile))
    tiles
    (fold_left (fun area entity => extend_aabb area (get_world_bounding_box objs entity))
       entities None).

(** [Blueprint.recalculate_area] (blueprint.py, 1139-1159), with the state
    it leaves, also when it raises. *)
Definition recalculate_area (self : Blueprint) : (exn + unit) * Blueprint :=
  let side := entity_side self in
  let area := scanned_area (objects side) (entities side) (tiles self) in
  let (width, height) := aabb_to_dimensions area in
  let self :=
    {| entity_side :=
         {| objects := objects side; entities := entities side;
            entity_map := entity_map side; _area := area;
            _tile_width := width; _tile_height := height;
            issued := issued side |};
       tiles := tiles self; tile_map := tile_map self |} in
  if Z.ltb 10000 width || Z.ltb 10000 height
  then (inl (UnreasonablySizedBlueprintError width height), self)
  else (inr tt, self).

End Code.

Arguments Blueprint {C TC}.

End BlueprintArea.


(** ** blueprint.py: the offset loops of [to_dict], object by object *)

Module ExportOffset.

Inductive exn := KeyError (key : string).

Section Code.

(** A coordinate is an int or a float; [sub] is Python's [-] on two of
    them. *)
Variable number : Type.
Variable sub : number -> number -> number.

(** The objects that hold an [x] and a [y], by identity: the ["position"]
    dicts of the exported dicts and the [Vector]s the blueprint, its
    entities and its tiles keep.  Two names for one object are one
    address. *)
Definition Store := nat -> number * number.

(** [object[key] = value], for both keys. *)
Definition write (store : Store) (object : nat) (value : number * number) : Store :=
  fun a => if Nat.eqb a object then value else store a.

(** [position["x"] -= grid.x]: the coordinate is read, then the grid, and
    the difference is written to the same object. *)
Definition subtract_x (store : Store) (position grid : nat) : Store :=
  write store position (sub (store position).1 (store grid).1, (store position).2).

(** [position["y"] -= grid.y] *)
Definition subtract_y (store : Store) (position grid : nat) : Store :=
  write store position ((store position).1, sub (store position).2 (store grid).2).

(** The body of either loop (blueprint.py, 1260-1261 and 1265-1266) for one
    exported dict, given by the object under its key ["position"], [None]
    when the dict has no such key; [grid] is the [Vector] the property
    [self.snapping_grid_position] returns (blueprint.py, 684).  The store
    the statements leave is returned next to the exception. *)
Definition offset (store : Store) (grid : nat) (dict : option nat)
  : option exn * Store :=
  match dict with
  | None => (Some (KeyError "position"), store)
  | Some position =>
      (None, subtract_y (subtract_x store position grid) position grid)
  end.

(** [for entity in result["blueprint"]["entities"]] and
    [for tile in result["blueprint"]["tiles"]]. *)
Fixpoint offset_each (store : Store) (grid : nat) (dicts : list (option nat))
  : option exn * Store :=
  match dicts with
  | [] => (None, store)
  | dict :: rest =>
      match offset store grid dict with
      | (Some e, store) => (Some e, store)
      | (None, store) => offset_each store grid rest
      end
  end.

(** The two loops of [Blueprint.to_dict] (blueprint.py, 1259-1266). *)
Definition offset_positions (store : Store) (grid : nat)
  (entities tiles : list (option nat)) : option exn * Store :=
  match offset_each store grid entities with
  | (Some e, store) => (Some e, store)
  | (None, store) => offset_each store grid tiles
  end.

(** Modelled from the spec: what [entity.to_dict()] and [tile.to_dict()]
    put under ["position"] ([entity.py] and [tile.py] are missing).  The
    offset is an "export-time-only transform", and
    [_normalize_internal_structure] takes the dict to be "a copy of the
    dict representation": the position of the [i]-th dict is a new object,
    at address [next + i], with the coordinates of the [i]-th stored
    position. *)
Definition copy_positions (store : Store) (next : nat) (stored : list nat) : Store :=
  fun a =>
    if (next <=? a)%nat
    then match stored !! (a - next)%nat with
         | Some position => store position
         | None => store a
         end
    else store a.

End Code.

End ExportOffset.

(** ** Example positions *)

Module OffsetExamples.
Import ExportOffset.


End OffsetExamples.

(** ** Example blueprints *)

Module Examples.
Import BlueprintExport BlueprintImport.

#[local] Abbreviation T := (Imported Q string).
#[local] Abbreviation V := (ImportedValues Q string).

(** Modelled from the spec: [Entity.__eq__] ([entity.py] is missing).
    [test_eq] has two poles built alike compare equal and a pole with other
    tags compare different: name, position and the remaining attributes are
    compared. *)
Definition Entity_eq (objects : list (@EntityDict V)) (e1 e2 : nat) : bool :=
  match objects !! e1, objects !! e2 with
  | Some a, Some b =>
      String.eqb (name a) (name b)
      && Qeq_bool (x (position a)) (x (position b))
      && Qeq_bool (y (position a)) (y (position b))
      && String.eqb (attributes a) (attributes b)
  | _, _ => false
  end.

Definition fsub (v : Q) (n : Z) : Q := (v - inject_Z n)%Q.

Definition runtime (m : Memory) : Runtime T := BlueprintImport.runtime Entity_eq fsub m.

Definition pole (px py : Q) (number : option Z) (neigh : option (list (@ref V)))
  : @EntityDict V :=
  @Build_EntityDict V "small-electric-pole" (@Build_Position V px py)
    number None neigh "".

Definition no_root : RootModel string :=
  {| root_metadata := "item: blueprint"; _snap_to_grid := (0, 0);
     _position_relative_to_grid := (0, 0) |}.

(** Two poles on the same tile and a third one wired to the second. *)
Definition twin_poles : Memory :=
  {| root := no_root; grid_position := (1, 2);
     entity_objects := [pole 0.5%Q 0.5%Q None None; pole 0.5%Q 0.5%Q None None;
                        pole 5.5%Q 0.5%Q None (Some [Assoc (1%nat : @Association V)])];
     tile_objects := [ {| tile_name := "landfill"; tile_position := (3, 4) |} ];
     schedule_objects := [] |}.

(** The same three entities, the last two inside nested groups. *)
Definition grouped_poles : @Blueprint T :=
  @Build_Blueprint T no_root (1, 2)
    [Primitive (0%nat : @Entity T);
     Group [Primitive (1%nat : @Entity T); Group [Primitive (2%nat : @Entity T)]]]
    (tile_objects twin_poles) [].

Definition exported_poles : @BlueprintDict V :=
  @Build_BlueprintDict V "item: blueprint" None None
    (Some [pole (-0.5)%Q (-1.5)%Q (Some 1) None;
           pole (-0.5)%Q (-1.5)%Q (Some 2) None;
           pole 4.5%Q (-1.5)%Q (Some 3) (Some [Number 1])])
    (Some [ {| tile_name := "landfill"; tile_position := (2, 2) |} ])
    None.

(** A train stop, and a schedule whose locomotive (once at address 1) has
    been removed from the blueprint and no longer exists. *)
Definition lost_locomotive : Memory :=
  {| root := no_root; grid_position := (0, 0);
     entity_objects := [ @Build_EntityDict V "train-stop" (@Build_Position V 1%Q 1%Q)
                           None None None "" ];
     tile_objects := [];
     schedule_objects := [ @Build_ScheduleDict V "station: A"
                             [Assoc (1%nat : @Association V)] ] |}.

(** A pole wired to a pole (once at address 1) that no longer exists. *)
Definition lost_neighbour : Memory :=
  {| root := no_root; grid_position := (0, 0);
     entity_objects := [pole 0.5%Q 0.5%Q None (Some [Assoc (1%nat : @Association V)])];
     tile_objects := [];
     schedule_objects := [] |}.

(** An external representation: two poles on the same tile and a third
    one wired to the second. *)
Definition twin_poles_dict : @BlueprintDict V :=
  @Build_BlueprintDict V "item: blueprint" None None
    (Some [pole 0.5%Q 0.5%Q (Some 1) None; pole 0.5%Q 0.5%Q (Some 2) None;
           pole 5.5%Q 0.5%Q (Some 3) (Some [Number 2])])
    None None.

(** An external representation: two poles wired to each other, a tile. *)
Definition wired_poles_dict : @BlueprintDict V :=
  @Build_BlueprintDict V "item: blueprint" (Some (2, 2)) None
    (Some [pole 0.5%Q 0.5%Q (Some 1) (Some [Number 2]);
           pole 5.5%Q 0.5%Q (Some 2) (Some [Number 1])])
    (Some [ {| tile_name := "landfill"; tile_position := (3, 4) |} ])
    None.

(** Every entity of these examples covers one tile. *)
Definition one_tile (entity_name : string) : BlueprintInsert.Box :=
  {| BlueprintInsert.top_left := (-0.5, -0.5)%Q;
     BlueprintInsert.bot_right := (0.5, 0.5)%Q |}.

Definition chest (px py : Q) (b : option Z) : BlueprintInsert.EntityData :=
  {| BlueprintInsert.name := "logistic-chest-storage";
     BlueprintInsert.position := (px, py);
     BlueprintInsert.bar := b;
     BlueprintInsert.tags := [] |}.

(** A blueprint holding one chest. *)
Definition one_chest : @BlueprintInsert.Blueprint (BlueprintInsert.from_spec one_tile) :=
  (BlueprintInsert.append_new one_tile (BlueprintInsert.empty one_tile)
     (chest 0.5 0.5 None) false).2.

(** The same, with the object of a second chest, 20,000 tiles further
    down, built and not yet appended (it is address 1). *)
Definition one_chest_and_a_far_one
  : @BlueprintInsert.Blueprint (BlueprintInsert.from_spec one_tile) :=
  @BlueprintInsert.Build_Blueprint (BlueprintInsert.from_spec one_tile)
    [chest 0.5 0.5 None; chest 0.5 20000.5 None] [0%nat] [0%nat]
    (BlueprintInsert._area one_chest) 1 1 [].

(** What appending the far chest to [one_chest] returns and leaves. *)
Definition far_chest_attempt :=
  BlueprintInsert.append_new one_tile one_chest (chest 0.5 20000.5 None) false.

(** An example model with one unknown key, and a context for the
    assignment of a field of the object whose format it is. *)
Definition example_model : Signatures.Model :=
  {| Signatures.model_type := "Blueprint.Format"; Signatures.model_title := "Blueprint";
     Signatures.true_model_fields := [("blueprint", "blueprint"); ("index", "index")];
     Signatures.model_extra := [("unused_keyword", "10")] |}.


End Examples.

(** ** Example signals, filters and tiles *)

Module EntityExamples.
Import Any Validators.

(** Two entries of [signal_dict]. *)
Definition example_signal_dict (name : string) : option SignalID :=
  if String.eqb name "signal-A"
  then Some {| signal_name := Some "signal-A"; signal_type := "virtual" |}
  else if String.eqb name "iron-plate"
  then Some {| signal_name := Some "iron-plate"; signal_type := "item" |}
  else None.

Definition example_raw (name : string) : bool :=
  match example_signal_dict name with Some _ => true | None => false end.

(** A search that scores the two names against a query by their common
    prefix, and has no answer for a query that is not a string. *)
Definition example_extract (name : option string) (n : nat)
  : exn + list (string * Z) :=
  match name with
  | None => inl TypeError
  | Some query =>
      inr (take n
             (if String.prefix "signal" query
              then [("signal-A", 86); ("iron-plate", 20)]
              else [("iron-plate", 45); ("signal-A", 30)]))
  end.

Definition example_get_signal_type (name : string) : option string :=
  signal_type <$> example_signal_dict name.

Definition example_pure_virtual : list string :=
  ["signal-everything"; "signal-anything"; "signal-each"].

(** The signals of a combinator: iron plates in the first slot, the
    signal A in the second. *)
Definition two_signals : option (list SignalFilter) :=
  Some [ {| index := 1;
            signal := Some {| signal_name := Some "iron-plate"; signal_type := "item" |};
            count := 100 |};
         {| index := 2;
            signal := Some {| signal_name := Some "signal-A"; signal_type := "virtual" |};
            count := -1 |} ].

(** A constant combinator with twenty slots, a filter inserter with five
    filters and a chest of forty-eight slots. *)
Definition combinator : Entity :=
  {| entity_name := "constant-combinator"; filter_count := None;
     item_slot_count := Some 20; inventory_size := None |}.

Definition filter_inserter : Entity :=
  {| entity_name := "filter-inserter"; filter_count := Some 5;
     item_slot_count := None; inventory_size := None |}.

Definition wooden_chest : Entity :=
  {| entity_name := "wooden-chest"; filter_count := None;
     item_slot_count := None; inventory_size := Some 16 |}.

(** The context of a validation of [entity] under mode [m]. *)
Definition validation_of (entity : Entity) (m : Signatures.ValidationMode) : Context :=
  {| mode := Some m; object := Some entity; warning_list := Some [];
     other_keys := true |}.

(** A root as a blueprint string decodes to, and one of another type. *)
Definition blueprint_root : list (string * value) :=
  [("blueprint", VDict [("item", VStr "blueprint"); ("label", VStr "test")]);
   ("index", VInt 3)].


(** Modelled from the spec: the tile map is a Spatial Index as the entity
    map is (4.1), "a fast lookup from 2D regions to placed objects"; a
    tile is an address into the store of the objects. *)
#[local] Instance tiles_from_spec
  : @BlueprintArea.TileCollaborators (BlueprintInsert.from_spec Examples.one_tile) :=
  @BlueprintArea.Build_TileCollaborators (BlueprintInsert.from_spec Examples.one_tile)
    nat (list nat)
    (BlueprintInsert.spec_handle_overlapping Examples.one_tile)
    BlueprintInsert.spec_recursive_add
    (BlueprintInsert.spec_get_world_bounding_box Examples.one_tile).

(** A blueprint of one chest, with the object of a tile two tiles to the
    right built and not yet inserted (it is address 1). *)
Definition chest_and_new_tile
  : @BlueprintArea.Blueprint (BlueprintInsert.from_spec Examples.one_tile) tiles_from_spec :=
  @BlueprintArea.Build_Blueprint (BlueprintInsert.from_spec Examples.one_tile)
    tiles_from_spec
    (@BlueprintInsert.Build_Blueprint (BlueprintInsert.from_spec Examples.one_tile)
       [Examples.chest 0.5 0.5 None; Examples.chest 2.5 0.5 None] [0%nat] [0%nat]
       (BlueprintInsert._area Examples.one_chest) 1 1 [])
    ([] : list nat) ([] : list nat).

(** A blueprint of one chest, with the object of a second chest on the
    same tile, limited to ten slots, built and not yet appended. *)
Definition one_chest_and_its_twin
  : @BlueprintInsert.Blueprint (BlueprintInsert.from_spec Examples.one_tile) :=
  @BlueprintInsert.Build_Blueprint (BlueprintInsert.from_spec Examples.one_tile)
    [Examples.chest 0.5 0.5 None; Examples.chest 0.5 0.5 (Some 10)] [0%nat] [0%nat]
    (BlueprintInsert._area Examples.one_chest) 1 1 [].

End EntityExamples.


(** * Properties *)

(** ** signatures.py *)

Module SignaturesFacts.
Import Signatures Examples.





(** X28: [Blueprint.validate] on a root with an unknown key: a warning under
    [strict], an error and no warning under [pedantic], nothing under
    [minimum] and [none]. *)
Lemma validate_by_mode (self : Model) :
  model_extra self <> [] ->
  validate (model_type self) (Some self) STRICT false false
  = inr {| error_list := []; result_warnings := [issue_of self] |}
  /\ validate (model_type self) (Some self) PEDANTIC false false
     = inr {| error_list := [ValidationError]; result_warnings := [] |}
  /\ validate (model_type self) (Some self) MINIMUM false false
     = inr {| error_list := []; result_warnings := [] |}
  /\ validate (model_type self) (Some self) NONE false false
     = inr {| error_list := []; result_warnings := [] |}.
Proof.
  intros Hextra. unfold validate, model_validate, warn_unused_arguments. simpl.
  rewrite String.eqb_refl. simpl.
  destruct (model_extra self) as [|kv extra] eqn:E; [done|].
  repeat split.
Qed.

(** C9, as stated, fails: the colour [(127, 127, 127)] is accepted with no
    alpha at all, not with the alpha [255]. *)
Lemma omitted_alpha_stays_absent :
  ~ (forall (value : ColorInput) (c : Color),
       Color_validate value = inr c ->
       given_alpha value = None ->
       color_a c = Some (full_opacity c)).
Proof.
  intros H.
  specialize (H (Sequence [127%Q; 127%Q; 127%Q])
                {| color_r := 127; color_g := 127; color_b := 127; color_a := None |}
                eq_refl eq_refl).
  discriminate H.
Qed.

Lemma validate_fields_inr (value : ColorInput) (c : Color) :
  validate_fields value = inr c ->
  value = Mapping (Some (color_r c)) (Some (color_g c)) (Some (color_b c)) (color_a c)
  /\ within_bounds (color_r c) = true /\ within_bounds (color_g c) = true
  /\ within_bounds (color_b c) = true
  /\ (forall a, color_a c = Some a -> within_bounds a = true).
Proof.
  destruct value as [l | [r|] [g|] [b|] a]; simpl; try discriminate.
  destruct (within_bounds r) eqn:Hr; simpl; [|discriminate].
  destruct (within_bounds g) eqn:Hg; simpl; [|discriminate].
  destruct (within_bounds b) eqn:Hb; simpl; [|discriminate].
  destruct a as [a|]; simpl.
  - destruct (within_bounds a) eqn:Ha; [|discriminate].
    intros [= <-]. simpl. repeat split; try done. by intros ? [= <-].
  - intros [= <-]. simpl. repeat split; done.
Qed.

(** C9 (amended): a colour is accepted as a sequence of at least three
    numbers, of which the first four are read, or as a mapping with the
    keys r, g, b and optionally a, when every given component lies in
    [0, 255]; the components are kept as given, no scale is inferred, and
    an alpha that was not given stays absent. *)
Theorem Color_keeps_what_is_given :
  (forall (r g b : Q) (rest : list Q),
     within_bounds r = true -> within_bounds g = true -> within_bounds b = true ->
     (forall a, head rest = Some a -> within_bounds a = true) ->
     Color_validate (Sequence (r :: g :: b :: rest))
     = inr {| color_r := r; color_g := g; color_b := b; color_a := head rest |})
  /\ (forall (r g b : Q) (a : option Q),
     within_bounds r = true -> within_bounds g = true -> within_bounds b = true ->
     (forall a', a = Some a' -> within_bounds a' = true) ->
     Color_validate (Mapping (Some r) (Some g) (Some b) a)
     = inr {| color_r := r; color_g := g; color_b := b; color_a := a |})
  /\ (forall (value : ColorInput) (c : Color),
     Color_validate value = inr c ->
     color_a c = given_alpha value
     /\ within_bounds (color_r c) = true /\ within_bounds (color_g c) = true
     /\ within_bounds (color_b c) = true)
  /\ (forall l : list Q, (length l < 3)%nat -> Color_validate (Sequence l) = inl IndexError).
Proof.
  split; [|split; [|split]].
  - intros r g b rest Hr Hg Hb Ha. unfold Color_validate. simpl.
    rewrite Hr, Hg, Hb. simpl.
    destruct rest as [|a rest]; simpl; [reflexivity|].
    rewrite (Ha a eq_refl). reflexivity.
  - intros r g b a Hr Hg Hb Ha. unfold Color_validate. simpl.
    rewrite Hr, Hg, Hb. simpl.
    destruct a as [a|]; [|reflexivity]. rewrite (Ha a eq_refl). reflexivity.
  - intros value c. unfold Color_validate.
    destruct value as [l | r g b a]; simpl.
    + destruct l as [|r [|g [|b rest]]]; simpl; try discriminate.
      intros H.
      apply (validate_fields_inr
               (Mapping (Some r) (Some g) (Some b) (Py.getitem (r :: g :: b :: rest) 3)))
        in H as ([= -> -> -> Ha] & Hr & Hg & Hb & _).
      repeat split; try done.
    + intros H.
      apply (validate_fields_inr (Mapping r g b a))
        in H as ([= -> -> -> ->] & Hr & Hg & Hb & _).
      repeat split; done.
  - intros l Hl. destruct l as [|r [|g [|b rest]]]; simpl in Hl; try lia; reflexivity.
Qed.

Lemma Color_keeps_what_is_given_witness :
  Color_validate (Sequence [127%Q; 127%Q; 127%Q])
  = inr {| color_r := 127; color_g := 127; color_b := 127; color_a := head [] |}.
Proof.
  apply (proj1 Color_keeps_what_is_given); [reflexivity | reflexivity | reflexivity |].
  intros a Ha. discriminate Ha.
Defined.

End SignaturesFacts.

(** ** Loops that may raise *)

Module PyFacts.

Lemma for_each_inr {E A B : Type} (f : A -> E + B) (l : list A) (l' : list B) :
  Py.for_each f l = inr l' <-> Forall2 (fun a b => f a = inr b) l l'.
Proof.
  revert l'. induction l as [|a l IH]; intros l'; simpl.
  - split.
    + intros [= <-]. constructor.
    + intros H. inversion H. reflexivity.
  - destruct (f a) as [e|b] eqn:Hfa.
    + split; [discriminate|]. intros H. inversion H; subst. congruence.
    + destruct (Py.for_each f l) as [e|bs] eqn:Hl.
      * split; [discriminate|]. intros H. inversion H as [|? b' ? bs' Hb Hbs]; subst.
        apply IH in Hbs. discriminate.
      * split.
        -- intros [= <-]. constructor; [assumption|]. by apply IH.
        -- intros H. inversion H as [|? b' ? bs' Hb Hbs]; subst.
           apply IH in Hbs. congruence.
Qed.

Lemma for_each_length {E A B : Type} (f : A -> E + B) (l : list A) (l' : list B) :
  Py.for_each f l = inr l' -> length l' = length l.
Proof. intros H. apply for_each_inr in H. symmetry. by eapply Forall2_length. Qed.

Lemma range_length (start : Z) (n : nat) : length (Py.range start n) = n.
Proof. revert start. induction n as [|n IH]; intros start; simpl; [done|]. by rewrite IH. Qed.

Lemma enumerate_snd {A : Type} (start : Z) (l : list A) : (Py.enumerate start l).*2 = l.
Proof. revert start. induction l as [|a l IH]; intros start; simpl; [done|]. by rewrite IH. Qed.

Lemma enumerate_fst {A : Type} (start : Z) (l : list A) :
  (Py.enumerate start l).*1 = Py.range start (length l).
Proof. revert start. induction l as [|a l IH]; intros start; simpl; [done|]. by rewrite IH. Qed.

(** [l.index(x)] is the first position whose element compares equal. *)
Lemma index_Some {A : Type} (equal : A -> A -> bool) (l : list A) (x : A) (i : nat) :
  Py.index equal l x = Some i <->
  (exists y, l !! i = Some y /\ equal y x = true)
  /\ (forall j z, (j < i)%nat -> l !! j = Some z -> equal z x = false).
Proof.
  revert i. induction l as [|y l IH]; intros i; simpl.
  - split; [discriminate|]. intros [[z [Hz _]] _]. discriminate.
  - destruct (equal y x) eqn:Hy.
    + split.
      * intros [= <-]. split; [by exists y|]. intros j z Hj. lia.
      * intros [[z [Hz Hzx]] Hfirst]. destruct i as [|i]; [done|].
        specialize (Hfirst 0%nat y ltac:(lia) eq_refl). congruence.
    + destruct i as [|i].
      * split.
        -- destruct (Py.index equal l x); discriminate.
        -- intros [[z [[= ->] Hzx]] _]. congruence.
      * split.
        -- destruct (Py.index equal l x) as [k|] eqn:Hk; simpl; [|discriminate].
           intros [= ->]. destruct (proj1 (IH i) eq_refl) as [Hex Hfirst].
           split; [exact Hex|].
           intros [|j] z Hj; simpl; [congruence|]. apply Hfirst. lia.
        -- intros [[z [Hz Hzx]] Hfirst]. simpl in Hz.
           assert (Py.index equal l x = Some i) as ->; [|reflexivity].
           apply IH. split; [by exists z|].
           intros j w Hj Hw. apply (Hfirst (S j) w); [lia|done].
Qed.

Lemma index_None {A : Type} (equal : A -> A -> bool) (l : list A) (x : A) :
  Py.index equal l x = None <-> Forall (fun y => equal y x = false) l.
Proof.
  induction l as [|y l IH]; simpl.
  - split; [constructor|done].
  - destruct (equal y x) eqn:Hy.
    + split; [discriminate|]. intros H. inversion H; congruence.
    + destruct (Py.index equal l x) eqn:Hk; simpl.
      * split; [discriminate|]. intros H. inversion H; subst.
        assert (Some n = None) by (by apply IH). discriminate.
      * split; [|done]. intros _. constructor; [done|]. by apply IH.
Qed.

Lemma for_each_fmap {E A B : Type} (f : A -> E + B) (g : A -> B) (l : list A) :
  Forall (fun a => f a = inr (g a)) l -> Py.for_each f l = inr (g <$> l).
Proof.
  induction 1 as [|a l Ha _ IH]; simpl; [reflexivity|].
  rewrite Ha, IH. reflexivity.
Qed.

Lemma range_lookup (start : Z) (n i : nat) :
  (i < n)%nat -> Py.range start n !! i = Some (start + Z.of_nat i).
Proof.
  revert start i. induction n as [|n IH]; intros start i Hi; [lia|].
  destruct i as [|i]; simpl.
  - f_equal. lia.
  - rewrite IH by lia. f_equal. lia.
Qed.

Lemma enumerate_lookup {A : Type} (start : Z) (l : list A) (i : nat) :
  Py.enumerate start l !! i = (fun a => (start + Z.of_nat i, a)) <$> l !! i.
Proof.
  revert start i. induction l as [|a l IH]; intros start i; [by destruct i|].
  destruct i as [|i]; simpl.
  - do 2 f_equal. lia.
  - rewrite IH. destruct (l !! i); simpl; [|done]. do 2 f_equal. lia.
Qed.

Lemma enumerate_length {A : Type} (start : Z) (l : list A) :
  length (Py.enumerate start l) = length l.
Proof. revert start. induction l as [|a l IH]; intros start; simpl; [done|]. by rewrite IH. Qed.

End PyFacts.

(** ** blueprint.py: export *)

Module BlueprintExportFacts.
Import BlueprintExport PyFacts.

Section DictFacts.
Context `{V : Values}.

(** Mapping the references twice. *)
Lemma map_points_undo (f g : ref -> ref) (ps : option (list ConnectionPoint)) :
  Forall (fun r => g (f r) = r) (point_refs ps) ->
  map_points g (map_points f ps) = ps.
Proof.
  unfold point_refs, map_points. destruct ps as [points|]; simpl; [|done].
  intros H. f_equal. rewrite <- list_fmap_compose.
  rewrite <- (list_fmap_id points) at 2. apply Forall_fmap_ext.
  apply Forall_fmap in H. eapply Forall_impl; [exact H|].
  intros [id sd] Hp. unfold map_point. simpl in *. by rewrite Hp.
Qed.

Lemma map_circuit_undo (f g : ref -> ref) (c : option CircuitConnections) :
  Forall (fun r => g (f r) = r) (circuit_refs c) ->
  map_circuit g (map_circuit f c) = c.
Proof.
  unfold circuit_refs, map_circuit. destruct c as [[r gr]|]; simpl; [|done].
  intros H. apply Forall_app in H as [Hr Hg].
  by rewrite (map_points_undo f g r Hr), (map_points_undo f g gr Hg).
Qed.

Lemma map_entity_undo (f g : ref -> ref) (d : EntityDict) :
  Forall (fun r => g (f r) = r) (entity_refs d) ->
  map_entity g (map_entity f d) = d.
Proof.
  unfold entity_refs, map_entity. destruct d as [n p num c ns a]; simpl.
  intros H. apply Forall_app in H as [Hc Hn]. f_equal.
  - destruct c as [[w1 w2 c0 c1]|]; simpl in *; [|done].
    repeat (apply Forall_app in Hc as [? Hc]).
    unfold map_connections. simpl.
    by rewrite !(map_circuit_undo f g), !(map_points_undo f g).
  - destruct ns as [ns|]; simpl in *; [|done].
    f_equal. rewrite <- list_fmap_compose.
    rewrite <- (list_fmap_id ns) at 2. apply Forall_fmap_ext.
    eapply Forall_impl; [exact Hn|]. intros r Hr. exact Hr.
Qed.

Lemma map_entity_refs (f : ref -> ref) (d : EntityDict) :
  entity_refs (map_entity f d) = f <$> entity_refs d.
Proof.
  unfold entity_refs, map_entity, point_refs. destruct d as [n p num c ns a]; simpl.
  rewrite fmap_app. f_equal.
  - destruct c as [[w1 w2 c0 c1]|]; simpl; [|done].
    rewrite !fmap_app. unfold circuit_refs, map_circuit, map_points, point_refs.
    repeat f_equal.
    + destruct w1 as [[r gr]|]; simpl; [|done]. rewrite fmap_app.
      f_equal; [destruct r | destruct gr]; simpl; try done;
        rewrite <- !list_fmap_compose; done.
    + destruct w2 as [[r gr]|]; simpl; [|done]. rewrite fmap_app.
      f_equal; [destruct r | destruct gr]; simpl; try done;
        rewrite <- !list_fmap_compose; done.
    + destruct c0; simpl; [|done]. by rewrite <- !list_fmap_compose.
    + destruct c1; simpl; [|done]. by rewrite <- !list_fmap_compose.
  - by destruct ns.
Qed.

End DictFacts.

Section Facts.
Context `{R : Runtime}.

Lemma fmap_eq_Forall2 {A B C : Type} (f : A -> C) (g : B -> C) (l : list A) (k : list B) :
  Forall2 (fun a b => f a = g b) l k -> f <$> l = g <$> k.
Proof. intros H. apply list_eq_Forall2, Forall2_fmap. exact H. Qed.

Lemma default_drop_empty {A : Type} (l : list A) : default [] (drop_empty l) = l.
Proof. by destruct l. Qed.

Lemma drop_empty_not_empty {A : Type} (l : list A) : drop_empty l <> Some [].
Proof. by destruct l. Qed.

Lemma drop_origin_not_origin (v : option (Z * Z)) : drop_origin v <> Some (0, 0).
Proof.
  destruct v as [[a b]|]; simpl; [|done].
  destruct (is_origin (a, b)) eqn:H; [done|].
  intros [= -> ->]. discriminate H.
Qed.

Lemma number_from (start : Z) (fl : list Entity) (es : list EntityDict) :
  Py.for_each (fun ie : Z * Entity =>
      match Entity_to_dict ie.2 with
      | None => inl DraftsmanError
      | Some result => inr (set_entity_number result (ie.1 + 1))
      end) (Py.enumerate start fl) = inr es ->
  entity_number <$> es = Some <$> Py.range (start + 1) (length fl)
  /\ Forall2 (fun e d => exists r, Entity_to_dict e = Some r /\ same_payload r d
                                   /\ connections d = connections r
                                   /\ neighbours d = neighbours r) fl es.
Proof.
  revert start es. induction fl as [|e fl IH]; intros start es; simpl.
  - intros [= <-]. split; [reflexivity|constructor].
  - destruct (Entity_to_dict e) as [r|] eqn:He; [|discriminate].
    destruct (Py.for_each _ (Py.enumerate (start + 1) fl)) as [?|es'] eqn:Hes; [discriminate|].
    intros [= <-]. apply IH in Hes as [Hnum Hpay]. split.
    + change (Py.range (start + 1) (length (e :: fl)))
        with ((start + 1) :: Py.range (start + 1 + 1) (length fl)).
      rewrite !fmap_cons. f_equal. exact Hnum.
    + constructor; [|exact Hpay]. exists r. by repeat split.
Qed.

Lemma number_entities_inr (fl : list Entity) (es : list EntityDict) :
  number_entities fl = inr es ->
  entity_number <$> es = Some <$> Py.range 1 (length fl)
  /\ Forall2 (fun e d => exists r, Entity_to_dict e = Some r /\ same_payload r d
                                   /\ connections d = connections r
                                   /\ neighbours d = neighbours r) fl es.
Proof. apply (number_from 0). Qed.

Lemma resolve_entity_inr (fl : list Entity) (d d' : EntityDict) :
  resolve_entity fl d = inr d' ->
  same_payload d d' /\ entity_number d' = entity_number d.
Proof.
  unfold resolve_entity.
  destruct (match connections d with None => _ | Some c => _ end) as [?|conns]; [discriminate|].
  simpl.
  destruct (match neighbours d with None => _ | Some ns => _ end) as [?|neigh]; [discriminate|].
  simpl. intros [= <-]. by repeat split.
Qed.

(** What a successful [to_dict] is made of. *)
Lemma to_dict_inr (self : Blueprint) (en ed : bool) (d : BlueprintDict) :
  (to_dict self en ed).1 = inr d ->
  let fl := flatten_entities (_entities self) in
  let base := Exportable_to_dict (_root self) en ed in
  let grid := snapping_grid_position self in
  exists es1 es2 ss,
    number_entities fl = inr es1
    /\ Py.for_each (resolve_entity fl) es1 = inr es2
    /\ Py.for_each (resolve_schedule fl) (Schedule_to_dict <$> _schedules self) = inr ss
    /\ d = {| metadata := metadata base;
              snap_to_grid := drop_origin (snap_to_grid base);
              position_relative_to_grid := drop_origin (position_relative_to_grid base);
              entities := drop_empty (offset_entity grid <$> es2);
              tiles := drop_empty (offset_tile grid <$> (Tile_to_dict <$> _tiles self));
              schedules := drop_empty ss |}.
Proof.
  unfold to_dict, _normalize_internal_structure. simpl.
  destruct (number_entities _) as [?|es1] eqn:H1; [discriminate|]. simpl.
  destruct (Py.for_each (resolve_entity _) es1) as [?|es2] eqn:H2; [discriminate|]. simpl.
  destruct (Py.for_each (resolve_schedule _) _) as [?|ss] eqn:H3; [discriminate|]. simpl.
  intros [= <-]. by exists es1, es2, ss.
Qed.

(** C1: the dicts [to_dict] exports under ["entities"] are those of the
    flattened entity list, in its order, and their entity numbers are
    1, 2, ..., N for the N primitive entities of the flattened list. *)
Theorem entity_numbers_are_positions (self : Blueprint) (en ed : bool) (d : BlueprintDict) :
  (to_dict self en ed).1 = inr d ->
  let flattened := flatten_entities (_entities self) in
  entity_number <$> default [] (entities d) = Some <$> Py.range 1 (length flattened)
  /\ Forall2 (fun e out => exists r, Entity_to_dict e = Some r
                                     /\ name out = name r /\ attributes out = attributes r)
       flattened (default [] (entities d)).
Proof.
  intros H. apply to_dict_inr in H as (es1 & es2 & ss & H1 & H2 & _ & ->). simpl.
  rewrite default_drop_empty.
  apply number_entities_inr in H1 as [Hnum Hpay].
  apply for_each_inr in H2.
  assert (Forall2 (fun a b => same_payload a b /\ entity_number b = entity_number a) es1 es2)
    as H12.
  { eapply Forall2_impl; [exact H2|]. intros a b. apply resolve_entity_inr. }
  split.
  - rewrite <- Hnum. rewrite <- list_fmap_compose.
    symmetry. apply fmap_eq_Forall2.
    eapply Forall2_impl; [exact H12|]. intros a b [_ Hab]. simpl. by rewrite Hab.
  - apply Forall2_fmap_r.
    eapply Forall2_trans; [| exact Hpay | exact H12].
    intros e a b (r & Hr & (Hn & _ & Ha) & _) [(Hn' & _ & Ha') _].
    exists r. simpl. split; [exact Hr|]. split; congruence.
Qed.

(** In what [to_dict] returns, the position of an entity or a tile is
    the one its own [to_dict()] gave minus the snapping-grid position. *)
Lemma exported_positions_are_offset (self : Blueprint) (en ed : bool) :
  forall d : BlueprintDict,
       (to_dict self en ed).1 = inr d ->
       let grid := snapping_grid_position self in
       Forall2 (fun e out => exists r, Entity_to_dict e = Some r
                  /\ position out = {| x := float_sub (x (position r)) grid.1;
                                       y := float_sub (y (position r)) grid.2 |})
         (flatten_entities (_entities self)) (default [] (entities d))
       /\ Forall2 (fun t out =>
                     tile_position out
                     = ((tile_position (Tile_to_dict t)).1 - grid.1,
                        (tile_position (Tile_to_dict t)).2 - grid.2))
            (_tiles self) (default [] (tiles d)).
Proof.
  intros d H. apply to_dict_inr in H as (es1 & es2 & ss & H1 & H2 & _ & ->). simpl.
  rewrite !default_drop_empty.
  apply number_entities_inr in H1 as [_ Hpay].
  apply for_each_inr in H2.
  split.
  - apply Forall2_fmap_r.
    eapply Forall2_trans; [| exact Hpay | exact H2].
    intros e a b (r & Hr & (_ & Hp & _) & _) Hab.
    apply resolve_entity_inr in Hab as [(_ & Hp' & _) _].
    exists r. split; [exact Hr|]. simpl. by rewrite Hp', Hp.
  - do 2 apply Forall2_fmap_r. apply Forall2_same_length_lookup. split; [done|].
    intros i t t' Ht Ht'. simpl. congruence.
Qed.

(** C6: in the dict [to_dict] returns, ["snap-to-grid"] and
    ["position-relative-to-grid"] are absent when their value is
    [{"x": 0, "y": 0}], and ["entities"], ["tiles"] and ["schedules"] are
    absent when the list is empty. *)
Theorem defaults_are_omitted (self : Blueprint) (en ed : bool) (d : BlueprintDict) :
  (to_dict self en ed).1 = inr d ->
  let base := Exportable_to_dict (_root self) en ed in
  (snap_to_grid base = Some (0, 0) -> snap_to_grid d = None)
  /\ (position_relative_to_grid base = Some (0, 0) -> position_relative_to_grid d = None)
  /\ (flatten_entities (_entities self) = [] -> entities d = None)
  /\ (_tiles self = [] -> tiles d = None)
  /\ (_schedules self = [] -> schedules d = None)
  /\ snap_to_grid d <> Some (0, 0)
  /\ position_relative_to_grid d <> Some (0, 0)
  /\ entities d <> Some [] /\ tiles d <> Some [] /\ schedules d <> Some [].
Proof.
  intros H. apply to_dict_inr in H as (es1 & es2 & ss & H1 & H2 & H3 & ->). simpl.
  repeat split; try apply drop_empty_not_empty; try apply drop_origin_not_origin.
  - by intros ->.
  - by intros ->.
  - intros Hfl. apply for_each_length in H2. apply number_entities_inr in H1 as [Hl _].
    apply (f_equal length) in Hl. rewrite !length_fmap, range_length, Hfl in Hl.
    simpl in Hl. rewrite Hl in H2. by destruct es2.
  - by intros ->.
  - intros Hs. rewrite Hs in H3. simpl in H3. by injection H3 as <-.
Qed.

Lemma resolve_inr (fl : list Entity) (entity : PyObject) (old new : ref) :
  resolve fl entity old = inr new <-> resolved fl old new.
Proof.
  unfold resolve, resolved. split.
  - destruct old as [a|n]; [|discriminate].
    destruct (call a) as [target|] eqn:Ha; [|discriminate].
    destruct (Py.index py_equal fl target) as [i|] eqn:Hi; [|discriminate].
    intros [= <-]. by exists a, target, i.
  - intros (a & target & i & -> & -> & -> & ->). reflexivity.
Qed.

Lemma resolve_points_refs (fl : list Entity) (entity : PyObject)
  (ps ps' : option (list ConnectionPoint)) :
  resolve_points fl entity ps = inr ps' ->
  Forall2 (resolved fl) (point_refs ps) (point_refs ps').
Proof.
  unfold resolve_points, point_refs. destruct ps as [points|].
  - destruct (Py.for_each _ points) as [?|points'] eqn:H; [discriminate|].
    simpl. intros [= <-]. simpl. apply Forall2_fmap.
    apply for_each_inr in H. eapply Forall2_impl; [exact H|].
    intros p p'. unfold resolve_point.
    destruct (resolve fl entity (entity_id p)) as [?|id] eqn:Hid; [discriminate|].
    simpl. intros [= <-]. simpl. by apply (resolve_inr fl entity).
  - intros [= <-]. constructor.
Qed.

Lemma resolve_circuit_refs (fl : list Entity) (entity : PyObject)
  (c c' : option CircuitConnections) :
  resolve_circuit fl entity c = inr c' ->
  Forall2 (resolved fl) (circuit_refs c) (circuit_refs c').
Proof.
  unfold resolve_circuit, circuit_refs. destruct c as [colors|].
  - destruct (resolve_points fl entity (red colors)) as [?|r] eqn:Hr; [discriminate|].
    simpl.
    destruct (resolve_points fl entity (green colors)) as [?|g] eqn:Hg; [discriminate|].
    simpl. intros [= <-]. simpl.
    apply Forall2_app; by eapply resolve_points_refs.
  - intros [= <-]. constructor.
Qed.

Lemma resolve_entity_refs (fl : list Entity) (d d' : EntityDict) :
  resolve_entity fl d = inr d' ->
  Forall2 (resolved fl) (entity_refs d) (entity_refs d').
Proof.
  unfold resolve_entity, entity_refs.
  destruct (connections d) as [c|].
  - unfold resolve_connections.
    destruct (resolve_circuit fl (Dict d) (Wr1 c)) as [?|w1] eqn:H1; [discriminate|]. simpl.
    destruct (resolve_circuit fl (Dict d) (Wr2 c)) as [?|w2] eqn:H2; [discriminate|]. simpl.
    destruct (resolve_points fl (Dict d) (Cu0 c)) as [?|c0] eqn:H3; [discriminate|]. simpl.
    destruct (resolve_points fl (Dict d) (Cu1 c)) as [?|c1] eqn:H4; [discriminate|]. simpl.
    destruct (neighbours d) as [ns|].
    + destruct (Py.for_each _ ns) as [?|ns'] eqn:H5; [discriminate|]. simpl.
      intros [= <-]. simpl.
      repeat apply Forall2_app;
        try (by eapply resolve_circuit_refs); try (by eapply resolve_points_refs).
      apply for_each_inr in H5. eapply Forall2_impl; [exact H5|].
      intros old new. apply resolve_inr.
    + simpl. intros [= <-]. simpl.
      repeat apply Forall2_app;
        try (by eapply resolve_circuit_refs); try (by eapply resolve_points_refs).
      constructor.
  - simpl. destruct (neighbours d) as [ns|].
    + destruct (Py.for_each _ ns) as [?|ns'] eqn:H5; [discriminate|]. simpl.
      intros [= <-]. simpl.
      apply for_each_inr in H5. eapply Forall2_impl; [exact H5|].
      intros old new. apply resolve_inr.
    + simpl. intros [= <-]. simpl. constructor.
Qed.

Lemma resolve_schedule_refs (fl : list Entity) (s s' : ScheduleDict) :
  resolve_schedule fl s = inr s' ->
  Forall2 (resolved fl) (locomotives s) (locomotives s').
Proof.
  unfold resolve_schedule.
  destruct (Py.for_each _ (locomotives s)) as [?|locos] eqn:H; [discriminate|].
  simpl. intros [= <-]. simpl.
  apply for_each_inr in H. eapply Forall2_impl; [exact H|].
  intros old new. apply resolve_inr.
Qed.

(** C10: in what [to_dict] exports, every reference of an entity and every
    locomotive of a schedule is 1 plus the position of the first entity of
    the flattened list that compares equal to the referent of the
    [Association] it replaces; so a reference to an entity that compares
    equal to an earlier one is exported as the number of the earlier
    one. *)
Theorem references_resolve_by_equality (self : Blueprint) (en ed : bool) (d : BlueprintDict) :
  (to_dict self en ed).1 = inr d ->
  let fl := flatten_entities (_entities self) in
  Forall2 (fun e out => exists r, Entity_to_dict e = Some r
                          /\ Forall2 (resolved fl) (entity_refs r) (entity_refs out))
    fl (default [] (entities d))
  /\ Forall2 (fun s out => Forall2 (resolved fl)
                              (locomotives (Schedule_to_dict s)) (locomotives out))
       (_schedules self) (default [] (schedules d))
  /\ forall (old new : ref) (a : Association) (later earlier : Entity) (i j : nat),
       resolved fl old new ->
       old = Assoc a -> call a = Some later ->
       fl !! j = Some later -> fl !! i = Some earlier -> (i < j)%nat ->
       py_equal earlier later = true ->
       (forall k e, (k < i)%nat -> fl !! k = Some e -> py_equal e later = false) ->
       new = Number (Z.of_nat i + 1) /\ new <> Number (Z.of_nat j + 1).
Proof.
  intros H fl. apply to_dict_inr in H as (es1 & es2 & ss & H1 & H2 & H3 & ->). simpl.
  rewrite !default_drop_empty. fold fl in H1, H2, H3.
  apply number_entities_inr in H1 as [_ Hpay].
  apply for_each_inr in H2. apply for_each_inr in H3.
  split; [|split].
  - apply Forall2_fmap_r.
    eapply Forall2_trans; [| exact Hpay | exact H2].
    intros e a b (r & Hr & _ & Hc & Hn) Hab.
    exists r. split; [exact Hr|].
    apply resolve_entity_refs in Hab.
    assert (entity_refs a = entity_refs r) as <-; [|exact Hab].
    unfold entity_refs. by rewrite Hc, Hn.
  - apply Forall2_fmap_l in H3.
    eapply Forall2_impl; [exact H3|]. intros s s'. apply resolve_schedule_refs.
  - intros old new a later earlier i j (a' & target & k & -> & Ha' & Hk & ->)
      [= <-] Ha Hj Hi Hij Heq Hfirst.
    rewrite Ha in Ha'. injection Ha' as <-.
    assert (Py.index py_equal fl later = Some i) as Hidx.
    { apply index_Some. split; [by exists earlier|exact Hfirst]. }
    rewrite Hidx in Hk. injection Hk as <-.
    split; [reflexivity|]. intros [= Hbad]. lia.
Qed.

(** An [Association] whose referent is gone, met in the connections or the
    neighbours of an entity, raises the association error with the name and
    the position of that entity. *)
Lemma resolve_dead (fl : list Entity) (d : EntityDict) (a : Association) :
  call a = None ->
  resolve fl (Dict d) (Assoc a) = inl (InvalidAssociationError (name d) (position d)).
Proof. intros H. unfold resolve. rewrite H. reflexivity. Qed.

(** The loop over the locomotives hands the dead [Association] itself to
    [_throw_invalid_association]: whatever the schedule, what it raises is
    never an association error. *)
Lemma resolve_schedule_never_names (fl : list Entity) (s : ScheduleDict)
  (n : string) (p : Position) :
  resolve_schedule fl s <> inl (InvalidAssociationError n p).
Proof.
  unfold resolve_schedule.
  destruct (Py.for_each _ (locomotives s)) as [e|locos] eqn:H; [|discriminate].
  simpl. intros [= ->].
  induction (locomotives s) as [|l ls IH]; simpl in H; [discriminate|].
  destruct (resolve fl (object_of l) l) as [e|r] eqn:Hl.
  - injection H as ->. unfold resolve in Hl.
    destruct l as [a|k]; [|discriminate]. simpl in Hl.
    destruct (call a); [|discriminate].
    destruct (Py.index py_equal fl e); discriminate.
  - destruct (Py.for_each _ ls) as [e|rs]; [|discriminate].
    injection H as ->. by apply IH.
Qed.

(** The loops, when every reference resolves: the dict with the resolved
    references. *)
Lemma resolve_points_map (fl : list Entity) (entity : PyObject) (g : ref -> ref)
  (ps : option (list ConnectionPoint)) :
  Forall (fun r => resolve fl entity r = inr (g r)) (point_refs ps) ->
  resolve_points fl entity ps = inr (map_points g ps).
Proof.
  unfold point_refs, resolve_points, map_points. destruct ps as [points|]; simpl; [|done].
  intros H. rewrite (for_each_fmap _ (map_point g)); [reflexivity|].
  apply Forall_fmap in H. eapply Forall_impl; [exact H|].
  intros p Hp. unfold resolve_point. simpl in Hp. rewrite Hp. reflexivity.
Qed.

Lemma resolve_circuit_map (fl : list Entity) (entity : PyObject) (g : ref -> ref)
  (c : option CircuitConnections) :
  Forall (fun r => resolve fl entity r = inr (g r)) (circuit_refs c) ->
  resolve_circuit fl entity c = inr (map_circuit g c).
Proof.
  unfold circuit_refs, resolve_circuit, map_circuit. destruct c as [colors|]; simpl; [|done].
  intros H. apply Forall_app in H as [Hr Hg].
  rewrite (resolve_points_map _ _ g _ Hr), (resolve_points_map _ _ g _ Hg). reflexivity.
Qed.

Lemma resolve_entity_map (fl : list Entity) (g : ref -> ref) (d : EntityDict) :
  Forall (fun r => resolve fl (Dict d) r = inr (g r)) (entity_refs d) ->
  resolve_entity fl d = inr (map_entity g d).
Proof.
  unfold entity_refs, resolve_entity, map_entity. intros H.
  apply Forall_app in H as [Hc Hn].
  destruct (connections d) as [c|]; simpl.
  - repeat (apply Forall_app in Hc as [? Hc]).
    unfold resolve_connections.
    rewrite !(resolve_circuit_map _ _ g) by assumption. simpl.
    rewrite !(resolve_points_map _ _ g) by assumption. simpl.
    destruct (neighbours d) as [ns|]; simpl; [|reflexivity].
    rewrite (for_each_fmap _ g) by exact Hn. reflexivity.
  - destruct (neighbours d) as [ns|]; simpl; [|reflexivity].
    rewrite (for_each_fmap _ g) by exact Hn. reflexivity.
Qed.

Lemma resolve_schedule_map (fl : list Entity) (g : ref -> ref) (s : ScheduleDict) :
  Forall (fun r => resolve fl (object_of r) r = inr (g r)) (locomotives s) ->
  resolve_schedule fl s = inr (map_schedule g s).
Proof.
  unfold resolve_schedule, map_schedule. intros H.
  rewrite (for_each_fmap _ g) by exact H. reflexivity.
Qed.





End Facts.
End BlueprintExportFacts.


(** ** blueprint.py: import, then export *)

Module BlueprintImportFacts.
Import BlueprintExport BlueprintImport PyFacts BlueprintExportFacts.

Section Facts.
Context {F A : Type}.
Variable Entity_eq : list (@EntityDict (ImportedValues F A)) -> nat -> nat -> bool.
Variable fsub : F -> Z -> F.
#[local] Abbreviation T := (Imported F A).
#[local] Abbreviation V := (ImportedValues F A).
#[local] Abbreviation runtime := (BlueprintImport.runtime Entity_eq fsub).

Lemma associate_in_range (count : nat) (r : @ref V) :
  in_range count r -> associate (seq 0 count) r = inr (association_of r).
Proof.
  destruct r as [a|n]; simpl; [done|]. intros [H1 H2]. unfold Py.getitem.
  destruct (0 <=? n - 1) eqn:E; [|lia].
  rewrite lookup_seq_lt by lia. reflexivity.
Qed.

Lemma associate_points_map (count : nat) (ps : option (list (@ConnectionPoint V))) :
  Forall (in_range count) (point_refs ps) ->
  associate_points (seq 0 count) ps = inr (map_points association_of ps).
Proof.
  unfold associate_points, map_points. destruct ps as [points|]; [|done].
  intros H. change (Forall (in_range count) (entity_id <$> points)) in H.
  rewrite Forall_fmap in H.
  rewrite (for_each_fmap _ (map_point association_of)); [reflexivity|].
  eapply Forall_impl; [exact H|].
  intros p Hp. unfold associate_point. simpl in Hp.
  rewrite (associate_in_range count _ Hp). reflexivity.
Qed.

Lemma associate_circuit_map (count : nat) (c : option (@CircuitConnections V)) :
  Forall (in_range count) (circuit_refs c) ->
  associate_circuit (seq 0 count) c = inr (map_circuit association_of c).
Proof.
  unfold circuit_refs, associate_circuit, map_circuit. destruct c as [colors|]; simpl; [|done].
  intros H. apply Forall_app in H as [Hr Hg].
  rewrite (associate_points_map _ _ Hr), (associate_points_map _ _ Hg). reflexivity.
Qed.

Lemma associate_entity_map (count : nat) (d : @EntityDict V) :
  Forall (in_range count) (entity_refs d) ->
  associate_entity (seq 0 count) d = inr (map_entity association_of d).
Proof.
  unfold entity_refs, associate_entity, map_entity. intros H.
  apply Forall_app in H as [Hc Hn].
  destruct (connections d) as [c|]; simpl.
  - repeat (apply Forall_app in Hc as [? Hc]).
    rewrite !(associate_circuit_map count) by assumption. simpl.
    rewrite !(associate_points_map count) by assumption. simpl.
    destruct (neighbours d) as [ns|]; simpl; [|reflexivity].
    rewrite (for_each_fmap _ association_of); [reflexivity|].
    eapply Forall_impl; [exact Hn|]. apply associate_in_range.
  - destruct (neighbours d) as [ns|]; simpl; [|reflexivity].
    rewrite (for_each_fmap _ association_of); [reflexivity|].
    eapply Forall_impl; [exact Hn|]. apply associate_in_range.
Qed.

Lemma associate_schedule_map (count : nat) (s : @ScheduleDict V) :
  Forall (in_range count) (locomotives s) ->
  associate_schedule (seq 0 count) s = inr (map_schedule association_of s).
Proof.
  unfold associate_schedule, map_schedule. intros H.
  rewrite (for_each_fmap _ association_of); [reflexivity|].
  eapply Forall_impl; [exact H|]. apply associate_in_range.
Qed.

Lemma setup_valid (x : @BlueprintDict V) :
  valid x -> setup_associations x = inr (imported x).
Proof.
  intros [_ Hrefs]. unfold all_refs in Hrefs. apply Forall_app in Hrefs as [He Hs].
  apply Forall_flat_map in He, Hs.
  unfold setup_associations, imported. rewrite length_fmap.
  rewrite (for_each_fmap _ (map_entity association_of)).
  2:{ apply Forall_fmap. eapply Forall_impl; [exact He|].
      intros d Hd. apply associate_entity_map. exact Hd. }
  simpl. rewrite (for_each_fmap _ (map_schedule association_of)).
  2:{ eapply Forall_impl; [exact Hs|]. intros s. apply associate_schedule_map. }
  simpl. rewrite <- list_fmap_compose. reflexivity.
Qed.

Lemma flatten_primitives (l : list nat) : flatten_entities (@Primitive T <$> l) = l.
Proof.
  unfold flatten_entities. induction l as [|a l IH]; [done|].
  rewrite fmap_cons. simpl. f_equal. exact IH.
Qed.

Lemma number_imported (m : Memory) :
  number_entities (R := runtime m) (seq 0 (length (entity_objects m)))
  = inr (imap (fun i o => set_entity_number o (Z.of_nat i + 1)) (entity_objects m)).
Proof.
  unfold number_entities. apply for_each_inr. apply Forall2_same_length_lookup_2.
  - by rewrite enumerate_length, length_seq, length_imap.
  - intros i [n e] d Hie Hd. rewrite enumerate_lookup in Hie.
    rewrite list_lookup_imap in Hd.
    destruct (entity_objects m !! i) as [o|] eqn:Ho; [|discriminate].
    injection Hd as <-.
    rewrite lookup_seq_lt in Hie by (by eapply lookup_lt_Some).
    injection Hie as <- <-. simpl. rewrite Ho. reflexivity.
Qed.

Lemma resolve_first_of_its_kind (m : Memory) (entity : @PyObject V) (r : @ref V)
  (count : nat) :
  count = length (entity_objects m) ->
  in_range count r ->
  first_of_its_kind Entity_eq fsub m r ->
  resolve (R := runtime m) (seq 0 (length (entity_objects m))) entity (association_of r)
  = inr (number_of (association_of r)).
Proof.
  intros ->. destruct r as [a|n]; simpl; [done|]. intros [H1 H2] Hfirst.
  unfold resolve. simpl.
  assert ((Z.to_nat (n - 1) <? length (entity_objects m))%nat = true) as ->.
  { apply Nat.ltb_lt. lia. }
  unfold first_of_its_kind in Hfirst. simpl in Hfirst. rewrite Hfirst. reflexivity.
Qed.

Lemma number_of_association_of (count : nat) (r : @ref V) :
  in_range count r -> number_of (association_of r) = r.
Proof. destruct r as [a|n]; simpl; [done|]. intros [H1 H2]. f_equal. lia. Qed.

Lemma entity_roundtrip (m : Memory) (d : @EntityDict V) (n : Z) (count : nat) :
  (forall v, fsub v 0 = v) ->
  entity_number d = Some n ->
  Forall (in_range count) (entity_refs d) ->
  offset_entity (R := runtime m) (0, 0)
    (map_entity number_of (set_entity_number (map_entity association_of (new_entity d)) n))
  = d.
Proof.
  intros Hsub Hn Hrefs.
  assert (map_entity number_of (map_entity association_of d) = d) as Hundo.
  { apply map_entity_undo. eapply Forall_impl; [exact Hrefs|].
    intros r. apply number_of_association_of. }
  destruct d as [nm [px py] num c ns a]. simpl in *. subst num.
  unfold offset_entity, map_entity, set_entity_number, new_entity in *. simpl in *.
  rewrite !Hsub. injection Hundo as -> ->. reflexivity.
Qed.

Lemma offset_tile_origin (t : TileDict) : offset_tile (0, 0) t = t.
Proof. destruct t as [n [a b]]. unfold offset_tile. simpl. by rewrite !Z.sub_0_r. Qed.

Lemma drop_origin_default (v : option (Z * Z)) :
  drop_origin (Some (default (0, 0) v)) = drop_origin v.
Proof. by destruct v. Qed.

Lemma numbered_lookup (es : list (@EntityDict V)) (i : nat) (d : @EntityDict V) :
  numbered es -> es !! i = Some d -> entity_number d = Some (Z.of_nat i + 1).
Proof.
  unfold numbered. intros Hnum Hd.
  apply (f_equal (fun l => l !! i)) in Hnum.
  rewrite !list_lookup_fmap, Hd in Hnum. simpl in Hnum.
  rewrite range_lookup in Hnum by (by eapply lookup_lt_Some).
  simpl in Hnum. injection Hnum as ->. f_equal. lia.
Qed.

Lemma export_imported (m : Memory) (es2 : list (@EntityDict V)) (ss2 : list (@ScheduleDict V)) :
  Py.for_each (resolve_entity (R := runtime m) (seq 0 (length (entity_objects m))))
    (imap (fun i o => set_entity_number o (Z.of_nat i + 1)) (entity_objects m)) = inr es2 ->
  Py.for_each (resolve_schedule (R := runtime m) (seq 0 (length (entity_objects m))))
    (schedule_objects m) = inr ss2 ->
  (to_dict (R := runtime m) (blueprint_of m) true true).1
  = inr (@Build_BlueprintDict V (root_metadata (root m))
           (drop_origin (Some (_snap_to_grid (root m))))
           (drop_origin (Some (_position_relative_to_grid (root m))))
           (drop_empty (offset_entity (R := runtime m) (grid_position m) <$> es2))
           (drop_empty (offset_tile (grid_position m) <$> tile_objects m))
           (drop_empty ss2)).
Proof.
  intros H1 H2. unfold to_dict, _normalize_internal_structure, blueprint_of.
  cbn [fst _entities _tiles _schedules _root snapping_grid_position].
  rewrite flatten_primitives, number_imported.
  cbn [Py.bind]. rewrite H1. cbn [Py.bind].
  change (Schedule_to_dict (Runtime := runtime m)) with (fun s : @ScheduleDict V => s).
  change (Tile_to_dict (Runtime := runtime m)) with (fun t : TileDict => t).
  rewrite !list_fmap_id, H2. reflexivity.
Qed.

(** The two translations are inverse on first occurrences: on a valid
    external representation -- entities numbered 1..N in order, every
    reference a number in 1..N -- the loops of [setup] return, and when no
    entity before a referenced one compares equal to it, the export
    writes the numbers of [x] again. *)
Lemma roundtrip_of_valid (x : @BlueprintDict V) :
  (forall v, fsub v 0 = v) ->
  valid x ->
  exists m,
    setup_associations x = inr m
    /\ (Forall (first_of_its_kind Entity_eq fsub m) (all_refs x) ->
        associate_then_export Entity_eq fsub x = Some (omit_defaults x)).
Proof.
  intros Hsub Hvalid. exists (imported x). split; [by apply setup_valid|].
  intros Hfirst. unfold associate_then_export. rewrite (setup_valid x Hvalid).
  destruct Hvalid as [Hnum Hrefs]. unfold all_refs in Hrefs, Hfirst.
  apply Forall_app in Hrefs as [He Hs]. apply Forall_app in Hfirst as [Hfe Hfs].
  apply Forall_flat_map in He, Hs, Hfe, Hfs.
  set (es := default [] (entities x)) in *.
  assert (length (entity_objects (imported x)) = length es) as Hlen.
  { unfold imported. simpl. by rewrite length_fmap. }
  rewrite (export_imported (imported x)
             (map_entity number_of <$>
                imap (fun i o => set_entity_number o (Z.of_nat i + 1))
                  (entity_objects (imported x)))
             (map_schedule number_of <$> schedule_objects (imported x))).
  - f_equal. unfold omit_defaults, imported.
    cbn [root_metadata root _snap_to_grid _position_relative_to_grid grid_position
         entity_objects tile_objects schedule_objects].
    f_equal.
    + apply drop_origin_default.
    + apply drop_origin_default.
    + fold es. f_equal. apply list_eq. intros i.
      rewrite !list_lookup_fmap, list_lookup_imap, list_lookup_fmap.
      destruct (es !! i) as [d|] eqn:Hd; simpl; rewrite ?Hd; [|reflexivity].
      simpl. f_equal.
      apply (entity_roundtrip _ d _ (length es)); [exact Hsub | | ].
      * by apply (numbered_lookup es).
      * exact (proj1 (Forall_lookup _ _) He i d Hd).
    + f_equal. rewrite <- (list_fmap_id (default [] (tiles x))) at 2.
      apply list_fmap_ext. intros i t _. apply offset_tile_origin.
    + f_equal. rewrite <- list_fmap_compose.
      rewrite <- (list_fmap_id (default [] (schedules x))) at 2.
      apply Forall_fmap_ext. apply Forall_forall. intros s Hsin.
      destruct s as [sch locos]. unfold map_schedule. simpl. f_equal.
      rewrite <- list_fmap_compose. rewrite <- (list_fmap_id locos) at 2.
      apply Forall_fmap_ext.
      pose proof (proj1 (Forall_forall _ _) Hs _ Hsin) as Hin. simpl in Hin.
      eapply Forall_impl; [exact Hin|]. intros r. apply number_of_association_of.
  - apply for_each_fmap. apply Forall_lookup. intros i d1 Hd1.
    rewrite list_lookup_imap in Hd1. unfold imported in Hd1. simpl in Hd1.
    rewrite list_lookup_fmap in Hd1. fold es in Hd1.
    destruct (es !! i) as [d|] eqn:Hd; [|discriminate]. simpl in Hd1.
    injection Hd1 as <-.
    apply (resolve_entity_map (R := runtime (imported x))).
    change (entity_refs (set_entity_number (map_entity association_of (new_entity d))
                           (Z.of_nat i + 1)))
      with (entity_refs (map_entity association_of d)).
    rewrite map_entity_refs. apply Forall_fmap.
    pose proof (proj1 (Forall_lookup _ _) He i d Hd) as Hin.
    pose proof (proj1 (Forall_lookup _ _) Hfe i d Hd) as Hfi.
    apply Forall_forall. intros r Hr.
    apply (resolve_first_of_its_kind (imported x) _ _ (length es)).
    + symmetry. exact Hlen.
    + by eapply (proj1 (Forall_forall _ _) Hin).
    + by eapply (proj1 (Forall_forall _ _) Hfi).
  - apply for_each_fmap.
    change (schedule_objects (imported x))
      with (map_schedule association_of <$> default [] (schedules x)).
    apply Forall_fmap. apply Forall_forall. intros s Hsin.
    apply (resolve_schedule_map (R := runtime (imported x))).
    change (locomotives (map_schedule association_of s))
      with (association_of <$> locomotives s).
    apply Forall_fmap.
    pose proof (proj1 (Forall_forall _ _) Hs s Hsin) as Hin.
    pose proof (proj1 (Forall_forall _ _) Hfs s Hsin) as Hfi.
    apply Forall_forall. intros r Hr.
    apply (resolve_first_of_its_kind (imported x) _ _ (length es)).
    + symmetry. exact Hlen.
    + by eapply (proj1 (Forall_forall _ _) Hin).
    + by eapply (proj1 (Forall_forall _ _) Hfi).
Qed.

End Facts.
End BlueprintImportFacts.

(** ** blueprint.py: export of the example blueprints *)

Module ExampleFacts.
Import BlueprintExport BlueprintImport BlueprintExportFacts BlueprintImportFacts Examples.

Lemma entity_numbers_are_positions_witness :
  entity_number <$> default [] (entities exported_poles)
  = Some <$> Py.range 1 (length (flatten_entities (_entities grouped_poles)))
  /\ Forall2 (fun e out => exists r, Entity_to_dict (Runtime := runtime twin_poles) e = Some r
                             /\ name out = name r /\ attributes out = attributes r)
       (flatten_entities (_entities grouped_poles)) (default [] (entities exported_poles)).
Proof.
  apply (entity_numbers_are_positions (R := runtime twin_poles) grouped_poles true true).
  vm_compute. reflexivity.
Defined.

Example exported_tiles_are_offset :
  Forall2 (fun t out => tile_position out
                        = ((tile_position t).1 - 1, (tile_position t).2 - 2))
    (_tiles grouped_poles) (default [] (tiles exported_poles)).
Proof.
  apply (exported_positions_are_offset (R := runtime twin_poles) grouped_poles true true
           exported_poles).
  vm_compute. reflexivity.
Qed.

Lemma defaults_are_omitted_witness :
  snap_to_grid exported_poles = None /\ schedules exported_poles = None.
Proof.
  destruct (defaults_are_omitted (R := runtime twin_poles) grouped_poles true true
              exported_poles) as (Hsnap & _ & _ & _ & Hsched & _).
  - vm_compute. reflexivity.
  - split; [apply Hsnap | apply Hsched]; reflexivity.
Defined.

Lemma references_resolve_by_equality_witness :
  Forall2 (fun e out => exists r, Entity_to_dict (Runtime := runtime twin_poles) e = Some r
             /\ Forall2 (resolved (R := runtime twin_poles)
                           (flatten_entities (_entities grouped_poles)))
                  (entity_refs r) (entity_refs out))
    (flatten_entities (_entities grouped_poles)) (default [] (entities exported_poles)).
Proof.
  apply (references_resolve_by_equality (R := runtime twin_poles) grouped_poles true true
           exported_poles).
  vm_compute. reflexivity.
Defined.

(** The pole wired to the second of the twin poles is exported as wired to
    the first. *)
Example twin_pole_reference :
  exists out, default [] (entities exported_poles) !! 2%nat = Some out
              /\ neighbours out = Some [Number 1].
Proof. eexists. split; reflexivity. Qed.

(** C2, at a blueprint whose schedule holds the [Association] of a
    locomotive that no longer exists: [to_dict] raises a [TypeError], not
    an association error. *)
Theorem lost_locomotive_raises_TypeError :
  (to_dict (R := runtime lost_locomotive) (blueprint_of lost_locomotive) true true).1
  = inl BlueprintExport.TypeError.
Proof. vm_compute. reflexivity. Qed.

(** The sibling loops do raise the association error: a pole whose
    neighbour no longer exists is named with its position. *)
Example lost_neighbour_raises_association_error :
  (to_dict (R := runtime lost_neighbour) (blueprint_of lost_neighbour) true true).1
  = inl (InvalidAssociationError "small-electric-pole"
           (@Build_Position (ImportedValues Q string) 0.5%Q 0.5%Q)).
Proof. vm_compute. reflexivity. Qed.

Lemma fsub_zero (v : Q) : fsub v 0 = v.
Proof.
  destruct v as [n d]. unfold fsub, Qminus, Qplus, Qopp, inject_Z. simpl.
  f_equal; lia.
Qed.

(** Of two poles that compare equal, a reference to the second is
    exported as a reference to the first. *)
Lemma equal_twins_break_roundtrip :
  ~ (forall x : @BlueprintDict (ImportedValues Q string),
       valid x -> associate_then_export Entity_eq fsub x = Some (omit_defaults x)).
Proof.
  intros H. specialize (H twin_poles_dict).
  assert (valid twin_poles_dict) as Hvalid.
  { split; [reflexivity|]. repeat constructor; simpl; lia. }
  specialize (H Hvalid). vm_compute in H. discriminate H.
Qed.

Example wired_poles_roundtrip :
  associate_then_export Entity_eq fsub wired_poles_dict
  = Some (omit_defaults wired_poles_dict).
Proof.
  destruct (roundtrip_of_valid Entity_eq fsub wired_poles_dict fsub_zero)
    as (m & Hsetup & Hround).
  - split; [reflexivity|]. repeat constructor; simpl; lia.
  - apply Hround. vm_compute in Hsetup. injection Hsetup as <-.
    repeat constructor; vm_compute; reflexivity.
Qed.

End ExampleFacts.

(** ** blueprint.py: insertion *)

Module BlueprintInsertFacts.
Import BlueprintInsert.

Section Facts.
Context `{C : Collaborators}.

(** C3 (amended): when the entity-like is not merged away and the extended
    area is wider or higher than 10,000 tiles, the insertion raises
    [UnreasonablySizedBlueprintError]; the entity list is left as it was,
    but the entity-like stays in the spatial index, where
    [recursive_add] put it before the check, and the blueprint keeps the
    extended area and dimensions. *)
Theorem oversized_insert_is_not_rolled_back (self : Blueprint) (entitylike e : EntityLike)
  (merge : bool) (objs : Objects) (warned : list Warning) (width height : Z) :
  handle_overlapping (entity_map self) (objects self) entitylike merge
    = (Some e, objs, warned) ->
  on_insert objs e = None ->
  aabb_to_dimensions (extend_aabb (_area self) (get_world_bounding_box objs e))
    = (width, height) ->
  10000 < width \/ 10000 < height ->
  exists self',
    EntityList_append self entitylike merge
      = (inl (UnreasonablySizedBlueprintError width height), self')
    /\ entities self' = entities self
    /\ entity_map self' = recursive_add (entity_map self) objs e
    /\ contains (entity_map self') e = true
    /\ _area self' = extend_aabb (_area self) (get_world_bounding_box objs e)
    /\ _tile_width self' = width /\ _tile_height self' = height.
Proof.
  intros Hover Hins Hdim Hbig.
  unfold EntityList_append, on_entity_insert. rewrite Hover. simpl.
  rewrite Hins, Hdim.
  assert (Z.ltb 10000 width || Z.ltb 10000 height = true) as ->.
  { apply orb_true_iff. destruct Hbig; [left|right]; by apply Z.ltb_lt. }
  eexists. split; [reflexivity|]. simpl.
  repeat split. apply recursive_add_contains.
Qed.

(** X29: An insertion that is entirely merged leaves the index, the area and
    the list alone. *)
Lemma merged_insert_adds_nothing (self : Blueprint) (entitylike : EntityLike)
  (merge : bool) (objs : Objects) (warned : list Warning) :
  handle_overlapping (entity_map self) (objects self) entitylike merge
    = (None, objs, warned) ->
  exists self',
    on_entity_insert self entitylike merge = (inr None, self')
    /\ EntityList_append self entitylike merge = (inr tt, self')
    /\ entities self' = entities self /\ entity_map self' = entity_map self
    /\ _area self' = _area self /\ objects self' = objs.
Proof.
  intros Hover. unfold EntityList_append, on_entity_insert. rewrite Hover. simpl.
  eexists. repeat split.
Qed.

End Facts.
Section FromSpec.
Variable collision_box : string -> Box.

#[local] Existing Instance from_spec.

Lemma mergable_with_overlaps (d1 d2 : EntityData) :
  ((top_left (collision_box (name d1))).1 <= (bot_right (collision_box (name d1))).1)%Q ->
  ((top_left (collision_box (name d1))).2 <= (bot_right (collision_box (name d1))).2)%Q ->
  mergable_with d1 d2 = true ->
  overlaps (world_box collision_box d1) (world_box collision_box d2) = true.
Proof.
  intros Hx Hy Hm. unfold mergable_with in Hm.
  apply andb_prop in Hm as [Hm Hpy]. apply andb_prop in Hm as [Hn Hpx].
  apply String.eqb_eq in Hn. apply Qeq_bool_iff in Hpx, Hpy.
  unfold overlaps, world_box. rewrite <- Hn. simpl.
  repeat (apply andb_true_intro; split); apply Qle_bool_iff; lra.
Qed.

(** C8: a first entity appended to an empty blueprint and a second one
    with the same name and position appended with [merge=True]:
    [on_entity_insert] returns [None] for the second, the entity list
    still has the one entity, and that entity now carries the mergeable
    fields ([bar], [tags]) of the second. *)
Theorem same_entity_twice_merges (d1 d2 : EntityData) (merge1 : bool)
  (bp1 : @Blueprint (from_spec collision_box)) :
  ((top_left (collision_box (name d1))).1 <= (bot_right (collision_box (name d1))).1)%Q ->
  ((top_left (collision_box (name d1))).2 <= (bot_right (collision_box (name d1))).2)%Q ->
  mergable_with d1 d2 = true ->
  append_new collision_box (empty collision_box) d1 merge1 = (inr tt, bp1) ->
  exists (survivor : nat) (bp2 : @Blueprint (from_spec collision_box)),
    entities bp1 = [survivor]
    /\ on_entity_insert
         (@Build_Blueprint (from_spec collision_box)
            (objects bp1 ++ [d2]) (entities bp1) (entity_map bp1) (_area bp1)
            (_tile_width bp1) (_tile_height bp1) (issued bp1))
         (length (objects bp1) : @EntityLike (from_spec collision_box)) true
       = (inr None, bp2)
    /\ append_new collision_box bp1 d2 true = (inr tt, bp2)
    /\ entities bp2 = [survivor] /\ length (entities bp2) = 1%nat
    /\ entity_map bp2 = entity_map bp1
    /\ objects bp2 !! survivor = Some (merge_into d1 d2)
    /\ (forall d, objects bp2 !! survivor = Some d ->
          name d = name d1 /\ position d = position d1
          /\ bar d = bar d2 /\ tags d = tags d2).
Proof.
  intros Hx Hy Hm H1.
  assert (Hov := mergable_with_overlaps d1 d2 Hx Hy Hm).
  unfold append_new, EntityList_append, on_entity_insert in H1.
  cbn -[world_box Qceiling] in H1.
  match type of H1 with context [if ?b then _ else _] => destruct b end;
    [discriminate|].
  injection H1 as <-.
  exists 0%nat. eexists. split; [reflexivity|].
  unfold append_new, EntityList_append, on_entity_insert.
  cbn -[world_box Qceiling overlaps mergable_with merge_into].
  rewrite Hov. cbn -[world_box Qceiling overlaps mergable_with merge_into].
  rewrite Hm. cbn -[world_box Qceiling overlaps mergable_with merge_into].
  repeat split; try reflexivity;
    match goal with H : _ !! _ = Some _ |- _ => injection H as <- end; reflexivity.
Qed.

End FromSpec.
End BlueprintInsertFacts.

(** ** blueprint.py: insertion into the example blueprints *)

Module InsertExampleFacts.
Import BlueprintInsert BlueprintInsertFacts Examples.

(** C3, as stated, fails: the chest whose insertion raises the size error
    is in the spatial index afterwards. *)
Lemma oversized_entity_stays_in_index :
  ~ (forall (bp bp' : @Blueprint (from_spec one_tile)) (d : EntityData) (merge : bool)
            (w h : Z),
       append_new one_tile bp d merge = (inl (UnreasonablySizedBlueprintError w h), bp') ->
       spec_contains (entities bp') (length (objects bp)) = false
       /\ spec_contains (entity_map bp') (length (objects bp)) = false).
Proof.
  intros H.
  destruct (H one_chest far_chest_attempt.2 (chest 0.5 20000.5 None) false 1 20001)
    as [_ Hin].
  - vm_compute. reflexivity.
  - vm_compute in Hin. discriminate Hin.
Qed.

Lemma oversized_insert_is_not_rolled_back_witness :
  exists self' : @Blueprint (from_spec one_tile),
    EntityList_append one_chest_and_a_far_one (1%nat : @EntityLike (from_spec one_tile)) false
      = (inl (UnreasonablySizedBlueprintError 1 20001), self')
    /\ entities self' = entities one_chest_and_a_far_one
    /\ entity_map self'
       = recursive_add (entity_map one_chest_and_a_far_one)
           (objects one_chest_and_a_far_one) (1%nat : @EntityLike (from_spec one_tile))
    /\ contains (entity_map self') (1%nat : @EntityLike (from_spec one_tile)) = true
    /\ _area self'
       = extend_aabb (_area one_chest_and_a_far_one)
           (get_world_bounding_box (objects one_chest_and_a_far_one)
              (1%nat : @EntityLike (from_spec one_tile)))
    /\ _tile_width self' = 1 /\ _tile_height self' = 20001.
Proof.
  apply (oversized_insert_is_not_rolled_back (C := from_spec one_tile)
           one_chest_and_a_far_one 1%nat 1%nat false
           (objects one_chest_and_a_far_one) [] 1 20001).
  - vm_compute. reflexivity.
  - reflexivity.
  - vm_compute. reflexivity.
  - right. lia.
Defined.

Lemma same_entity_twice_merges_witness :
  exists (survivor : nat) (bp2 : @Blueprint (from_spec one_tile)),
    append_new one_tile one_chest (chest 0.5 0.5 (Some 10)) true = (inr tt, bp2)
    /\ length (entities bp2) = 1%nat
    /\ objects bp2 !! survivor = Some (chest 0.5 0.5 (Some 10)).
Proof.
  destruct (same_entity_twice_merges one_tile (chest 0.5 0.5 None) (chest 0.5 0.5 (Some 10))
              false one_chest)
    as (survivor & bp2 & _ & _ & Happend & _ & Hlen & _ & Hobj & _).
  - vm_compute. discriminate.
  - vm_compute. discriminate.
  - reflexivity.
  - vm_compute. reflexivity.
  - exists survivor, bp2. split; [exact Happend|]. split; [exact Hlen|exact Hobj].
Defined.

End InsertExampleFacts.

(** ** constant_combinator.py *)

Module ConstantCombinatorFacts.
Import Validators ConstantCombinator.

Section Facts.
Variable signal_dict : string -> option SignalID.

#[local] Abbreviation set_signal := (set_signal signal_dict).
#[local] Abbreviation new_SignalFilter := (new_SignalFilter signal_dict).

Lemma new_SignalFilter_inr (i : Z) (s : option SignalArgument) (c : Z) (entry : SignalFilter) :
  new_SignalFilter i s c = inr entry ->
  index entry = i /\ count entry = c /\ int64 i = true /\ int32 c = true
  /\ (s = None -> signal entry = None).
Proof.
  unfold ConstantCombinator.new_SignalFilter.
  destruct (int64 i) eqn:Hi, (int32 c) eqn:Hc; simpl; try discriminate.
  destruct s as [s|].
  - destruct (validate_signal signal_dict s); [|discriminate].
    intros [= <-]. repeat split; done.
  - intros [= <-]. repeat split; done.
Qed.

Lemma get_signal_find (filters : option (list SignalFilter)) (i : Z) :
  get_signal filters i = List.find (fun item => index item =? i + 1) (default [] filters).
Proof. destruct filters as [[|f l]|]; reflexivity. Qed.

Lemma existing_find (target : Z) (i : nat) (filters : list SignalFilter) :
  match existing target i filters with
  | Some k =>
      exists before f after,
        filters = before ++ f :: after /\ k = (i + length before)%nat
        /\ index f = target /\ Forall (fun g => index g <> target) before
  | None => Forall (fun g => index g <> target) filters
  end.
Proof.
  revert i. induction filters as [|f l IH]; intros i; simpl; [constructor|].
  destruct (Z.eqb_spec target (index f)) as [->|Hne].
  - exists [], f, l. simpl. repeat split; [lia|constructor].
  - specialize (IH (S i)). destruct (existing target (S i) l) as [k|].
    + destruct IH as (before & g & after & -> & -> & Hg & Hbefore).
      exists (f :: before), g, after. simpl. repeat split; [lia|done|].
      constructor; [congruence|done].
    + constructor; [congruence|done].
Qed.

Lemma find_skip (target : Z) (before rest : list SignalFilter) :
  Forall (fun g => index g <> target) before ->
  List.find (fun item => index item =? target) (before ++ rest)
  = List.find (fun item => index item =? target) rest.
Proof.
  induction 1 as [|g before Hg _ IH]; simpl; [reflexivity|].
  destruct (Z.eqb_spec (index g) target); [done|exact IH].
Qed.

Lemma find_absent (target : Z) (l : list SignalFilter) :
  Forall (fun g => index g <> target) l ->
  List.find (fun item => index item =? target) l = None.
Proof. intros H. rewrite <- (app_nil_r l). by rewrite find_skip. Qed.

Lemma find_other (target other : Z) (before after : list SignalFilter) (f : SignalFilter) :
  index f <> other ->
  List.find (fun item => index item =? other) (before ++ f :: after)
  = List.find (fun item => index item =? other) (before ++ after).
Proof.
  intros Hf. induction before as [|g before IH]; simpl.
  - destruct (Z.eqb_spec (index f) other); done.
  - destruct (index g =? other); [reflexivity|exact IH].
Qed.

Lemma insert_middle (before after : list SignalFilter) (f x : SignalFilter) :
  <[length before := x]> (before ++ f :: after) = before ++ x :: after.
Proof. by rewrite insert_app_r_alt, Nat.sub_diag by lia. Qed.

Lemma delete_middle (before after : list SignalFilter) (f : SignalFilter) :
  delete (length before) (before ++ f :: after) = before ++ after.
Proof. induction before; simpl; [reflexivity|by f_equal]. Qed.

(** The outcome of [set_signal], case by case. *)
Lemma set_signal_inr (filters filters' : option (list SignalFilter)) (i : Z)
  (s : option SignalArgument) (c : Z) :
  set_signal filters i s c = inr filters' ->
  exists entry,
    new_SignalFilter (i + 1) s c = inr entry
    /\ ((exists before f after,
           default [] filters = before ++ f :: after
           /\ index f = i + 1 /\ Forall (fun g => index g <> i + 1) before
           /\ filters' = Some (match s with
                               | None => before ++ after
                               | Some _ => before ++ entry :: after
                               end))
        \/ (Forall (fun g => index g <> i + 1) (default [] filters)
            /\ filters' = Some (default [] filters ++ [entry]))).
Proof.
  unfold ConstantCombinator.set_signal. intros H.
  destruct (ConstantCombinator.new_SignalFilter signal_dict (i + 1) s c)
    as [e|entry] eqn:Hentry; [discriminate|].
  simpl in H. exists entry. split; [reflexivity|].
  pose proof (existing_find (i + 1) 0 (default [] filters)) as Hex.
  destruct (existing (i + 1) 0 (default [] filters)) as [k|].
  - destruct Hex as (before & f & after & Hl & -> & Hf & Hbefore). left.
    exists before, f, after. repeat split; try done.
    rewrite Hl in H. simpl in H.
    destruct s; injection H as <-; f_equal.
    + apply insert_middle.
    + apply delete_middle.
  - right. split; [done|]. by destruct s; injection H as <-.
Qed.

(** X1: A signal that was set is the one read back at that index. *)
Theorem get_signal_after_set_signal (filters filters' : option (list SignalFilter))
  (i : Z) (s : SignalArgument) (c : Z) :
  set_signal filters i (Some s) c = inr filters' ->
  exists entry,
    get_signal filters' i = Some entry
    /\ new_SignalFilter (i + 1) (Some s) c = inr entry
    /\ index entry = i + 1 /\ count entry = c.
Proof.
  intros H. apply set_signal_inr in H as (entry & Hentry & H).
  destruct (new_SignalFilter_inr _ _ _ _ Hentry) as (Hi & Hc & _).
  exists entry. repeat split; try done.
  rewrite get_signal_find.
  destruct H as [(before & f & after & _ & _ & Hbefore & ->) | [Habsent ->]]; simpl.
  - rewrite find_skip by done. simpl. rewrite Hi, Z.eqb_refl. reflexivity.
  - rewrite find_skip by done. simpl. rewrite Hi, Z.eqb_refl. reflexivity.
Qed.

(** X2: Setting or clearing one index leaves what is read at every other
    index as it was. *)
Theorem set_signal_leaves_other_indices (filters filters' : option (list SignalFilter))
  (i j : Z) (s : option SignalArgument) (c : Z) :
  i <> j ->
  set_signal filters i s c = inr filters' ->
  get_signal filters' j = get_signal filters j.
Proof.
  intros Hij H. apply set_signal_inr in H as (entry & Hentry & H).
  destruct (new_SignalFilter_inr _ _ _ _ Hentry) as (Hi & _).
  rewrite !get_signal_find.
  destruct H as [(before & f & after & -> & Hf & _ & ->) | [_ ->]]; simpl.
  - rewrite (find_other (i + 1)) by lia.
    destruct s; [|reflexivity].
    rewrite (find_other (i + 1)) by lia. reflexivity.
  - replace (default [] filters) with (default [] filters ++ []) at 2
      by apply app_nil_r.
    apply (find_other (i + 1)). lia.
Qed.

(** X3: Clearing an index that holds nothing appends an entry without a
    signal, which is then what [get_signal] reads there. *)
Theorem clearing_an_empty_slot_fills_it (filters filters' : option (list SignalFilter))
  (i c : Z) :
  get_signal filters i = None ->
  set_signal filters i None c = inr filters' ->
  let entry := {| index := i + 1; signal := None; count := c |} in
  filters' = Some (default [] filters ++ [entry])
  /\ get_signal filters' i = Some entry.
Proof.
  intros Hget H. apply set_signal_inr in H as (entry & Hentry & H).
  destruct (new_SignalFilter_inr _ _ _ _ Hentry) as (Hi & Hc & _ & _ & Hs).
  assert (entry = {| index := i + 1; signal := None; count := c |}) as ->.
  { destruct entry as [ei es ec]. simpl in *. rewrite Hs by done. congruence. }
  rewrite get_signal_find in Hget.
  destruct H as [(before & f & after & Hl & Hf & Hbefore & _) | [Habsent ->]].
  - rewrite Hl, find_skip in Hget by done. simpl in Hget.
    rewrite Hf, Z.eqb_refl in Hget. discriminate.
  - split; [reflexivity|]. rewrite get_signal_find. simpl.
    rewrite find_skip by done. simpl. rewrite Z.eqb_refl. reflexivity.
Qed.

(** X4: While no two entries share an index, [set_signal] keeps it so, and
    clearing an index that holds an entry leaves nothing to read
    there. *)
Theorem set_signal_keeps_indices_distinct (filters filters' : option (list SignalFilter))
  (i : Z) (s : option SignalArgument) (c : Z) :
  NoDup (index <$> default [] filters) ->
  set_signal filters i s c = inr filters' ->
  NoDup (index <$> default [] filters')
  /\ (s = None -> is_Some (get_signal filters i) -> get_signal filters' i = None).
Proof.
  intros Hnodup H. apply set_signal_inr in H as (entry & Hentry & H).
  destruct (new_SignalFilter_inr _ _ _ _ Hentry) as (Hi & _).
  destruct H as [(before & f & after & Hl & Hf & Hbefore & ->) | [Habsent ->]].
  - rewrite Hl in Hnodup. rewrite fmap_app, fmap_cons in Hnodup.
    split.
    + destruct s; simpl.
      * rewrite fmap_app, fmap_cons. by rewrite Hi, <- Hf.
      * rewrite fmap_app. apply NoDup_app in Hnodup as (Hb & Hdisj & Ha).
        apply NoDup_cons in Ha as [_ Ha].
        apply NoDup_app. repeat split; try done.
        intros x Hx Hx'. apply (Hdisj x Hx). by right.
    + intros -> _. rewrite get_signal_find. simpl.
      rewrite find_skip by done.
      apply find_absent. apply NoDup_app in Hnodup as (_ & _ & Ha).
      apply NoDup_cons in Ha as [Hnotin _].
      apply Forall_forall. intros g Hg Heq. apply Hnotin.
      rewrite Hf, <- Heq. by apply list_elem_of_fmap_2.
  - split.
    + simpl. rewrite fmap_app. simpl. apply NoDup_app. repeat split; [done| |apply NoDup_singleton].
      intros x Hx ->%list_elem_of_singleton.
      apply list_elem_of_fmap in Hx as (g & Hg & Hin).
      rewrite Forall_forall in Habsent. apply (Habsent g Hin). congruence.
    + intros _ [f Hsome]. rewrite get_signal_find, find_absent in Hsome by done.
      discriminate.
Qed.

(** X5: [set_signal] addresses the slots of a combinator from 0 and stores
    them from 1; the validator of the stored index accepts an index below
    the slot count only, so of the slots a combinator has the last one,
    once set, does not validate. *)
Theorem set_signal_last_slot_is_rejected (filters filters' : option (list SignalFilter))
  (i : Z) (s : SignalArgument) (c slots : Z) (context : Context) (entity : Entity) :
  object context = Some entity ->
  item_slot_count entity = Some slots ->
  0 <= i < slots ->
  set_signal filters i (Some s) c = inr filters' ->
  exists entry,
    get_signal filters' i = Some entry
    /\ (i < slots - 1 ->
        ensure_index_within_range (index entry) (Some context) = inr (index entry))
    /\ (i = slots - 1 ->
        ensure_index_within_range (index entry) (Some context)
        = inl (IndexValueError slots slots)).
Proof.
  intros Hobj Hslots Hi H. apply set_signal_inr in H as (entry & Hentry & H).
  destruct (new_SignalFilter_inr _ _ _ _ Hentry) as (Hindex & _).
  exists entry. split.
  - rewrite get_signal_find.
    destruct H as [(before & f & after & _ & _ & Hbefore & ->) | [Habsent ->]]; simpl;
      rewrite find_skip by done; simpl; rewrite Hindex, Z.eqb_refl; reflexivity.
  - unfold ensure_index_within_range, truthy. rewrite Hobj. simpl.
    rewrite orb_true_r. simpl. rewrite Hslots, Hindex.
    split.
    + intros Hlt.
      destruct (Z.leb_spec 0 (i + 1)); [|lia].
      destruct (Z.ltb_spec (i + 1) slots); [reflexivity|lia].
    + intros ->. replace (slots - 1 + 1) with slots by lia.
      rewrite Z.ltb_irrefl, andb_false_r. reflexivity.
Qed.

End Facts.
End ConstantCombinatorFacts.

(** ** Normalising validators *)

Module NormalizeFacts.
Import Any Normalize Validators.

Lemma enumerate_untouched (g : Z -> value -> value) (start : Z) (items : list value) :
  Forall (fun entry => is_str entry = false) items ->
  (fun entry : Z * value => if is_str entry.2 then g entry.1 entry.2 else entry.2)
    <$> Py.enumerate start items = items.
Proof.
  intros H. revert start. induction H as [|x l Hx _ IH]; intros start; simpl; [reflexivity|].
  rewrite Hx. f_equal. apply IH.
Qed.

Lemma enumerate_converted (g : Z -> value -> value) (start : Z) (items : list value) :
  (forall i v, is_str (g i v) = false) ->
  Forall (fun entry => is_str entry = false)
    ((fun entry : Z * value => if is_str entry.2 then g entry.1 entry.2 else entry.2)
       <$> Py.enumerate start items).
Proof.
  intros Hg. revert start. induction items as [|x l IH]; intros start; simpl; constructor.
  - destruct (is_str x) eqn:Hx; [apply Hg|exact Hx].
  - apply IH.
Qed.

Lemma enumerate_strings (g : Z -> value -> value) (start : Z) (items : list value) :
  Forall (fun entry => is_str entry = true) items ->
  (fun entry : Z * value => if is_str entry.2 then g entry.1 entry.2 else entry.2)
    <$> Py.enumerate start items
  = (fun entry : Z * value => g entry.1 entry.2) <$> Py.enumerate start items.
Proof.
  intros H. revert start. induction H as [|x l Hx _ IH]; intros start; simpl; [reflexivity|].
  rewrite Hx. f_equal. apply IH.
Qed.

(** X6: Normalising icons twice is normalising them once. *)
Theorem normalize_icons_idempotent (value : Any.value) :
  normalize_icons (normalize_icons value) = normalize_icons value.
Proof.
  unfold normalize_icons at 2 3.
  destruct (as_Sequence value) as [items|] eqn:Hseq.
  - unfold normalize_icons. simpl. f_equal.
    apply enumerate_untouched, enumerate_converted. reflexivity.
  - unfold normalize_icons. rewrite Hseq. reflexivity.
Qed.

(** X7: What [set_icons] builds is already normal, and it is what
    [normalize_icons] makes of the names when all of them are strings. *)
Theorem set_icons_is_normalized (icon_names : list value) :
  normalize_icons (set_icons icon_names) = set_icons icon_names
  /\ (Forall (fun name => is_str name = true) icon_names ->
      normalize_icons (VList icon_names) = set_icons icon_names
      /\ normalize_icons (VTuple icon_names) = set_icons icon_names).
Proof.
  split.
  - unfold normalize_icons, set_icons. simpl. f_equal.
    apply enumerate_untouched.
    generalize 0. induction icon_names as [|x l IH]; intros start; simpl; constructor.
    + reflexivity.
    + apply IH.
  - intros H. unfold normalize_icons, set_icons. simpl.
    rewrite (enumerate_strings icon_dict) by done. done.
Qed.

(** The entry index a normalised entry carries. *)
Lemma filter_entries (start : Z) (names : list string) :
  (fun entry : Z * value => if is_str entry.2 then filter_dict entry.1 entry.2 else entry.2)
    <$> Py.enumerate start (VStr <$> names)
  = (fun entry : Z * string => filter_dict entry.1 (VStr entry.2))
    <$> Py.enumerate start names.
Proof.
  revert start. induction names as [|x l IH]; intros start; simpl; [reflexivity|].
  f_equal. apply IH.
Qed.

Lemma accepted_from (context : Context) (entity : Entity) (slots start : Z)
  (names : list string) :
  object context = Some entity ->
  filter_count entity = Some slots ->
  Forall (fun entry => exists n, entry_index entry = Some n
                       /\ ensure_within_filter_count n (Some context) = inr n)
    ((fun entry : Z * string => filter_dict entry.1 (VStr entry.2))
       <$> Py.enumerate start names)
  <-> names = [] \/ start + Z.of_nat (length names) < slots.
Proof.
  intros Hobj Hslots. revert start.
  induction names as [|x l IH]; intros start; simpl.
  - split; [by left|constructor].
  - rewrite Forall_cons, IH. clear IH.
    unfold ensure_within_filter_count, truthy. rewrite Hobj. simpl.
    rewrite orb_true_r. simpl. rewrite Hslots.
    split.
    + intros [(n & [= <-] & Hn) Hrest]. right.
      destruct (Z.leb_spec slots (start + 1)); [discriminate|].
      destruct Hrest as [-> | Hrest]; simpl; lia.
    + intros [? | Hlt]; [discriminate|]. split.
      * exists (start + 1). split; [reflexivity|].
        destruct (Z.leb_spec slots (start + 1)); [lia|reflexivity].
      * destruct l; [by left|right]. simpl in *. lia.
Qed.

(** X8: [Filters.normalize_validate] numbers the names of a list from 1, and
    the validator of a filter index accepts an index below the filter
    count only: a list of names is accepted when there are fewer names than
    the entity has filter slots, so one name per slot is rejected. *)
Theorem one_filter_per_slot_is_rejected (context : Context) (entity : Entity)
  (slots : Z) (names : list string) :
  object context = Some entity ->
  filter_count entity = Some slots ->
  exists entries,
    Filters_normalize_validate (VList (VStr <$> names)) = VList entries
    /\ length entries = length names
    /\ (Forall (fun entry => exists n, entry_index entry = Some n
                  /\ ensure_within_filter_count n (Some context) = inr n) entries
        <-> names = [] \/ Z.of_nat (length names) < slots).
Proof.
  intros Hobj Hslots. eexists. split; [reflexivity|].
  rewrite filter_entries. split.
  - by rewrite length_fmap, PyFacts.enumerate_length.
  - apply (accepted_from context entity slots 0 names Hobj Hslots).
Qed.

(** X9: [Filters.normalize_validate] returns a list whatever it is given,
    the empty one for what is neither a list nor a tuple ([None], a
    mapping, a string), and returns that list normalised again as it
    is. *)
Theorem Filters_normalize_validate_idempotent (value : Any.value) :
  (exists entries, Filters_normalize_validate value = VList entries)
  /\ Filters_normalize_validate (Filters_normalize_validate value)
     = Filters_normalize_validate value
  /\ ((forall items, value <> VList items) -> (forall items, value <> VTuple items) ->
      Filters_normalize_validate value = VList []).
Proof.
  assert (forall items,
    Filters_normalize_validate (Filters_normalize_validate (VList items))
    = Filters_normalize_validate (VList items)) as Hitems.
  { intros items. simpl. f_equal.
    apply enumerate_untouched, enumerate_converted. reflexivity. }
  destruct value; try (split; [by eexists|split; [reflexivity|done]]).
  - split; [by eexists|split; [exact (Hitems items)|]].
    intros _ H. by destruct (H items).
  - split; [by eexists|split; [exact (Hitems items)|]].
    intros H _. by destruct (H items).
Qed.

Lemma request_from (start : Z) (items : list value) :
  (exists result,
     Py.for_each (fun entry : Z * value =>
         match entry.2 with
         | VTuple fields | VList fields => request_dict entry.1 fields
         | other => inr other
         end) (Py.enumerate start items) = inr result)
  <-> Forall (fun entry => match entry with
                           | VTuple fields | VList fields => (2 <= length fields)%nat
                           | _ => True
                           end) items.
Proof.
  revert start. induction items as [|x l IH]; intros start; simpl.
  - split; [constructor|by eexists].
  - rewrite Forall_cons, <- (IH (start + 1)). clear IH.
    assert (forall fields, (exists d, request_dict start fields = inr d)
                           <-> (2 <= length fields)%nat) as Hfields.
    { intros [|a [|b fields]]; simpl; split; try lia; try (by intros [? ?]);
        intros _; by eexists. }
    split.
    + intros [result H].
      destruct x; simpl in H;
        try (destruct (Py.for_each _ _) as [|rest]; [discriminate|];
             split; [done|by eexists]).
      all: destruct (request_dict start items) as [|d] eqn:Hd; [discriminate|];
        destruct (Py.for_each _ _) as [|rest]; [discriminate|];
        split; [apply Hfields; by eexists|by eexists].
    + intros [Hx [rest Hrest]]. rewrite Hrest.
      destruct x; simpl; try by eexists.
      all: apply Hfields in Hx as [d ->]; by eexists.
Qed.

(** X10: [RequestFilters.normalize_validate] raises, an [IndexError], exactly
    when the list has a tuple or list entry of fewer than two elements;
    what is not a list is returned as it is. *)
Theorem RequestFilters_normalize_validate_raises (value : Any.value) :
  (exists result, RequestFilters_normalize_validate value = inr result)
  <-> forall items, value = VList items ->
        Forall (fun entry => match entry with
                             | VTuple fields | VList fields => (2 <= length fields)%nat
                             | _ => True
                             end) items.
Proof.
  destruct value; simpl;
    try (split; [intros _ items' [=]|intros _; by eexists]).
  split.
  - intros [result H] items' [= <-]. apply (request_from 0).
    destruct (Py.for_each _ _) as [|r]; [discriminate|]. by eexists.
  - intros H. specialize (H items eq_refl). apply (request_from 0) in H as [r ->].
    by eexists.
Qed.

Lemma convert_from_app (i : Z) (done done' rest : list value) :
  convert_from i done = (None, done') ->
  convert_from i (done ++ rest)
  = let (raised, rest') := convert_from (i + Z.of_nat (length done)) rest in
    (raised, done' ++ rest').
Proof.
  revert i done'. induction done as [|x l IH]; intros i done'; simpl.
  - intros [= <-]. rewrite Z.add_0_r. by destruct (convert_from i rest).
  - destruct (match x with VTuple fields => signal_dict_of i fields | other => inr other end)
      as [e|x'] eqn:Hx; [discriminate|].
    destruct (convert_from (i + 1) l) as [raised l'] eqn:Hl.
    intros [= -> <-]. rewrite (IH (i + 1) l' Hl).
    replace (i + 1 + Z.of_nat (length l)) with (i + Z.of_nat (S (length l))) by lia.
    by destruct (convert_from _ rest).
Qed.

(** X11: [normalize_input] assigns the converted entries into the list it was
    given: when a tuple of fewer than two elements makes it raise, the
    entries before that tuple are already converted in the caller's
    list, and the tuple and what follows it are as they were. *)
Theorem normalize_input_stops_half_way (done done' fields rest : list value) :
  normalize_input (VList done) = (inr (VList done'), VList done') ->
  (length fields < 2)%nat ->
  normalize_input (VList (done ++ VTuple fields :: rest))
  = (inl IndexError, VList (done' ++ VTuple fields :: rest)).
Proof.
  unfold normalize_input. intros Hdone Hfields.
  destruct (convert_from 0 done) as [[e|] l] eqn:Hl; [discriminate|].
  injection Hdone as ->. rewrite (convert_from_app 0 done done' _ Hl). simpl.
  destruct fields as [|a [|b fields]]; simpl in *; try lia; reflexivity.
Qed.

Lemma convert_from_inr (i : Z) (entries entries' : list value) :
  convert_from i entries = (None, entries') ->
  length entries' = length entries
  /\ Forall (fun entry => match entry with VTuple _ => False | _ => True end) entries'.
Proof.
  revert i entries'. induction entries as [|x l IH]; intros i entries'; simpl.
  - intros [= <-]. split; [reflexivity|constructor].
  - destruct (match x with VTuple fields => signal_dict_of i fields | other => inr other end)
      as [e|x'] eqn:Hx; [discriminate|].
    destruct (convert_from (i + 1) l) as [raised l'] eqn:Hl.
    intros [= -> <-]. destruct (IH _ _ Hl) as [Hlen Hall].
    split; [simpl; by f_equal|]. constructor; [|done].
    destruct x; try (by injection Hx as <-).
    unfold signal_dict_of in Hx.
    destruct (Py.getitem items 0), (Py.getitem items 1); try discriminate.
    by injection Hx as <-.
Qed.

Lemma convert_from_fixed (i : Z) (entries : list value) :
  Forall (fun entry => match entry with VTuple _ => False | _ => True end) entries ->
  convert_from i entries = (None, entries).
Proof.
  intros H. revert i. induction H as [|x l Hx _ IH]; intros i; simpl; [reflexivity|].
  rewrite IH. by destruct x.
Qed.

(** X12: When [normalize_input] returns, the caller's list is the result, it
    has as many entries as before, no tuple is left in it and normalising
    it again changes nothing. *)
Theorem normalize_input_returns_its_argument (value result after : Any.value) :
  normalize_input value = (inr result, after) ->
  after = result
  /\ normalize_input result = (inr result, result)
  /\ (forall entries, value = VList entries ->
        exists entries', result = VList entries'
          /\ length entries' = length entries
          /\ Forall (fun entry => match entry with VTuple _ => False | _ => True end)
               entries').
Proof.
  unfold normalize_input.
  destruct value; try (intros [= <- <-]; repeat split; done).
  destruct (convert_from 0 items) as [[e|] l] eqn:Hl; [discriminate|].
  intros [= <- <-]. destruct (convert_from_inr _ _ _ Hl) as [Hlen Hall].
  split; [reflexivity|]. split.
  - by rewrite convert_from_fixed.
  - intros entries [= <-]. by exists l.
Qed.

End NormalizeFacts.

(** ** Conditions *)

Module ConditionFacts.
Import Any Normalize.

(** X13: Every comparator is normalised to one that is not in Python's
    spelling and that normalising leaves alone; the ten spellings
    [_set_condition] accepts are normalised to the six of the
    [comparator] field. *)
Theorem comparator_normal_form (input : string) :
  let output := normalize_comparator_python_equivalents input in
  normalize_comparator_python_equivalents output = output
  /\ (output ∉ ["=="; ">="; "<="; "!="])
  /\ (input ∈ set_condition_comparators -> output ∈ Condition_comparators).
Proof.
  unfold normalize_comparator_python_equivalents,
    set_condition_comparators, Condition_comparators.
  rewrite !not_elem_of_cons, !elem_of_cons, !elem_of_nil.
  destruct (String.eqb_spec input "==") as [->|H1];
    [simpl; intuition discriminate|].
  destruct (String.eqb_spec input ">=") as [->|H2];
    [simpl; intuition discriminate|].
  destruct (String.eqb_spec input "<=") as [->|H3];
    [simpl; intuition discriminate|].
  destruct (String.eqb_spec input "!=") as [->|H4];
    [simpl; intuition discriminate|].
  simpl.
  destruct (String.eqb_spec input "=="); [done|].
  destruct (String.eqb_spec input ">="); [done|].
  destruct (String.eqb_spec input "<="); [done|].
  destruct (String.eqb_spec input "!="); [done|].
  intuition.
Qed.


End ConditionFacts.

(** ** Field validators *)

Module ValidatorsFacts.
Import Signatures Validators.

(** X15: Whatever [ensure_bar_less_than_inventory_size] raises propagates as
    it is: in pedantic mode a bar at or past the inventory size raises
    the [BarWarning] itself, which is no validation error. *)
Theorem bar_warning_is_not_a_validation_error :
  (forall (value : option Z) (context : option Context) (e : exn),
     ensure_bar_less_than_inventory_size value context = inl e ->
     becomes_ValidationError e = false)
  /\ (forall (bar size : Z) (c : Context) (wl : list Warning) (entity : Entity),
        mode c = Some PEDANTIC -> warning_list c = Some wl ->
        object c = Some entity -> inventory_size entity = Some size ->
        size <> 0 -> size <= bar ->
        ensure_bar_less_than_inventory_size (Some bar) (Some c)
        = inl (Raised (BarWarning bar size))).
Proof.
  split.
  - intros [bar|] [c|] e; unfold ensure_bar_less_than_inventory_size; try discriminate.
    destruct (truthy (Some c)); simpl; [|discriminate].
    destruct (mode c) as [m|]; simpl; [|by intros [= <-]].
    destruct (mode_eqb m MINIMUM); [discriminate|].
    destruct (warning_list c) as [wl|]; simpl; [|by intros [= <-]].
    destruct (object c) as [entity|]; simpl; [|by intros [= <-]].
    destruct (inventory_size entity) as [size|]; [|discriminate].
    destruct (negb (size =? 0) && (size <=? bar)); [|discriminate].
    destruct (mode_eqb m PEDANTIC); [|discriminate]. by intros [= <-].
  - intros bar size c wl entity Hm Hwl Hobj Hsize Hnz Hle.
    unfold ensure_bar_less_than_inventory_size, truthy.
    rewrite Hm, Hwl, Hobj. simpl. rewrite Hsize.
    destruct (Z.eqb_spec size 0); [done|].
    destruct (Z.leb_spec size bar); [reflexivity|lia].
Qed.

Section Data.
Variable raw : string -> bool.
Variable get_signal_type : string -> option string.
Variable pure_virtual : list string.
Variable extract : option string -> nat -> exn + list (string * Z).

(** X16: The two checks of a [SignalID] never both object to the same
    signal: a name that [check_name_recognized] reports is one that
    [check_type_matches_name] passes over. *)
Theorem signal_checks_do_not_overlap (id : SignalID) (c : Context) (m : ValidationMode)
  (wl : list Warning) :
  mode c = Some m -> warning_list c = Some wl ->
  check_name_recognized raw extract (signal_name id) (Some c) = inr (Some c)
  \/ check_type_matches_name raw get_signal_type id (Some c) = inr (Some c).
Proof.
  intros Hm Hwl. unfold check_name_recognized, check_type_matches_name, truthy.
  rewrite Hm, Hwl. simpl.
  destruct (mode_eqb m MINIMUM); [by left|].
  destruct (signal_name id) as [name|]; simpl; [|by right].
  destruct (raw name); simpl; [by left|by right].
Qed.

(** X17: A signal without a name, which the format allows, counts as an
    unknown signal in every mode but [minimum]: [get_suggestion] is asked
    for a name close to [None] before any warning exists, so an exception
    of [process.extract] on that query leaves the validator as it is, and
    only when the search returns is the signal reported, with the
    suggestion found, and rejected in [pedantic].  Either way the validator
    does not pass the signal over in silence. *)
Theorem nameless_signal_is_unknown (c : Context) (m : ValidationMode) (wl : list Warning) :
  mode c = Some m -> warning_list c = Some wl -> m <> MINIMUM ->
  check_name_recognized raw extract None (Some c)
  = match get_suggestion extract None 1 60 with
    | inl e => inl e
    | inr suggestion =>
        if mode_eqb m PEDANTIC
        then inl (ValueError (UnknownSignalWarning None suggestion))
        else inr (Some (append c wl (UnknownSignalWarning None suggestion)))
    end
  /\ (forall e, extract None 1 = inl e ->
       check_name_recognized raw extract None (Some c) = inl e)
  /\ check_name_recognized raw extract None (Some c) <> inr (Some c).
Proof.
  intros Hm Hwl Hmin.
  assert (Hrun : check_name_recognized raw extract None (Some c)
    = match get_suggestion extract None 1 60 with
      | inl e => inl e
      | inr suggestion =>
          if mode_eqb m PEDANTIC
          then inl (ValueError (UnknownSignalWarning None suggestion))
          else inr (Some (append c wl (UnknownSignalWarning None suggestion)))
      end).
  { unfold check_name_recognized, truthy. rewrite Hm, Hwl. simpl.
    destruct m; try done; simpl; by destruct (get_suggestion _ _ _ _). }
  split; [exact Hrun|]. split.
  - intros e He. rewrite Hrun. unfold get_suggestion. by rewrite He.
  - rewrite Hrun. destruct (get_suggestion _ _ _ _) as [e|suggestion]; [done|].
    destruct (mode_eqb m PEDANTIC); [done|].
    intros Heq. injection Heq as Heq.
    apply (f_equal warning_list) in Heq. rewrite Hwl in Heq. simpl in Heq.
    injection Heq as Heq. apply (f_equal length) in Heq.
    rewrite length_app in Heq. simpl in Heq. lia.
Qed.

(** X18: In pedantic mode a pure virtual signal in a constant combinator is a
    validation error; in the other modes but [minimum] it is a warning
    and the only change to the context. *)
Theorem pure_virtual_by_mode (id : SignalID) (name : string) (c : Context)
  (m : ValidationMode) (wl : list Warning) :
  mode c = Some m -> warning_list c = Some wl ->
  signal_name id = Some name -> name ∈ pure_virtual ->
  let issue := PureVirtualDisallowedWarning (Some name) in
  match m with
  | MINIMUM => ensure_not_pure_virtual pure_virtual (Some id) (Some c) = inr (Some c)
  | PEDANTIC =>
      ensure_not_pure_virtual pure_virtual (Some id) (Some c) = inl (ValueError issue)
      /\ becomes_ValidationError (ValueError issue) = true
  | _ => ensure_not_pure_virtual pure_virtual (Some id) (Some c)
         = inr (Some (append c wl issue))
  end.
Proof.
  intros Hm Hwl Hname Hin. unfold ensure_not_pure_virtual, truthy.
  rewrite Hm, Hwl, Hname. simpl. rewrite bool_decide_eq_true_2 by done.
  destruct m; simpl; done.
Qed.

End Data.

End ValidatorsFacts.

(** ** blueprintable.py *)

Module BlueprintableFacts.
Import Signatures Blueprintable.

(** X19: A context without an ["object"] makes [warn_unused_arguments] raise
    a [KeyError] in every mode but [minimum], whether or not the model
    has unknown keys. *)
Theorem warn_unused_arguments_needs_object (self : Model) (c : Context)
  (m : ValidationMode) :
  mode c = Some m -> m <> MINIMUM -> object c = None ->
  warn_unused_arguments self (Some c) = inl (KeyError "object").
Proof.
  intros Hm Hmin Hobj. unfold warn_unused_arguments, truthy.
  rewrite Hm, Hobj. simpl. by destruct m.
Qed.

(** X20: A forced validation under mode [none] runs in [Blueprintable.validate]
    and gives what [strict] gives; [Blueprint.validate] returns the
    empty result under [none], forced or not. *)
Theorem forced_validation_under_none (format : string) (root : option Model)
  (is_valid force : bool) :
  Blueprintable.validate format root NONE true
  = Blueprintable.validate format root STRICT force
  /\ Blueprintable.validate format root NONE false
     = inr {| error_list := []; result_warnings := [] |}
  /\ Signatures.validate format root NONE is_valid force
     = inr {| error_list := []; result_warnings := [] |}.
Proof.
  split; [|split; reflexivity].
  unfold Blueprintable.validate. simpl.
  destruct root as [self|]; [|reflexivity].
  unfold model_validate, warn_unused_arguments. simpl.
  destruct (String.eqb format (model_type self)); simpl;
    destruct (model_extra self); reflexivity.
Qed.


(** The initial root never passes: the context of the construction has a
    mode that is not [minimum] and no ["object"], which the validator of the
    root item's model reads. *)
Lemma initial_root_is_rejected (object_ root : option Model) :
  validate_nested object_ root (Some construction_context)
  = inl (match object_ with
         | Some _ => KeyError "object"
         | None => ValidationError
         end).
Proof.
  by destruct object_.
Qed.

(** C4: no blueprint comes out of [Blueprint(x)], whatever [x] is -- nothing,
    a string or a dict, valid or not: [Blueprintable.__init__] validates
    the initial root under the context
    [{"construction": True, "mode": ValidationMode.NONE}], in which
    [warn_unused_arguments] looks up ["object"], and the [KeyError] leaves
    the constructor before [setup] is called.  There is nothing to export,
    so import followed by export does not give [x] back. *)
Theorem construction_never_reaches_setup (object_ root : option Model)
  (blueprint : InitData) :
  Blueprint__init__ object_ root blueprint
  = inl (OfValidation (match object_ with
                       | Some _ => KeyError "object"
                       | None => ValidationError
                       end))
  /\ forall call, Blueprint__init__ object_ root blueprint <> inr call.
Proof.
  unfold Blueprint__init__, __init__. rewrite initial_root_is_rejected.
  split; [reflexivity|discriminate].
Qed.

End BlueprintableFacts.

(** ** The area of a blueprint *)

Module BlueprintAreaFacts.
Import BlueprintInsert BlueprintArea.

Section Facts.
Context `{TC : TileCollaborators}.

(** X22: [recalculate_area] starts from nothing: what it leaves and whether
    it raises do not depend on the area recorded before, and calling it
    again changes nothing. *)
Theorem recalculate_area_idempotent (self : Blueprint) :
  recalculate_area (recalculate_area self).2 = recalculate_area self.
Proof.
  unfold recalculate_area.
  destruct (aabb_to_dimensions
              (scanned_area (objects (entity_side self)) (entities (entity_side self))
                 (tiles self))) as [width height] eqn:Hdim.
  destruct (Z.ltb 10000 width || Z.ltb 10000 height) eqn:Hbig; simpl;
    rewrite Hdim, Hbig; reflexivity.
Qed.

(** X23: While the recorded area is the one [recalculate_area] would find,
    inserting a tile that is not merged keeps it so for the tiles with
    the new one at the end; the tile is added to the tile map and the
    area extended also when the size limit is exceeded, which is when the
    insertion raises. *)
Theorem on_tile_insert_keeps_area_current (self : Blueprint) (tile t : Tile)
  (merge : bool) (objs : Objects) (warned : list Warning) :
  tile_handle_overlapping (tile_map self) (objects (entity_side self)) tile merge
    = (Some t, objs, warned) ->
  _area (entity_side self)
    = scanned_area objs (entities (entity_side self)) (tiles self) ->
  let outcome := (on_tile_insert self tile merge).1 in
  let after := (on_tile_insert self tile merge).2 in
  _area (entity_side after)
    = scanned_area (objects (entity_side after)) (entities (entity_side after))
        (tiles after ++ [t])
  /\ tile_map after = tile_add (tile_map self) objs t
  /\ aabb_to_dimensions (_area (entity_side after))
     = (_tile_width (entity_side after), _tile_height (entity_side after))
  /\ outcome
     = if Z.ltb 10000 (_tile_width (entity_side after))
          || Z.ltb 10000 (_tile_height (entity_side after))
       then inl (UnreasonablySizedBlueprintError (_tile_width (entity_side after))
                   (_tile_height (entity_side after)))
       else inr (Some t).
Proof.
  intros Hover Harea. unfold on_tile_insert. rewrite Hover.
  destruct (aabb_to_dimensions _) as [width height] eqn:Hdim.
  assert (extend_aabb (_area (entity_side self)) (tile_get_world_bounding_box objs t)
          = scanned_area objs (entities (entity_side self)) (tiles self ++ [t])) as Hext.
  { unfold scanned_area. rewrite fold_left_app. simpl. by rewrite Harea. }
  destruct (Z.ltb 10000 width || Z.ltb 10000 height) eqn:Hbig; simpl;
    rewrite ?Hbig; repeat split; done.
Qed.

(** X24: While the recorded area is the one [recalculate_area] would find,
    inserting an entity that is not merged into a blueprint without
    tiles keeps it so for the entities with the new one at the end; the
    area is extended also when the size limit is exceeded, which is when
    the insertion raises. *)
Theorem on_entity_insert_keeps_area_current (self : BlueprintInsert.Blueprint)
  (entitylike e : EntityLike) (merge : bool) (objs : Objects) (warned : list Warning) :
  handle_overlapping (entity_map self) (objects self) entitylike merge
    = (Some e, objs, warned) ->
  on_insert objs e = None ->
  _area self = scanned_area objs (entities self) [] ->
  let outcome := (on_entity_insert self entitylike merge).1 in
  let after := (on_entity_insert self entitylike merge).2 in
  _area after = scanned_area (objects after) (entities after ++ [e]) []
  /\ aabb_to_dimensions (_area after) = (_tile_width after, _tile_height after)
  /\ outcome
     = if Z.ltb 10000 (_tile_width after) || Z.ltb 10000 (_tile_height after)
       then inl (UnreasonablySizedBlueprintError (_tile_width after) (_tile_height after))
       else inr (Some e).
Proof.
  intros Hover Hinsert Harea. unfold on_entity_insert. rewrite Hover. simpl.
  rewrite Hinsert.
  destruct (aabb_to_dimensions _) as [width height] eqn:Hdim.
  assert (extend_aabb (_area self) (get_world_bounding_box objs e)
          = scanned_area objs (entities self ++ [e]) []) as Hext.
  { unfold scanned_area in *. simpl in *. rewrite fold_left_app. simpl. by rewrite Harea. }
  destruct (Z.ltb 10000 width || Z.ltb 10000 height) eqn:Hbig; simpl;
    rewrite ?Hbig; repeat split; done.
Qed.

End Facts.
End BlueprintAreaFacts.

(** ** blueprint.py: the references of an export and of an import *)

Module ReferenceFacts.
Import BlueprintExport BlueprintImport PyFacts BlueprintExportFacts.

Section OfExport.
Context `{R : Runtime}.

Lemma resolved_in_range (fl : list Entity) (old new : ref) :
  resolved fl old new ->
  exists i : nat, new = Number (Z.of_nat i + 1) /\ (i < length fl)%nat.
Proof.
  intros (a & target & i & _ & _ & Hi & ->). exists i. split; [reflexivity|].
  apply index_Some in Hi as [(y & Hy & _) _]. by eapply lookup_lt_Some.
Qed.

Lemma Forall2_resolved_in_range (fl : list Entity) (olds news : list ref) :
  Forall2 (resolved fl) olds news ->
  Forall (fun new => exists i : nat, new = Number (Z.of_nat i + 1) /\ (i < length fl)%nat)
    news.
Proof.
  induction 1 as [|old new olds news H _ IH]; constructor; [|exact IH].
  by eapply resolved_in_range.
Qed.

(** X25: In what [to_dict] exports, every reference of an entity and every
    locomotive of a schedule is the entity number of one of the exported
    entities. *)
Theorem exported_references_are_entity_numbers (self : Blueprint) (en ed : bool)
  (d : BlueprintDict) :
  (to_dict self en ed).1 = inr d ->
  let numbered_entity (r : ref) :=
    exists (i : nat) (target : EntityDict),
      r = Number (Z.of_nat i + 1)
      /\ default [] (entities d) !! i = Some target
      /\ entity_number target = Some (Z.of_nat i + 1) in
  Forall (fun out => Forall numbered_entity (entity_refs out)) (default [] (entities d))
  /\ Forall (fun out => Forall numbered_entity (locomotives out)) (default [] (schedules d)).
Proof.
  intros H. apply to_dict_inr in H as (es1 & es2 & ss & H1 & H2 & H3 & ->). simpl.
  rewrite !default_drop_empty.
  set (fl := flatten_entities (_entities self)) in *.
  apply number_entities_inr in H1 as [Hnum _].
  apply for_each_inr in H2. apply for_each_inr in H3.
  assert (entity_number <$> es2 = Some <$> Py.range 1 (length fl)) as Hnum2.
  { rewrite <- Hnum. symmetry. apply fmap_eq_Forall2.
    eapply Forall2_impl; [exact H2|]. intros a b Hab.
    apply resolve_entity_inr in Hab as [_ Hab]. by rewrite Hab. }
  assert (forall i : nat, (i < length fl)%nat ->
            exists target, (offset_entity (snapping_grid_position self) <$> es2) !! i
                           = Some target
                           /\ entity_number target = Some (Z.of_nat i + 1)) as Htarget.
  { intros i Hi.
    assert ((entity_number <$> es2) !! i = Some (Some (1 + Z.of_nat i))) as Hlook.
    { rewrite Hnum2, list_lookup_fmap, range_lookup by done. reflexivity. }
    rewrite list_lookup_fmap in Hlook.
    destruct (es2 !! i) as [b|] eqn:Hb; [|discriminate].
    exists (offset_entity (snapping_grid_position self) b).
    rewrite list_lookup_fmap, Hb. split; [reflexivity|].
    simpl in *. injection Hlook as ->. f_equal. lia. }
  assert (forall news,
            Forall (fun new => exists i : nat, new = Number (Z.of_nat i + 1)
                                               /\ (i < length fl)%nat) news ->
            Forall (fun r => exists (i : nat) (target : EntityDict),
                      r = Number (Z.of_nat i + 1)
                      /\ (offset_entity (snapping_grid_position self) <$> es2) !! i
                         = Some target
                      /\ entity_number target = Some (Z.of_nat i + 1)) news) as Hnews.
  { intros news Hall. eapply Forall_impl; [exact Hall|].
    intros r (i & -> & Hi). destruct (Htarget i Hi) as (target & Ht & Hn).
    by exists i, target. }
  split.
  - apply Forall_fmap. apply Forall_forall. intros b Hb.
    apply list_elem_of_lookup in Hb as [k Hb].
    destruct (Forall2_lookup_r _ _ _ _ _ H2 Hb) as (a & _ & Hab).
    apply resolve_entity_refs, Forall2_resolved_in_range in Hab.
    apply Hnews. exact Hab.
  - apply Forall_forall. intros s' Hs'.
    apply list_elem_of_lookup in Hs' as [k Hs'].
    destruct (Forall2_lookup_r _ _ _ _ _ H3 Hs') as (s & _ & Hss).
    apply resolve_schedule_refs, Forall2_resolved_in_range in Hss.
    apply Hnews. exact Hss.
Qed.

End OfExport.

Section OfImport.
Context {F A : Type}.
#[local] Abbreviation V := (ImportedValues F A).

(** X26: [setup] looks an entity number [n] up at index [n - 1] of the entity
    list, as Python indexes: a number from [1 - N] to 0 counts from the
    end of the [N] entities, 0 being the last one, and only a number
    past [N] or below [1 - N] raises the [IndexError]. *)
Theorem entity_numbers_wrap_around (entities : list nat) (n : Z) :
  let count := Z.of_nat (length entities) in
  (1 - count <= n <= 0 ->
   associate (F := F) (A := A) entities (Number n)
   = associate (F := F) (A := A) entities (Number (n + count))
   /\ exists e : nat,
        entities !! Z.to_nat (n + count - 1) = Some e
        /\ associate (F := F) (A := A) entities (Number n)
           = inr (Assoc (e : @Association V)))
  /\ (associate (F := F) (A := A) entities (Number n) = inl BlueprintImport.IndexError
      <-> n < 1 - count \/ count < n).
Proof.
  intros count. subst count. unfold associate, Py.getitem. split.
  - intros Hn.
    destruct (Z.leb_spec 0 (n - 1)); [lia|].
    destruct (Z.leb_spec 0 (Z.of_nat (length entities) + (n - 1))); [|lia].
    destruct (Z.leb_spec 0 (n + Z.of_nat (length entities) - 1)); [|lia].
    replace (Z.of_nat (length entities) + (n - 1))
      with (n + Z.of_nat (length entities) - 1) by lia.
    split; [reflexivity|].
    destruct (lookup_lt_is_Some_2 entities (Z.to_nat (n + Z.of_nat (length entities) - 1)))
      as [e He]; [lia|].
    exists e. by rewrite He.
  - destruct (Z.leb_spec 0 (n - 1)).
    + destruct (entities !! Z.to_nat (n - 1)) as [e|] eqn:He.
      * apply lookup_lt_Some in He. split; [discriminate|lia].
      * apply lookup_ge_None in He. split; [lia|done].
    + destruct (Z.leb_spec 0 (Z.of_nat (length entities) + (n - 1))).
      * destruct (entities !! Z.to_nat _) as [e|] eqn:He.
        -- split; [discriminate|lia].
        -- apply lookup_ge_None in He. lia.
      * split; [lia|done].
Qed.

End OfImport.

End ReferenceFacts.

(** ** The examples of signals, filters and tiles *)

Module EntityExampleFacts.
Import Any Normalize Signatures Validators ConstantCombinator EntityExamples.
Import ConstantCombinatorFacts NormalizeFacts ConditionFacts ValidatorsFacts.

Lemma get_signal_after_set_signal_witness :
  exists entry,
    get_signal (Some [ {| index := 1;
                          signal := Some {| signal_name := Some "signal-A";
                                            signal_type := "virtual" |};
                          count := 7 |} ]) 0 = Some entry
    /\ new_SignalFilter example_signal_dict (0 + 1) (Some (ByName "signal-A")) 7 = inr entry
    /\ index entry = 0 + 1 /\ count entry = 7.
Proof.
  apply (get_signal_after_set_signal example_signal_dict None _ 0 (ByName "signal-A") 7).
  reflexivity.
Defined.

Lemma set_signal_leaves_other_indices_witness :
  get_signal (Some [ {| index := 1;
                        signal := Some {| signal_name := Some "iron-plate";
                                          signal_type := "item" |};
                        count := 100 |} ]) 0
  = get_signal two_signals 0.
Proof.
  apply (set_signal_leaves_other_indices example_signal_dict two_signals _ 1 0 None 0).
  - lia.
  - reflexivity.
Defined.

Lemma clearing_an_empty_slot_fills_it_witness :
  Some (default [] two_signals ++ [ {| index := 5 + 1; signal := None; count := 0 |} ])
  = Some (default [] two_signals ++ [ {| index := 5 + 1; signal := None; count := 0 |} ])
  /\ get_signal
       (Some (default [] two_signals ++ [ {| index := 5 + 1; signal := None; count := 0 |} ]))
       5
     = Some {| index := 5 + 1; signal := None; count := 0 |}.
Proof.
  apply (clearing_an_empty_slot_fills_it example_signal_dict two_signals _ 5 0).
  - reflexivity.
  - reflexivity.
Defined.

Lemma set_signal_keeps_indices_distinct_witness :
  NoDup (index <$> default [] (Some [ {| index := 1;
                                         signal := Some {| signal_name := Some "iron-plate";
                                                           signal_type := "item" |};
                                         count := 100 |} ]))
  /\ ((None : option SignalArgument) = None -> is_Some (get_signal two_signals 1) ->
      get_signal (Some [ {| index := 1;
                            signal := Some {| signal_name := Some "iron-plate";
                                              signal_type := "item" |};
                            count := 100 |} ]) 1 = None).
Proof.
  apply (set_signal_keeps_indices_distinct example_signal_dict two_signals _ 1 None 0).
  - apply (bool_decide_unpack _). vm_compute. exact I.
  - reflexivity.
Defined.

Lemma set_signal_last_slot_is_rejected_witness :
  exists entry,
    get_signal (Some (default [] two_signals
                      ++ [ {| index := 20;
                              signal := Some {| signal_name := Some "signal-A";
                                                signal_type := "virtual" |};
                              count := 1 |} ])) 19 = Some entry
    /\ (19 < 20 - 1 ->
        ensure_index_within_range (index entry) (Some (validation_of combinator STRICT))
        = inr (index entry))
    /\ (19 = 20 - 1 ->
        ensure_index_within_range (index entry) (Some (validation_of combinator STRICT))
        = inl (IndexValueError 20 20)).
Proof.
  apply (set_signal_last_slot_is_rejected example_signal_dict two_signals _ 19
           (ByName "signal-A") 1 20 (validation_of combinator STRICT) combinator).
  - reflexivity.
  - reflexivity.
  - lia.
  - reflexivity.
Defined.

Lemma set_icons_is_normalized_witness :
  normalize_icons (VList [VStr "signal-A"; VStr "iron-plate"])
  = set_icons [VStr "signal-A"; VStr "iron-plate"]
  /\ normalize_icons (VTuple [VStr "signal-A"; VStr "iron-plate"])
     = set_icons [VStr "signal-A"; VStr "iron-plate"].
Proof.
  apply (proj2 (set_icons_is_normalized [VStr "signal-A"; VStr "iron-plate"])).
  repeat constructor.
Defined.

Lemma one_filter_per_slot_is_rejected_witness :
  exists entries,
    Filters_normalize_validate
      (VList (VStr <$> ["iron-plate"; "copper-plate"; "coal"; "stone"; "wood"]))
    = VList entries
    /\ length entries = length ["iron-plate"; "copper-plate"; "coal"; "stone"; "wood"]
    /\ (Forall (fun entry => exists n, entry_index entry = Some n
                  /\ ensure_within_filter_count n
                       (Some (validation_of filter_inserter STRICT)) = inr n) entries
        <-> ["iron-plate"; "copper-plate"; "coal"; "stone"; "wood"] = []
            \/ Z.of_nat (length ["iron-plate"; "copper-plate"; "coal"; "stone"; "wood"]) < 5).
Proof.
  apply (one_filter_per_slot_is_rejected (validation_of filter_inserter STRICT)
           filter_inserter 5).
  - reflexivity.
  - reflexivity.
Defined.

Lemma Filters_normalize_validate_idempotent_witness :
  Filters_normalize_validate (VStr "iron-plate") = VList [].
Proof.
  apply (proj2 (proj2 (Filters_normalize_validate_idempotent (VStr "iron-plate"))));
    discriminate.
Defined.

Lemma RequestFilters_normalize_validate_raises_witness :
  exists result,
    RequestFilters_normalize_validate
      (VList [VTuple [VStr "iron-plate"; VInt 100]; VDict [("index", VInt 2)]])
    = inr result.
Proof.
  apply (proj2 (RequestFilters_normalize_validate_raises
                  (VList [VTuple [VStr "iron-plate"; VInt 100]; VDict [("index", VInt 2)]]))).
  intros items [= <-]. repeat constructor.
Defined.

Lemma normalize_input_stops_half_way_witness :
  normalize_input (VList ([VTuple [VStr "signal-A"; VInt 1]]
                          ++ VTuple [VStr "signal-B"] :: [VTuple [VStr "signal-C"; VInt 3]]))
  = (inl Normalize.IndexError,
     VList ([VDict [("index", VInt 1); ("signal", VStr "signal-A"); ("count", VInt 1)]]
            ++ VTuple [VStr "signal-B"] :: [VTuple [VStr "signal-C"; VInt 3]])).
Proof.
  apply (normalize_input_stops_half_way [VTuple [VStr "signal-A"; VInt 1]]).
  - reflexivity.
  - simpl. lia.
Defined.

Lemma normalize_input_returns_its_argument_witness :
  VList [VDict [("index", VInt 1); ("signal", VStr "signal-A"); ("count", VInt 1)]]
  = VList [VDict [("index", VInt 1); ("signal", VStr "signal-A"); ("count", VInt 1)]]
  /\ normalize_input
       (VList [VDict [("index", VInt 1); ("signal", VStr "signal-A"); ("count", VInt 1)]])
     = (inr (VList [VDict [("index", VInt 1); ("signal", VStr "signal-A");
                           ("count", VInt 1)]]),
        VList [VDict [("index", VInt 1); ("signal", VStr "signal-A"); ("count", VInt 1)]]).
Proof.
  refine (let H := normalize_input_returns_its_argument
                     (VList [VTuple [VStr "signal-A"; VInt 1]]) _ _ eq_refl in
          conj (proj1 H) (proj1 (proj2 H))).
Defined.

Lemma comparator_normal_form_witness :
  normalize_comparator_python_equivalents ">=" ∈ Condition_comparators.
Proof.
  apply (proj2 (proj2 (comparator_normal_form ">="))).
  unfold set_condition_comparators. rewrite !elem_of_cons. tauto.
Defined.

Lemma bar_warning_is_not_a_validation_error_witness :
  ensure_bar_less_than_inventory_size (Some 16) (Some (validation_of wooden_chest PEDANTIC))
  = inl (Raised (BarWarning 16 16)).
Proof.
  apply (proj2 bar_warning_is_not_a_validation_error 16 16
           (validation_of wooden_chest PEDANTIC) [] wooden_chest);
    try reflexivity; lia.
Defined.

Lemma signal_checks_do_not_overlap_witness :
  check_name_recognized example_raw example_extract (Some "signal-B")
    (Some (validation_of combinator STRICT))
  = inr (Some (validation_of combinator STRICT))
  \/ check_type_matches_name example_raw example_get_signal_type
       {| signal_name := Some "signal-B"; signal_type := "virtual" |}
       (Some (validation_of combinator STRICT))
     = inr (Some (validation_of combinator STRICT)).
Proof.
  apply (signal_checks_do_not_overlap example_raw example_get_signal_type example_extract
           {| signal_name := Some "signal-B"; signal_type := "virtual" |}
           (validation_of combinator STRICT) STRICT []); reflexivity.
Defined.

Lemma nameless_signal_is_unknown_witness :
  check_name_recognized example_raw example_extract None
    (Some (validation_of combinator STRICT))
  = inl TypeError.
Proof.
  apply (proj1 (nameless_signal_is_unknown example_raw example_extract
                  (validation_of combinator STRICT) STRICT []
                  eq_refl eq_refl ltac:(discriminate))).
Defined.

Lemma pure_virtual_by_mode_witness :
  ensure_not_pure_virtual example_pure_virtual
    (Some {| signal_name := Some "signal-each"; signal_type := "virtual" |})
    (Some (validation_of combinator PEDANTIC))
  = inl (ValueError (PureVirtualDisallowedWarning (Some "signal-each")))
  /\ becomes_ValidationError (ValueError (PureVirtualDisallowedWarning (Some "signal-each")))
     = true.
Proof.
  apply (pure_virtual_by_mode example_pure_virtual
           {| signal_name := Some "signal-each"; signal_type := "virtual" |} "signal-each"
           (validation_of combinator PEDANTIC) PEDANTIC []); try reflexivity.
  unfold example_pure_virtual. rewrite !elem_of_cons. tauto.
Defined.

Lemma warn_unused_arguments_needs_object_witness :
  warn_unused_arguments Examples.example_model (Some Blueprintable.construction_context)
  = inl (Signatures.KeyError "object").
Proof.
  apply (BlueprintableFacts.warn_unused_arguments_needs_object Examples.example_model
           Blueprintable.construction_context NONE);
    [reflexivity | discriminate | reflexivity].
Defined.


Lemma validate_by_mode_witness :
  Signatures.validate (model_type Examples.example_model) (Some Examples.example_model)
    STRICT false false
  = inr {| error_list := []; result_warnings := [issue_of Examples.example_model] |}.
Proof.
  refine (proj1 (SignaturesFacts.validate_by_mode Examples.example_model _)).
  discriminate.
Defined.

End EntityExampleFacts.

(** ** The examples of blueprints, again *)

Module BlueprintExampleFacts.
Import BlueprintExport BlueprintImport BlueprintExportFacts Examples EntityExamples.

Lemma on_tile_insert_keeps_area_current_witness :
  BlueprintArea.tile_map (BlueprintArea.on_tile_insert chest_and_new_tile 1%nat false).2
  = BlueprintArea.tile_add (BlueprintArea.tile_map chest_and_new_tile)
      (BlueprintInsert.objects (BlueprintArea.entity_side chest_and_new_tile)) 1%nat.
Proof.
  refine (proj1 (proj2 (BlueprintAreaFacts.on_tile_insert_keeps_area_current
                          chest_and_new_tile 1%nat 1%nat false _ [] _ _))).
  - vm_compute. reflexivity.
  - vm_compute. reflexivity.
Defined.

Lemma on_entity_insert_keeps_area_current_witness :
  BlueprintInsert.aabb_to_dimensions
    (BlueprintInsert._area
       (BlueprintInsert.on_entity_insert one_chest_and_a_far_one
          (1%nat : @BlueprintInsert.EntityLike (BlueprintInsert.from_spec one_tile)) false).2)
  = (BlueprintInsert._tile_width
       (BlueprintInsert.on_entity_insert one_chest_and_a_far_one
          (1%nat : @BlueprintInsert.EntityLike (BlueprintInsert.from_spec one_tile)) false).2,
     BlueprintInsert._tile_height
       (BlueprintInsert.on_entity_insert one_chest_and_a_far_one
          (1%nat : @BlueprintInsert.EntityLike (BlueprintInsert.from_spec one_tile)) false).2).
Proof.
  refine (proj1 (proj2 (BlueprintAreaFacts.on_entity_insert_keeps_area_current
                          (TC := tiles_from_spec)
                          one_chest_and_a_far_one 1%nat 1%nat false _ [] _ _ _))).
  - vm_compute. reflexivity.
  - reflexivity.
  - vm_compute. reflexivity.
Defined.

Lemma merged_insert_adds_nothing_witness :
  exists self',
    BlueprintInsert.on_entity_insert one_chest_and_its_twin
      (1%nat : @BlueprintInsert.EntityLike (BlueprintInsert.from_spec one_tile)) true
    = (inr None, self')
    /\ BlueprintInsert.EntityList_append one_chest_and_its_twin
         (1%nat : @BlueprintInsert.EntityLike (BlueprintInsert.from_spec one_tile)) true
       = (inr tt, self')
    /\ BlueprintInsert.entities self' = BlueprintInsert.entities one_chest_and_its_twin
    /\ BlueprintInsert.entity_map self' = BlueprintInsert.entity_map one_chest_and_its_twin
    /\ BlueprintInsert._area self' = BlueprintInsert._area one_chest_and_its_twin
    /\ BlueprintInsert.objects self'
       = ([chest 0.5 0.5 (Some 10); chest 0.5 0.5 (Some 10)]
          : @BlueprintInsert.Objects (BlueprintInsert.from_spec one_tile)).
Proof.
  apply (BlueprintInsertFacts.merged_insert_adds_nothing
           one_chest_and_its_twin 1%nat true _ []).
  vm_compute. reflexivity.
Defined.

Lemma exported_references_are_entity_numbers_witness :
  Forall (fun out =>
            Forall (fun r => exists (i : nat) (target : EntityDict),
                      r = Number (Z.of_nat i + 1)
                      /\ default [] (entities exported_poles) !! i = Some target
                      /\ entity_number target = Some (Z.of_nat i + 1))
              (entity_refs out))
    (default [] (entities exported_poles)).
Proof.
  refine (proj1 (ReferenceFacts.exported_references_are_entity_numbers
                   (R := runtime twin_poles) grouped_poles true true exported_poles _)).
  vm_compute. reflexivity.
Defined.

Lemma entity_numbers_wrap_around_witness :
  associate (F := Q) (A := string) [0; 1; 2]%nat (Number 0)
  = associate (F := Q) (A := string) [0; 1; 2]%nat (Number (0 + 3)).
Proof.
  refine (proj1 (proj1 (ReferenceFacts.entity_numbers_wrap_around
                          (F := Q) (A := string) [0; 1; 2]%nat 0) _)).
  simpl. lia.
Defined.


End BlueprintExampleFacts.

(** ** blueprint.py: the offset loops of [to_dict], object by object *)

Module ExportOffsetFacts.
Import ExportOffset.

Section Facts.
Context {number : Type}.
Variable sub : number -> number -> number.
#[local] Open Scope nat_scope.

#[local] Abbreviation Store := (Store number).

Lemma write_other (store : Store) (object a : nat) (value : number * number) :
  a <> object -> write number store object value a = store a.
Proof.
  intros Ha. unfold write. by destruct (Nat.eqb_spec a object).
Qed.

Lemma write_same (store : Store) (object : nat) (value : number * number) :
  write number store object value object = value.
Proof.
  unfold write. by rewrite Nat.eqb_refl.
Qed.

(** One dict: only the object under ["position"] is written. *)
Lemma offset_frame (store : Store) (grid : nat) (dict : option nat) (a : nat) :
  dict <> Some a -> (offset number sub store grid dict).2 a = store a.
Proof.
  destruct dict as [position|]; [|done]. intros Hne. simpl.
  assert (a <> position) by congruence.
  unfold subtract_y, subtract_x. by rewrite !write_other.
Qed.

(** One dict whose position is not the grid object: both coordinates lose
    the grid's. *)
Lemma offset_position (store : Store) (grid position : nat) :
  grid <> position ->
  (offset number sub store grid (Some position)).2 position
  = (sub (store position).1 (store grid).1, sub (store position).2 (store grid).2).
Proof.
  intros Hne. simpl. unfold subtract_y, subtract_x.
  rewrite !write_same. by rewrite !write_other.
Qed.

Lemma offset_each_frame (dicts : list (option nat)) (store : Store) (grid a : nat) :
  Some a ∉ dicts -> (offset_each number sub store grid dicts).2 a = store a.
Proof.
  revert store. induction dicts as [|dict rest IH]; intros store Ha; [done|].
  apply not_elem_of_cons in Ha as [Hne Hrest].
  destruct dict as [position|]; [|done]. simpl.
  rewrite IH by done.
  apply (offset_frame store grid (Some position) a). congruence.
Qed.

Lemma offset_each_returns (dicts : list (option nat)) (store : Store) (grid : nat) :
  Forall is_Some dicts -> (offset_each number sub store grid dicts).1 = None.
Proof.
  revert store. induction dicts as [|dict rest IH]; intros store Hall; [done|].
  apply Forall_cons in Hall as [[position ->] Hrest]. simpl. by apply IH.
Qed.

(** A dict without a ["position"] stops the loop with a [KeyError]. *)
Lemma offset_each_raises (dicts : list (option nat)) (store : Store) (grid : nat) :
  None ∈ dicts ->
  (offset_each number sub store grid dicts).1 = Some (KeyError "position").
Proof.
  revert store. induction dicts as [|dict rest IH]; intros store Hin.
  - by apply elem_of_nil in Hin.
  - destruct dict as [position|]; [|done]. simpl.
    apply IH. apply elem_of_cons in Hin as [?|?]; [done|assumption].
Qed.

Lemma offset_each_position (dicts : list (option nat)) (store : Store)
  (grid position : nat) :
  Forall is_Some dicts -> Some grid ∉ dicts -> NoDup dicts -> Some position ∈ dicts ->
  (offset_each number sub store grid dicts).2 position
  = (sub (store position).1 (store grid).1, sub (store position).2 (store grid).2).
Proof.
  revert store. induction dicts as [|dict rest IH]; intros store Hall Hgrid Hnodup Hin.
  - by apply elem_of_nil in Hin.
  - apply Forall_cons in Hall as [[first ->] Hall].
    apply not_elem_of_cons in Hgrid as [Hne Hgrid].
    apply NoDup_cons in Hnodup as [Hfresh Hnodup].
    apply elem_of_cons in Hin as [Heq|Hin].
    + injection Heq as <-. simpl. rewrite offset_each_frame by done.
      apply offset_position. congruence.
    + simpl. rewrite IH by done.
      change (subtract_y number sub (subtract_x number sub store first grid) first grid)
        with (offset number sub store grid (Some first)).2.
      rewrite !offset_frame; [done| |]; congruence.
Qed.

(** The loop over the tiles carries on from the store the loop over the
    entities leaves: together they are one loop over both lists. *)
Lemma offset_positions_app (store : Store) (grid : nat) (entities tiles : list (option nat)) :
  offset_positions number sub store grid entities tiles
  = offset_each number sub store grid (entities ++ tiles).
Proof.
  unfold offset_positions. revert store.
  induction entities as [|dict rest IH]; intros store; simpl.
  - reflexivity.
  - destruct dict as [position|]; [apply IH|done].
Qed.


(** An exported dict whose position is the very object the entity keeps
    moves the entity: the stored position is offset too. *)
Lemma shared_position_is_moved (store : Store) (grid stored : nat) :
  grid <> stored ->
  (offset_positions number sub store grid [Some stored] []).2 stored
  = (sub (store stored).1 (store grid).1, sub (store stored).2 (store grid).2).
Proof.
  intros Hne. rewrite offset_positions_app.
  apply offset_each_position.
  - apply Forall_cons. split; [by eexists|apply Forall_nil_2].
  - simpl. apply not_elem_of_cons. split; [congruence|apply not_elem_of_nil].
  - apply NoDup_singleton.
  - apply elem_of_cons. by left.
Qed.

(** The copies of [copy_positions] are objects of their own with the
    coordinates of the stored positions. *)
Lemma copy_positions_old (store : Store) (next : nat) (stored : list nat) (a : nat) :
  (a < next)%nat -> copy_positions number store next stored a = store a.
Proof.
  intros Ha. unfold copy_positions.
  destruct (Nat.leb_spec next a); [lia|done].
Qed.

Lemma copy_positions_new (store : Store) (next : nat) (stored : list nat)
  (i position : nat) :
  stored !! i = Some position ->
  copy_positions number store next stored (next + i) = store position.
Proof.
  intros Hi. unfold copy_positions.
  destruct (Nat.leb_spec next (next + i)); [|lia].
  replace (next + i - next)%nat with i by lia. by rewrite Hi.
Qed.

(** With the dicts of [to_dict()] holding copies, the export leaves every
    stored object as it was -- the snapping-grid position, the positions
    of the entities and of the tiles -- and the [i]-th exported position
    is the [i]-th stored one minus the snapping-grid position. *)
Lemma export_of_copies (store : Store) (grid next : nat)
  (stored_entities stored_tiles : list nat) :
  let stored := stored_entities ++ stored_tiles in
  let entities := Some <$> seq next (length stored_entities) in
  let tiles := Some <$> seq (next + length stored_entities) (length stored_tiles) in
  let after := offset_positions number sub (copy_positions number store next stored)
                 grid entities tiles in
  Forall (fun a => (a < next)%nat) (grid :: stored) ->
  after.1 = None
  /\ (forall a, (a < next)%nat -> after.2 a = store a)
  /\ (forall i position, stored !! i = Some position ->
        after.2 (next + i)%nat
        = (sub (store position).1 (store grid).1,
           sub (store position).2 (store grid).2)).
Proof.
  intros stored entities tiles after Hold.
  apply Forall_cons in Hold as [Hgrid Hold].
  assert (entities ++ tiles = Some <$> seq next (length stored)) as Happ.
  { subst entities tiles stored. by rewrite <- fmap_app, <- seq_app, length_app. }
  assert (forall a, (a < next)%nat -> Some a ∉ entities ++ tiles) as Hfresh.
  { intros a Ha. rewrite Happ, list_elem_of_fmap. intros (b & [= <-] & Hb).
    apply elem_of_seq in Hb. lia. }
  subst after. rewrite offset_positions_app.
  split; [|split].
  - apply offset_each_returns. rewrite Happ.
    apply Forall_fmap, Forall_forall. by eexists.
  - intros a Ha. rewrite offset_each_frame by auto.
    by apply copy_positions_old.
  - intros i position Hi. rewrite offset_each_position.
    + rewrite (copy_positions_new _ _ _ i position Hi).
      by rewrite (copy_positions_old _ _ _ grid Hgrid).
    + rewrite Happ. apply Forall_fmap, Forall_forall. by eexists.
    + auto.
    + rewrite Happ. apply (NoDup_fmap_2 _), NoDup_seq.
    + rewrite Happ. apply list_elem_of_fmap. exists (next + i)%nat. split; [done|].
      apply elem_of_seq. apply lookup_lt_Some in Hi. lia.
Qed.

End Facts.
End ExportOffsetFacts.

Module OffsetExampleFacts.
Import ExportOffset OffsetExamples.


End OffsetExampleFacts.
